(** * HAP-python camera accessory: stream negotiation (pyhap/_camera.py)

    A shallow embedding of [CameraAccessory]: the three capability encoders,
    the endpoint negotiator [set_endpoints] and the stream controller
    [set_selected_stream_configuration] with [_start_stream] and
    [_stop_stream].  Python exceptions are values of [exn]; methods that
    touch [self], the logger or the operating system run in a state and
    error monad. *)

From Stdlib Require Import ZArith NArith Strings.Byte Strings.Ascii.
From stdpp Require Import base decidable option list gmap strings fin_maps.

#[local] Open Scope Z_scope.

(** ** Python values *)

(** [bytes] objects. *)
Abbreviation bytes := (list byte).

(** [str] objects, as sequences of Unicode code points. *)
Abbreviation pystr := (list N).

(** A text literal of the source, as a [str]. *)
Definition lit (s : string) : pystr :=
  map (λ b, Byte.to_N b) (String.list_byte_of_string s).

#[global] Instance byte_eq_dec : EqDecision byte := Byte.byte_eq_dec.

#[global] Program Instance byte_countable : Countable byte :=
  inj_countable Byte.to_N Byte.of_N _.
Next Obligation. intros b. apply Byte.of_to_N. Qed.

(** The exceptions the embedded code can raise. *)
Inductive exn : Type :=
| KeyError
| IndexError
| TypeError
| UnboundLocalError (var : string)
| StructError
| UnicodeDecodeError
| UnicodeEncodeError
| MalformedTlv
| Base64Error
| FileNotFoundError.

#[global] Instance exn_eq_dec : EqDecision exn.
Proof. solve_decision. Defined.

(** A computation that returns or raises. *)
Definition exc (A : Type) : Type := exn + A.

Definition Ok {A} (a : A) : exc A := inr a.
Definition Raise {A} (e : exn) : exc A := inl e.

#[global] Instance exc_ret : MRet exc := λ A a, Ok a.
#[global] Instance exc_bind : MBind exc := λ A B f c,
  match c with inl e => inl e | inr a => f a end.
#[global] Instance exc_fmap : FMap exc := λ A B f c,
  match c with inl e => inl e | inr a => inr (f a) end.

(** [d[k]] on a dict: [KeyError] when the key is absent. *)
Definition getitem `{Countable K} {V} (d : gmap K V) (k : K) : exc V :=
  match d !! k with Some v => Ok v | None => Raise KeyError end.

(** [b[0]] on a [bytes] object: [IndexError] when it is empty. *)
Definition first_byte (b : bytes) : exc Z :=
  match b with x :: _ => Ok (Z.of_N (Byte.to_N x)) | [] => Raise IndexError end.

(** [x or d] on an int. *)
Definition or_int (x d : Z) : Z := if decide (x = 0) then d else x.

(** ** struct *)

Definition byte_of_Z (z : Z) : byte := default x00 (Byte.of_N (Z.to_N z)).
Definition byte_to_Z (b : byte) : Z := Z.of_N (Byte.to_N b).

(** [struct.pack('<H', x)] *)
Definition pack_H (x : Z) : exc bytes :=
  if decide (0 ≤ x ≤ 65535)
  then Ok [byte_of_Z (x `mod` 256); byte_of_Z (x `div` 256)]
  else Raise StructError.

(** [struct.unpack('<H', b)[0]] *)
Definition unpack_H (b : bytes) : exc Z :=
  match b with
  | [lo; hi] => Ok (byte_to_Z lo + 256 * byte_to_Z hi)
  | _ => Raise StructError
  end.

(** [struct.unpack('<B', b)[0]] *)
Definition unpack_B (b : bytes) : exc Z :=
  match b with
  | [x] => Ok (byte_to_Z x)
  | _ => Raise StructError
  end.

(** [struct.unpack('<H', d.get(k))[0]]: [d.get] gives [None] for an absent
    key, on which [struct.unpack] raises [TypeError]. *)
Definition unpack_H_opt (o : option bytes) : exc Z :=
  match o with Some b => unpack_H b | None => Raise TypeError end.

(** ** TLV8 codec (pyhap/tlv.py) *)

Module tlv.

Definition len_byte (n : nat) : byte := default x00 (Byte.of_nat n).

(** [n] chunks of 255 bytes, then the final chunk with the remainder. *)
Fixpoint fragments (n : nat) (t : byte) (v : bytes) : bytes :=
  match n with
  | O => t :: len_byte (length v) :: v
  | S n' => t :: xff :: take 255 v ++ fragments n' t (drop 255 v)
  end.

Definition encode_item (p : byte * bytes) : bytes :=
  let '(t, v) := p in
  if decide (length v ≤ 255)%nat
  then t :: len_byte (length v) :: v
  else fragments (length v / 255) t v.

(** Modelled from the spec: [pyhap.tlv.encode] is not among the sources.
    Section 4.1: each pair is emitted as type, length, value when the value
    has at most 255 bytes; a longer value is split into consecutive
    255-byte chunks plus one final chunk with the remainder, always
    emitted, all under the same type; the pairs are concatenated in
    order.  The call [tlv.encode(t1, v1, t2, v2)] is
    [encode [(t1, v1); (t2, v2)]]. *)
Definition encode (pairs : list (byte * bytes)) : bytes :=
  concat (map encode_item pairs).

(** One pass of the scan; [prev] is the type and length of the entry just
    before.  Every entry takes at least two bytes, so [length data] steps
    are enough (see [decode_loop_fuel]). *)
Fixpoint decode_loop (fuel : nat) (data : bytes) (objs : gmap byte bytes)
    (prev : option (byte * nat)) : exc (gmap byte bytes) :=
  match data with
  | [] => Ok objs
  | [_] => Raise MalformedTlv
  | t :: l :: rest =>
      let n := Byte.to_nat l in
      if decide (length rest < n)%nat then Raise MalformedTlv else
      match fuel with
      | O => Raise MalformedTlv
      | S fuel' =>
          let value := take n rest in
          let objs' :=
            if decide (prev = Some (t, 255%nat))
            then <[t := default [] (objs !! t) ++ value]> objs
            else <[t := value]> objs in
          decode_loop fuel' (drop n rest) objs' (Some (t, n))
      end
  end.

(** Modelled from the spec: [pyhap.tlv.decode] is not among the sources.
    Section 4.1: scan sequentially; an entry whose type equals the type of
    the entry just before it, when that entry had length exactly 255,
    continues it; any other entry starts a new value for its type,
    replacing an earlier one; a declared length beyond the end of the
    buffer is a malformed-input error. *)
Definition decode (data : bytes) : exc (gmap byte bytes) :=
  decode_loop (length data) data ∅ None.

End tlv.

(** ** Text: base64, UTF-8, [str] methods *)

Module base64.

Definition char (n : N) : N :=
  (if n <? 26 then 65 + n
   else if n <? 52 then 97 + (n - 26)
   else if n <? 62 then 48 + (n - 52)
   else if n =? 62 then 43 else 47)%N.

Definition value (c : N) : option N :=
  (if (65 <=? c) && (c <=? 90) then Some (c - 65)
   else if (97 <=? c) && (c <=? 122) then Some (c - 97 + 26)
   else if (48 <=? c) && (c <=? 57) then Some (c - 48 + 52)
   else if c =? 43 then Some 62
   else if c =? 47 then Some 63
   else None)%N.

Definition pad : N := 61%N.

Fixpoint encode (data : bytes) : pystr :=
  match data with
  | [] => []
  | [a] =>
      let n := (Byte.to_N a * 16)%N in
      [char (n / 64); char (n mod 64); pad; pad]%N
  | [a; b] =>
      let n := ((Byte.to_N a * 256 + Byte.to_N b) * 4)%N in
      [char (n / 4096); char (n / 64 mod 64); char (n mod 64); pad]%N
  | a :: b :: c :: rest =>
      let n := (Byte.to_N a * 65536 + Byte.to_N b * 256 + Byte.to_N c)%N in
      [char (n / 262144); char (n / 4096 mod 64); char (n / 64 mod 64);
       char (n mod 64)]%N ++ encode rest
  end.

Definition byte_of_N (n : N) : byte := default x00 (Byte.of_N n).

Fixpoint decode (s : pystr) : exc bytes :=
  match s with
  | [] => Ok []
  | c1 :: c2 :: c3 :: c4 :: rest =>
      match value c1, value c2, value c3, value c4 with
      | Some v1, Some v2, Some v3, Some v4 =>
          let n := (v1 * 262144 + v2 * 4096 + v3 * 64 + v4)%N in
          app [byte_of_N (n / 65536); byte_of_N (n / 256 mod 256);
               byte_of_N (n mod 256)]%N <$> decode rest
      | Some v1, Some v2, Some v3, None =>
          if decide (c4 = pad ∧ rest = []) then
            let n := (v1 * 4096 + v2 * 64 + v3)%N in
            Ok [byte_of_N (n / 1024); byte_of_N (n / 4 mod 256)]%N
          else Raise Base64Error
      | Some v1, Some v2, None, None =>
          if decide (c3 = pad ∧ c4 = pad ∧ rest = []) then
            Ok [byte_of_N ((v1 * 64 + v2) / 16)]%N
          else Raise Base64Error
      | _, _, _, _ => Raise Base64Error
      end
  | _ => Raise Base64Error
  end.

End base64.

(** Modelled from the spec: [pyhap.util.toBase64Str] is not among the
    sources.  Section 6: the blobs travel as base64 text carrying the TLV8
    byte sequence. *)
Definition toBase64Str (b : bytes) : pystr := base64.encode b.

(** Modelled from the spec: [pyhap.util.base64ToBytes] is not among the
    sources.  Section 6: the inverse of the above; text that is not the
    base64 form of a byte sequence is an error. *)
Definition base64ToBytes (s : pystr) : exc bytes := base64.decode s.

Module utf8.

Definition cont (b : N) : bool := ((128 <=? b) && (b <=? 191))%N.
Definition within (lo hi b : N) : bool := ((lo <=? b) && (b <=? hi))%N.

(** [bytes.decode('utf8')], strict: shortest forms only, no surrogates,
    nothing above U+10FFFF. *)
Fixpoint decode_N (l : list N) : exc pystr :=
  match l with
  | [] => Ok []
  | b0 :: r0 =>
      if (b0 <? 128)%N then cons b0 <$> decode_N r0
      else if within 194 223 b0 then
        match r0 with
        | b1 :: r1 =>
            if cont b1
            then cons ((b0 - 192) * 64 + (b1 - 128))%N <$> decode_N r1
            else Raise UnicodeDecodeError
        | _ => Raise UnicodeDecodeError
        end
      else if within 224 239 b0 then
        match r0 with
        | b1 :: b2 :: r2 =>
            let lo := (if b0 =? 224 then 160 else 128)%N in
            let hi := (if b0 =? 237 then 159 else 191)%N in
            if within lo hi b1 && cont b2
            then cons ((b0 - 224) * 4096 + (b1 - 128) * 64 + (b2 - 128))%N
                   <$> decode_N r2
            else Raise UnicodeDecodeError
        | _ => Raise UnicodeDecodeError
        end
      else if within 240 244 b0 then
        match r0 with
        | b1 :: b2 :: b3 :: r3 =>
            let lo := (if b0 =? 240 then 144 else 128)%N in
            let hi := (if b0 =? 244 then 143 else 191)%N in
            if within lo hi b1 && cont b2 && cont b3
            then cons ((b0 - 240) * 262144 + (b1 - 128) * 4096
                       + (b2 - 128) * 64 + (b3 - 128))%N <$> decode_N r3
            else Raise UnicodeDecodeError
        | _ => Raise UnicodeDecodeError
        end
      else Raise UnicodeDecodeError
  end.

Definition decode (b : bytes) : exc pystr := decode_N (map Byte.to_N b).

Definition encode_char (c : N) : exc bytes :=
  let B := base64.byte_of_N in
  (if c <? 128 then Ok [B c]
   else if c <? 2048 then Ok [B (192 + c / 64); B (128 + c mod 64)]
   else if c <? 65536 then
     if within 55296 57343 c then Raise UnicodeEncodeError
     else Ok [B (224 + c / 4096); B (128 + c / 64 mod 64); B (128 + c mod 64)]
   else if c <? 1114112 then
     Ok [B (240 + c / 262144); B (128 + c / 4096 mod 64);
         B (128 + c / 64 mod 64); B (128 + c mod 64)]
   else Raise UnicodeEncodeError)%N.

(** [str.encode('utf-8')] *)
Fixpoint encode (s : pystr) : exc bytes :=
  match s with
  | [] => Ok []
  | c :: s' => b ← encode_char c; app b <$> encode s'
  end.

End utf8.

Module str.

Fixpoint of_uint (d : Decimal.uint) : pystr :=
  match d with
  | Decimal.Nil => []
  | Decimal.D0 d => 48%N :: of_uint d
  | Decimal.D1 d => 49%N :: of_uint d
  | Decimal.D2 d => 50%N :: of_uint d
  | Decimal.D3 d => 51%N :: of_uint d
  | Decimal.D4 d => 52%N :: of_uint d
  | Decimal.D5 d => 53%N :: of_uint d
  | Decimal.D6 d => 54%N :: of_uint d
  | Decimal.D7 d => 55%N :: of_uint d
  | Decimal.D8 d => 56%N :: of_uint d
  | Decimal.D9 d => 57%N :: of_uint d
  end.

(** [str(n)] for an int, as [format] renders a [{name}] field. *)
Definition of_int (z : Z) : pystr :=
  match Z.to_int z with
  | Decimal.Pos d => of_uint d
  | Decimal.Neg d => 45%N :: of_uint d
  end.

(** [c.isspace()] *)
Definition isspace (c : N) : bool :=
  (utf8.within 9 13 c || utf8.within 28 32 c || (c =? 133) || (c =? 160)
   || (c =? 5760) || utf8.within 8192 8202 c || (c =? 8232) || (c =? 8233)
   || (c =? 8239) || (c =? 8287) || (c =? 12288))%N.

Fixpoint split_from (cur s : pystr) : list pystr :=
  match s with
  | [] => match cur with [] => [] | _ => [cur] end
  | c :: s' =>
      if isspace c
      then match cur with [] => split_from [] s' | _ => cur :: split_from [] s' end
      else split_from (cur ++ [c]) s'
  end.

(** [s.split()] *)
Definition split (s : pystr) : list pystr := split_from [] s.

(** [' '.join(l)] *)
Fixpoint join (l : list pystr) : pystr :=
  match l with
  | [] => []
  | [w] => w
  | w :: l' => w ++ 32%N :: join l'
  end.

End str.

(** ** The accessory and its surroundings *)

Inductive level : Type := DEBUG | WARNING | ERROR.

(** Arguments of a logging call. *)
Inductive pyval : Type :=
| VInt (z : Z)
| VBytes (b : bytes)
| VStr (s : pystr)
| VList (l : list pystr).

(** What the accessory does to its surroundings, in order:
    a call of the logger, a [print], a [set_value] on a characteristic of
    the management service, the start of a process, a [kill]. *)
Inductive event : Type :=
| Log (lvl : level) (fmt : string) (args : list pyval)
| Print (s : pystr)
| SetValue (name : string) (v : pystr)
| Popen (pid : nat) (cmd : list pystr)
| Kill (pid : nat).

(** A session record, the dict stored by [set_endpoints]; the key
    ['process'] is added by [_start_stream]. *)
Record session : Type := Session {
  address : pystr;
  video_port : Z;
  video_srtp_key : bytes;
  video_srtp_salt : bytes;
  video_ssrc : bytes;
  audio_port : Z;
  audio_srtp_key : bytes;
  audio_srtp_salt : bytes;
  audio_ssrc : bytes;
  process : option nat
}.

Definition set_process (p : nat) (s : session) : session :=
  Session (address s) (video_port s) (video_srtp_key s) (video_srtp_salt s)
    (video_ssrc s) (audio_port s) (audio_srtp_key s) (audio_srtp_salt s)
    (audio_ssrc s) (Some p).

(** The attributes of [self] that the handlers read or write, the values
    of the characteristics, and the surroundings: the events so far (oldest
    first), the processes alive, the next process id, and whether the
    ffmpeg executable can be started. *)
Record state : Type := State {
  streaming_status : bytes;
  support_srtp : bool;
  stream_address : pystr;
  stream_address_isv6 : bytes;
  sessions : gmap bytes session;
  selected_config : option pystr;
  session_id : option bytes;
  characteristics : gmap string pystr;
  trace : list event;
  running : gmap nat (list pystr);
  next_pid : nat;
  ffmpeg_present : bool
}.

Definition with_streaming_status (v : bytes) (s : state) : state :=
  State v (support_srtp s) (stream_address s) (stream_address_isv6 s)
    (sessions s) (selected_config s) (session_id s) (characteristics s)
    (trace s) (running s) (next_pid s) (ffmpeg_present s).

Definition with_sessions (v : gmap bytes session) (s : state) : state :=
  State (streaming_status s) (support_srtp s) (stream_address s)
    (stream_address_isv6 s) v (selected_config s) (session_id s)
    (characteristics s) (trace s) (running s) (next_pid s) (ffmpeg_present s).

Definition with_selected_config (v : option pystr) (s : state) : state :=
  State (streaming_status s) (support_srtp s) (stream_address s)
    (stream_address_isv6 s) (sessions s) v (session_id s)
    (characteristics s) (trace s) (running s) (next_pid s) (ffmpeg_present s).

Definition with_session_id (v : option bytes) (s : state) : state :=
  State (streaming_status s) (support_srtp s) (stream_address s)
    (stream_address_isv6 s) (sessions s) (selected_config s) v
    (characteristics s) (trace s) (running s) (next_pid s) (ffmpeg_present s).

Definition with_characteristics (v : gmap string pystr) (s : state) : state :=
  State (streaming_status s) (support_srtp s) (stream_address s)
    (stream_address_isv6 s) (sessions s) (selected_config s) (session_id s)
    v (trace s) (running s) (next_pid s) (ffmpeg_present s).

Definition with_trace (v : list event) (s : state) : state :=
  State (streaming_status s) (support_srtp s) (stream_address s)
    (stream_address_isv6 s) (sessions s) (selected_config s) (session_id s)
    (characteristics s) v (running s) (next_pid s) (ffmpeg_present s).

Definition with_running (v : gmap nat (list pystr)) (n : nat) (s : state) : state :=
  State (streaming_status s) (support_srtp s) (stream_address s)
    (stream_address_isv6 s) (sessions s) (selected_config s) (session_id s)
    (characteristics s) (trace s) v n (ffmpeg_present s).

(** ** The monad of the methods *)

Definition M (A : Type) : Type := state → state * exc A.

#[global] Instance M_ret : MRet M := λ A a st, (st, Ok a).
#[global] Instance M_bind : MBind M := λ A B f c st,
  match c st with
  | (st', inl e) => (st', inl e)
  | (st', inr a) => f a st'
  end.

Definition get : M state := λ st, (st, Ok st).
Definition modify (f : state → state) : M unit := λ st, (f st, Ok tt).
Definition raise {A} (e : exn) : M A := λ st, (st, Raise e).

(** Run a computation that has no effect but may raise. *)
Definition try {A} (c : exc A) : M A := λ st, (st, c).

Definition emit (e : event) : M unit :=
  modify (λ st, with_trace (trace st ++ [e]) st).

(** [logger.debug], [logger.warning], [logger.error] *)
Definition log (lvl : level) (fmt : string) (args : list pyval) : M unit :=
  emit (Log lvl fmt args).

(** Modelled from the spec: [Characteristic.set_value]
    (pyhap.characteristic) is not among the sources.  Sections 1 and 6: a
    characteristic is a named property with get, set and notify; the call
    [management_service.get_characteristic(name).set_value(v)] stores the
    value under the name and is recorded as an event. *)
Definition set_value (name : string) (v : pystr) : M unit :=
  modify (λ st, with_characteristics (<[name := v]> (characteristics st)) st) ;;
  emit (SetValue name v).

(** [subprocess.Popen(cmd)]: a new process, or [FileNotFoundError] when the
    executable is missing. *)
Definition popen (cmd : list pystr) : M nat :=
  st ← get;
  if ffmpeg_present st then
    let pid := next_pid st in
    modify (with_running (<[pid := cmd]> (running st)) (S pid)) ;;
    emit (Popen pid cmd) ;;
    mret pid
  else raise FileNotFoundError.

(** [process.kill()] *)
Definition kill (pid : nat) : M unit :=
  modify (λ st, with_running (delete pid (running st)) (next_pid st) st) ;;
  emit (Kill pid).

(** A local variable read before any assignment. *)
Definition local {A} (name : string) (v : option A) : M A :=
  match v with Some a => mret a | None => raise (UnboundLocalError name) end.

(** ** Constant tables *)

Module SETUP_TYPES.
Definition SESSION_ID := x01.
Definition STATUS := x02.
Definition ADDRESS := x03.
Definition VIDEO_SRTP_PARAM := x04.
Definition AUDIO_SRTP_PARAM := x05.
Definition VIDEO_SSRC := x06.
Definition AUDIO_SSRC := x07.
End SETUP_TYPES.

Module SETUP_STATUS.
Definition SUCCESS := x00.
Definition BUSY := x01.
Definition ERROR := x02.
End SETUP_STATUS.

Module SETUP_ADDR_INFO.
Definition ADDRESS_VER := x01.
Definition ADDRESS := x02.
Definition VIDEO_RTP_PORT := x03.
Definition AUDIO_RTP_PORT := x04.
End SETUP_ADDR_INFO.

Module SETUP_SRTP_PARAM.
Definition CRYPTO := x01.
Definition MASTER_KEY := x02.
Definition MASTER_SALT := x03.
End SETUP_SRTP_PARAM.

Module STREAMING_STATUS.
Definition AVAILABLE := x00.
Definition STREAMING := x01.
Definition BUSY := x02.
End STREAMING_STATUS.

Module RTP_CONFIG_TYPES.
Definition CRYPTO := x02.
End RTP_CONFIG_TYPES.

Module SRTP_CRYPTO_SUITES.
Definition AES_CM_128_HMAC_SHA1_80 := x00.
Definition AES_CM_256_HMAC_SHA1_80 := x01.
Definition NONE := x02.
End SRTP_CRYPTO_SUITES.

Module VIDEO_TYPES.
Definition CODEC := x01.
Definition CODEC_PARAM := x02.
Definition ATTRIBUTES := x03.
Definition RTP_PARAM := x04.
End VIDEO_TYPES.

Module VIDEO_CODEC_TYPES.
Definition H264 := x00.
End VIDEO_CODEC_TYPES.

Module VIDEO_CODEC_PARAM_TYPES.
Definition PROFILE_ID := x01.
Definition LEVEL := x02.
Definition PACKETIZATION_MODE := x03.
Definition CVO_ENABLED := x04.
Definition CVO_ID := x05.
End VIDEO_CODEC_PARAM_TYPES.

Module VIDEO_CODEC_PARAM_PACKETIZATION_MODE_TYPES.
Definition NON_INTERLEAVED := x00.
End VIDEO_CODEC_PARAM_PACKETIZATION_MODE_TYPES.

Module VIDEO_ATTRIBUTES_TYPES.
Definition IMAGE_WIDTH := x01.
Definition IMAGE_HEIGHT := x02.
Definition FRAME_RATE := x03.
End VIDEO_ATTRIBUTES_TYPES.

Module SELECTED_STREAM_CONFIGURATION_TYPES.
Definition SESSION := x01.
Definition VIDEO := x02.
Definition AUDIO := x03.
End SELECTED_STREAM_CONFIGURATION_TYPES.

Module RTP_PARAM_TYPES.
Definition PAYLOAD_TYPE := x01.
Definition SYNCHRONIZATION_SOURCE := x02.
Definition MAX_BIT_RATE := x03.
Definition RTCP_SEND_INTERVAL := x04.
Definition MAX_MTU := x05.
Definition COMFORT_NOISE_PAYLOAD_TYPE := x06.
End RTP_PARAM_TYPES.

Module AUDIO_TYPES.
Definition CODEC := x01.
Definition CODEC_PARAM := x02.
Definition RTP_PARAM := x03.
Definition COMFORT_NOISE := x04.
End AUDIO_TYPES.

Module AUDIO_CODEC_TYPES.
Definition PCMU := x00.
Definition PCMA := x01.
Definition AACELD := x02.
Definition OPUS := x03.
End AUDIO_CODEC_TYPES.

Module AUDIO_CODEC_PARAM_TYPES.
Definition CHANNEL := x01.
Definition BIT_RATE := x02.
Definition SAMPLE_RATE := x03.
Definition PACKET_TIME := x04.
End AUDIO_CODEC_PARAM_TYPES.

Module AUDIO_CODEC_PARAM_BIT_RATE_TYPES.
Definition VARIABLE := x00.
Definition CONSTANT := x01.
End AUDIO_CODEC_PARAM_BIT_RATE_TYPES.

Module AUDIO_CODEC_PARAM_SAMPLE_RATE_TYPES.
Definition KHZ_8 := x00.
Definition KHZ_16 := x01.
Definition KHZ_24 := x02.
End AUDIO_CODEC_PARAM_SAMPLE_RATE_TYPES.

(** [CameraAccessory.NO_SRTP] *)
Definition NO_SRTP : bytes := [x01; x01; x02; x02; x00; x03; x00].

(** A [format] template, already cut at its replacement fields. *)
Inductive piece : Type :=
| Text (s : string)
| Field (name : string).

(** [CameraAccessory.FFMPEG_CMD] *)
Definition FFMPEG_CMD : list piece :=
  [ Text "ffmpeg -f video4linux2 -input_format h264 -video_size ";
    Field "width"; Text "x"; Field "height";
    Text " -framerate 20 -i /dev/video0 -vcodec copy -an -payload_type 99 -ssrc 1 -f rtsp -b:v ";
    Field "bitrate"; Text "k -bufsize "; Field "bitrate";
    Text "k -payload_type 99 -f rtp -srtp_out_suite AES_CM_128_HMAC_SHA1_80 -srtp_out_params ";
    Field "video_srtp_key"; Text " srtp://"; Field "address"; Text ":";
    Field "video_port"; Text "?rtcpport="; Field "video_port";
    Text "&localrtcpport="; Field "local_video_port"; Text "&pkt_size=1378" ].

(** How [format] renders an argument. *)
Definition render (v : pyval) : pystr :=
  match v with
  | VInt z => str.of_int z
  | VStr s => s
  | _ => []
  end.

Definition kwarg (kwargs : list (string * pyval)) (name : string) : exc pyval :=
  match list_find (λ kv, kv.1 = name) kwargs with
  | Some (_, (_, v)) => Ok v
  | None => Raise KeyError
  end.

(** [template.format] with keyword arguments: those that the template does
    not name are ignored. *)
Fixpoint format (template : list piece) (kwargs : list (string * pyval)) : exc pystr :=
  match template with
  | [] => Ok []
  | Text s :: rest => app (lit s) <$> format rest kwargs
  | Field name :: rest =>
      v ← kwarg kwargs name; app (render v) <$> format rest kwargs
  end.

(** ** Capability encoders *)

(** [get_supported_rtp_config] *)
Definition get_supported_rtp_config (support_srtp : bool) : pystr :=
  let crypto :=
    if support_srtp then SRTP_CRYPTO_SUITES.AES_CM_128_HMAC_SHA1_80
    else SRTP_CRYPTO_SUITES.NONE in
  toBase64Str (tlv.encode [(RTP_CONFIG_TYPES.CRYPTO, [crypto])]).

(** [video_params]: ['codec'] with its ['profiles'] and ['levels'], and
    ['resolutions'], a list of width, height, frame rate. *)
Record video_codec : Type := { profiles : list bytes; levels : list bytes }.
Record video_params : Type := {
  codec : video_codec;
  resolutions : list (Z * Z * Z)
}.

(** The attributes sub-block of one resolution (lines 240-243). *)
Definition resolution_tlv (resolution : Z * Z * Z) : exc bytes :=
  let '(w, h, f) := resolution in
  bw ← pack_H w;
  bh ← pack_H h;
  bf ← pack_H f;
  mret (tlv.encode [(VIDEO_ATTRIBUTES_TYPES.IMAGE_WIDTH, bw);
                    (VIDEO_ATTRIBUTES_TYPES.IMAGE_HEIGHT, bh);
                    (VIDEO_ATTRIBUTES_TYPES.FRAME_RATE, bf)]).

(** The loop over the resolutions (lines 238-244). *)
Fixpoint attributes_loop (attr_tlv : bytes) (rs : list (Z * Z * Z)) : exc bytes :=
  match rs with
  | [] => Ok attr_tlv
  | resolution :: rs' =>
      res_tlv ← resolution_tlv resolution;
      attributes_loop
        (attr_tlv ++ tlv.encode [(VIDEO_TYPES.ATTRIBUTES, res_tlv)]) rs'
  end.

(** [get_supported_video_stream_config] *)
Definition get_supported_video_stream_config (video_params : video_params)
    : exc pystr :=
  let codec_params_tlv :=
    tlv.encode [(VIDEO_CODEC_PARAM_TYPES.PACKETIZATION_MODE,
                 [VIDEO_CODEC_PARAM_PACKETIZATION_MODE_TYPES.NON_INTERLEAVED])] in
  let codec_params := codec video_params in
  let codec_params_tlv :=
    foldl (λ acc profile,
             acc ++ tlv.encode [(VIDEO_CODEC_PARAM_TYPES.PROFILE_ID, profile)])
          codec_params_tlv (profiles codec_params) in
  let codec_params_tlv :=
    foldl (λ acc level,
             acc ++ tlv.encode [(VIDEO_CODEC_PARAM_TYPES.LEVEL, level)])
          codec_params_tlv (levels codec_params) in
  attr_tlv ← attributes_loop [] (resolutions video_params);
  let config_tlv :=
    tlv.encode [(VIDEO_TYPES.CODEC, [VIDEO_CODEC_TYPES.H264]);
                (VIDEO_TYPES.CODEC_PARAM, codec_params_tlv)] in
  mret (toBase64Str (tlv.encode [(x01, config_tlv ++ attr_tlv)])).

(** [audio_params]: ['codecs'], each with a ['type'] and a ['samplerate'],
    and the optional ['comfort_noise']. *)
Record audio_codec : Type := { type : pystr; samplerate : Z }.
Record audio_params : Type := {
  codecs : list audio_codec;
  comfort_noise : option bool
}.

(** The first chain of tests of the loop body (lines 265-275): the codec
    and bit rate bytes of a recognised kind. *)
Definition audio_kind (param_type : pystr) : option (byte * byte) :=
  if decide (param_type = lit "OPUS")
  then Some (AUDIO_CODEC_TYPES.OPUS, AUDIO_CODEC_PARAM_BIT_RATE_TYPES.VARIABLE)
  else if decide (param_type = lit "AAC-eld")
  then Some (AUDIO_CODEC_TYPES.AACELD, AUDIO_CODEC_PARAM_BIT_RATE_TYPES.VARIABLE)
  else None.

(** The second chain (lines 278-286). *)
Definition audio_rate (param_samplerate : Z) : option byte :=
  if decide (param_samplerate = 8)
  then Some AUDIO_CODEC_PARAM_SAMPLE_RATE_TYPES.KHZ_8
  else if decide (param_samplerate = 16)
  then Some AUDIO_CODEC_PARAM_SAMPLE_RATE_TYPES.KHZ_16
  else if decide (param_samplerate = 24)
  then Some AUDIO_CODEC_PARAM_SAMPLE_RATE_TYPES.KHZ_24
  else None.

(** One codec entry of the advertisement (lines 288-293 and 302-310). *)
Definition audio_entry (codec bitrate samplerate : byte) : bytes :=
  let param_tlv :=
    tlv.encode [(AUDIO_CODEC_PARAM_TYPES.CHANNEL, [x01]);
                (AUDIO_CODEC_PARAM_TYPES.BIT_RATE, [bitrate]);
                (AUDIO_CODEC_PARAM_TYPES.SAMPLE_RATE, [samplerate])] in
  let config_tlv :=
    tlv.encode [(AUDIO_TYPES.CODEC, [codec]);
                (AUDIO_TYPES.CODEC_PARAM, param_tlv)] in
  tlv.encode [(x01, config_tlv)].

(** The loop over the codecs (lines 263-293), threading
    [has_supported_codec] and [configs]. *)
Fixpoint audio_loop (cs : list audio_codec) (has_supported_codec : bool)
    (configs : bytes) : M (bool * bytes) :=
  match cs with
  | [] => mret (has_supported_codec, configs)
  | codec_param :: cs' =>
      let param_type := type codec_param in
      match audio_kind param_type with
      | None =>
          log WARNING "Unsupported codec %s" [VStr param_type] ;;
          audio_loop cs' has_supported_codec configs
      | Some (codec, bitrate) =>
          let param_samplerate := samplerate codec_param in
          match audio_rate param_samplerate with
          | None =>
              log WARNING "Unsupported sample rate %s" [VInt param_samplerate] ;;
              audio_loop cs' true configs
          | Some samplerate =>
              audio_loop cs' true (configs ++ audio_entry codec bitrate samplerate)
          end
      end
  end.

(** [get_supported_audio_stream_config] *)
Definition get_supported_audio_stream_config (audio_params : audio_params)
    : M pystr :=
  '(has_supported_codec, configs) ← audio_loop (codecs audio_params) false [];
  configs ←
    (if negb has_supported_codec then
       log WARNING "Client does not support any audio codec that iOS supports." [] ;;
       mret (audio_entry AUDIO_CODEC_TYPES.OPUS
               AUDIO_CODEC_PARAM_BIT_RATE_TYPES.VARIABLE
               AUDIO_CODEC_PARAM_SAMPLE_RATE_TYPES.KHZ_24)
     else mret configs);
  let comfort_noise :=
    if default false (comfort_noise audio_params) then [x01] else [x00] in
  mret (toBase64Str (configs ++ tlv.encode [(x02, comfort_noise)])).

(** ** Stream controller *)

(** The locals of [_start_stream] that are assigned only inside the
    [if] blocks of the video part; [None] is a name not yet bound. *)
Record video_locals : Type := VideoLocals {
  width : option Z;
  height : option Z;
  fps : option Z;
  video_ssrc_arg : option Z;
  video_max_bitrate : option Z
}.

(** Lines 390-423. *)
Definition parse_video (video_tlv : option bytes) : exc video_locals :=
  match video_tlv with
  | Some ((_ :: _) as video_tlv) =>
      video_objs ← tlv.decode video_tlv;
      _ ← match video_objs !! VIDEO_TYPES.CODEC_PARAM with
          | Some ((_ :: _) as video_codec_params) =>
              video_codec_param_objs ← tlv.decode video_codec_params;
              profile_id ← getitem video_codec_param_objs
                             VIDEO_CODEC_PARAM_TYPES.PROFILE_ID;
              level ← getitem video_codec_param_objs
                        VIDEO_CODEC_PARAM_TYPES.LEVEL;
              mret tt
          | _ => mret tt
          end;
      '(width, height, fps) ←
          match video_objs !! VIDEO_TYPES.ATTRIBUTES with
          | Some ((_ :: _) as video_attrs) =>
              video_attr_objs ← tlv.decode video_attrs;
              width ← getitem video_attr_objs VIDEO_ATTRIBUTES_TYPES.IMAGE_WIDTH
                      ≫= unpack_H;
              height ← getitem video_attr_objs VIDEO_ATTRIBUTES_TYPES.IMAGE_HEIGHT
                       ≫= unpack_H;
              fps ← getitem video_attr_objs VIDEO_ATTRIBUTES_TYPES.FRAME_RATE
                    ≫= unpack_B;
              mret (Some width, Some height, Some fps)
          | _ => mret (None, None, None)
          end;
      '(video_ssrc, video_max_bitrate) ←
          match video_objs !! VIDEO_TYPES.RTP_PARAM with
          | Some ((_ :: _) as video_rtp_param) =>
              video_rtp_param_objs ← tlv.decode video_rtp_param;
              (* [1 or struct.unpack(...)]: the right operand is not evaluated *)
              let video_ssrc := 1 in
              video_max_bitrate ←
                unpack_H_opt (video_rtp_param_objs !! RTP_PARAM_TYPES.MAX_BIT_RATE);
              mret (Some video_ssrc, Some video_max_bitrate)
          | _ => mret (None, None)
          end;
      mret (VideoLocals width height fps video_ssrc video_max_bitrate)
  | _ => mret (VideoLocals None None None None None)
  end.

(** Lines 425-448: every key is read with [[]]. *)
Definition parse_audio (audio_tlv : option bytes) : exc unit :=
  match audio_tlv with
  | Some ((_ :: _) as audio_tlv) =>
      audio_objs ← tlv.decode audio_tlv;
      audio_codec ← getitem audio_objs AUDIO_TYPES.CODEC;
      audio_codec_param_objs ←
        getitem audio_objs AUDIO_TYPES.CODEC_PARAM ≫= tlv.decode;
      audio_rtp_param_objs ←
        getitem audio_objs AUDIO_TYPES.RTP_PARAM ≫= tlv.decode;
      audio_comfort_noise ← getitem audio_objs AUDIO_TYPES.COMFORT_NOISE;
      audio_channel ← getitem audio_codec_param_objs AUDIO_CODEC_PARAM_TYPES.CHANNEL;
      audio_bitrate ← getitem audio_codec_param_objs AUDIO_CODEC_PARAM_TYPES.BIT_RATE;
      audio_sample_rate ←
        getitem audio_codec_param_objs AUDIO_CODEC_PARAM_TYPES.SAMPLE_RATE;
      audio_packet_time ←
        getitem audio_codec_param_objs AUDIO_CODEC_PARAM_TYPES.PACKET_TIME;
      audio_ssrc ←
        getitem audio_rtp_param_objs RTP_PARAM_TYPES.SYNCHRONIZATION_SOURCE;
      audio_payload_type ← getitem audio_rtp_param_objs RTP_PARAM_TYPES.PAYLOAD_TYPE;
      audio_max_bitrate ← getitem audio_rtp_param_objs RTP_PARAM_TYPES.MAX_BIT_RATE;
      audio_rtcp_interval ←
        getitem audio_rtp_param_objs RTP_PARAM_TYPES.RTCP_SEND_INTERVAL;
      audio_comfort_payload_type ←
        getitem audio_rtp_param_objs RTP_PARAM_TYPES.COMFORT_NOISE_PAYLOAD_TYPE;
      mret tt
  | _ => mret tt
  end.

(** The command line of lines 458-470. *)
Definition ffmpeg_cmd (session_info : session)
    (video_ssrc fps width height video_max_bitrate : Z) : exc (list pystr) :=
  str.split <$> format FFMPEG_CMD
    [ ("camera_source", VStr (lit "0:0"));
      ("address", VStr (address session_info));
      ("video_port", VInt (video_port session_info));
      ("video_srtp_key",
        VStr (toBase64Str (video_srtp_key session_info
                           ++ video_srtp_salt session_info)));
      ("video_ssrc", VInt video_ssrc);
      ("fps", VInt fps);
      ("width", VInt width);
      ("height", VInt height);
      ("bitrate", VInt video_max_bitrate);
      ("local_video_port", VInt (video_port session_info)) ]%string.

(** [_get_streaimg_status] *)
Definition _get_streaimg_status : M pystr :=
  st ← get;
  mret (toBase64Str (tlv.encode [(x01, streaming_status st)])).

(** [_start_stream]; the flag [reconfigure] is not used by the body. *)
Definition _start_stream (objs : gmap byte bytes) (reconfigure : bool) : M unit :=
  v ← try (parse_video (objs !! SELECTED_STREAM_CONFIGURATION_TYPES.VIDEO));
  _ ← try (parse_audio (objs !! SELECTED_STREAM_CONFIGURATION_TYPES.AUDIO));
  session_objs ←
    try (getitem objs SELECTED_STREAM_CONFIGURATION_TYPES.SESSION ≫= tlv.decode);
  session_id ← try (getitem session_objs x01);
  st ← get;
  session_info ← try (getitem (sessions st) session_id);
  width ← local "width" (width v);
  let width := or_int width 1280 in
  height ← local "height" (height v);
  let height := or_int height 720 in
  video_max_bitrate ← local "video_max_bitrate" (video_max_bitrate v);
  let video_max_bitrate := or_int video_max_bitrate 300 in
  fps ← local "fps" (fps v);
  let fps := Z.min fps 30 in
  video_ssrc ← local "video_ssrc" (video_ssrc_arg v);
  cmd ← try (ffmpeg_cmd session_info video_ssrc fps width height
               video_max_bitrate);
  log DEBUG "Starting ffmpeg command: %s" [VList cmd] ;;
  emit (Print (str.join cmd)) ;;
  p ← popen cmd;
  modify (λ st, with_sessions (alter (set_process p) session_id (sessions st)) st) ;;
  log DEBUG "Started ffmpeg" [] ;;
  modify (with_streaming_status [STREAMING_STATUS.STREAMING]) ;;
  status ← _get_streaimg_status;
  set_value "StreamingStatus" status.

(** [_stop_stream] *)
Definition _stop_stream (objs : gmap byte bytes) : M unit :=
  session_objs ←
    try (getitem objs SELECTED_STREAM_CONFIGURATION_TYPES.SESSION ≫= tlv.decode);
  session_id ← try (getitem session_objs x01);
  st ← get;
  (* [self.sessions.pop(session_id)] *)
  session_info ← try (getitem (sessions st) session_id);
  modify (with_sessions (delete session_id (sessions st))) ;;
  match process session_info with
  | Some ffmpeg_process => kill ffmpeg_process
  | None => mret tt
  end ;;
  modify (with_session_id None).

(** Lines 497-504 on their own: the decoded request, and the request kind
    that the handler reads from its session block. *)
Definition request_objs (value : pystr) : exc (gmap byte bytes) :=
  base64ToBytes value ≫= tlv.decode.

Definition request_session (value : pystr) : exc (gmap byte bytes) :=
  objs ← request_objs value;
  getitem objs SELECTED_STREAM_CONFIGURATION_TYPES.SESSION ≫= tlv.decode.

Definition request_type (value : pystr) : exc Z :=
  session ← request_session value;
  getitem session x02 ≫= first_byte.

Definition request_session_id (value : pystr) : exc bytes :=
  session ← request_session value;
  getitem session x01.

(** [set_selected_stream_configuration] *)
Definition set_selected_stream_configuration (value : pystr) : M unit :=
  log DEBUG "set_selected_stream_config - value - %s" [VStr value] ;;
  modify (with_selected_config (Some value)) ;;
  objs ← try (base64ToBytes value ≫= tlv.decode);
  match objs !! SELECTED_STREAM_CONFIGURATION_TYPES.SESSION with
  | None => log ERROR "Bad request to set selected stream configuration." []
  | Some session_tlv =>
      session ← try (tlv.decode session_tlv);
      request_type ← try (getitem session x02 ≫= first_byte);
      log DEBUG "Set stream config request: %d" [VInt request_type] ;;
      if decide (request_type = 1) then _start_stream objs false
      else if decide (request_type = 0) then _stop_stream objs
      else if decide (request_type = 4) then _start_stream objs true
      else log ERROR "Unknown request type %d" [VInt request_type]
  end.

(** ** Endpoint negotiator *)

(** A block of SRTP parameters of the request (lines 534-538, 541-545). *)
Definition parse_srtp (srtp_tlv : bytes) : exc (Z * bytes * bytes) :=
  info_objs ← tlv.decode srtp_tlv;
  crypto_suite ← getitem info_objs SETUP_SRTP_PARAM.CRYPTO ≫= first_byte;
  master_key ← getitem info_objs SETUP_SRTP_PARAM.MASTER_KEY;
  master_salt ← getitem info_objs SETUP_SRTP_PARAM.MASTER_SALT;
  mret (crypto_suite, master_key, master_salt).

(** The block that answers it when SRTP is supported (lines 563-571). *)
Definition srtp_response (master_key master_salt : bytes) : bytes :=
  tlv.encode [(SETUP_SRTP_PARAM.CRYPTO, [SRTP_CRYPTO_SUITES.AES_CM_128_HMAC_SHA1_80]);
              (SETUP_SRTP_PARAM.MASTER_KEY, master_key);
              (SETUP_SRTP_PARAM.MASTER_SALT, master_salt)].

Definition received_endpoint_configuration : string :=
  "Received endpoint configuration:
session_id: %s
address: %s
target_video_port: %s
target_audio_port: %s
video_crypto_suite: %s
video_master_key: %s
video_master_salt: %s
audio_crypto_suite: %s
audio_master_key: %s
audio_master_salt: %s".

(** [set_endpoints] *)
Definition set_endpoints (value : pystr) : M unit :=
  objs ← try (base64ToBytes value ≫= tlv.decode);
  session_id ← try (getitem objs SETUP_TYPES.SESSION_ID);
  address_tlv ← try (getitem objs SETUP_TYPES.ADDRESS);
  address_info_objs ← try (tlv.decode address_tlv);
  is_ipv6 ← try (getitem address_info_objs SETUP_ADDR_INFO.ADDRESS_VER ≫= first_byte);
  address ← try (getitem address_info_objs SETUP_ADDR_INFO.ADDRESS ≫= utf8.decode);
  target_video_port ←
    try (getitem address_info_objs SETUP_ADDR_INFO.VIDEO_RTP_PORT ≫= unpack_H);
  target_audio_port ←
    try (getitem address_info_objs SETUP_ADDR_INFO.AUDIO_RTP_PORT ≫= unpack_H);
  video_srtp_tlv ← try (getitem objs SETUP_TYPES.VIDEO_SRTP_PARAM);
  '(video_crypto_suite, video_master_key, video_master_salt) ←
    try (parse_srtp video_srtp_tlv);
  audio_srtp_tlv ← try (getitem objs SETUP_TYPES.AUDIO_SRTP_PARAM);
  '(audio_crypto_suite, audio_master_key, audio_master_salt) ←
    try (parse_srtp audio_srtp_tlv);
  log DEBUG received_endpoint_configuration
    [VBytes session_id; VStr address; VInt target_video_port;
     VInt target_audio_port; VInt video_crypto_suite; VBytes video_master_key;
     VBytes video_master_salt; VInt audio_crypto_suite;
     VBytes audio_master_key; VBytes audio_master_salt] ;;
  st ← get;
  let '(video_srtp_tlv, audio_srtp_tlv) :=
    if support_srtp st
    then (srtp_response video_master_key video_master_salt,
          srtp_response audio_master_key audio_master_salt)
    else (NO_SRTP, NO_SRTP) in
  let video_ssrc := [x01] in
  let audio_ssrc := [x01] in
  stream_address_utf8 ← try (utf8.encode (stream_address st));
  video_port_H ← try (pack_H target_video_port);
  audio_port_H ← try (pack_H target_audio_port);
  let res_address_tlv :=
    tlv.encode [(SETUP_ADDR_INFO.ADDRESS_VER, stream_address_isv6 st);
                (SETUP_ADDR_INFO.ADDRESS, stream_address_utf8);
                (SETUP_ADDR_INFO.VIDEO_RTP_PORT, video_port_H);
                (SETUP_ADDR_INFO.AUDIO_RTP_PORT, audio_port_H)] in
  let response_tlv :=
    tlv.encode [(SETUP_TYPES.SESSION_ID, session_id);
                (SETUP_TYPES.STATUS, [SETUP_STATUS.SUCCESS]);
                (SETUP_TYPES.ADDRESS, res_address_tlv);
                (SETUP_TYPES.VIDEO_SRTP_PARAM, video_srtp_tlv);
                (SETUP_TYPES.AUDIO_SRTP_PARAM, audio_srtp_tlv);
                (SETUP_TYPES.VIDEO_SSRC, video_ssrc);
                (SETUP_TYPES.AUDIO_SSRC, audio_ssrc)] in
  modify (λ st,
    with_sessions
      (<[session_id :=
           {| address := address;
              video_port := target_video_port;
              video_srtp_key := video_master_key;
              video_srtp_salt := video_master_salt;
              video_ssrc := video_ssrc;
              audio_port := target_audio_port;
              audio_srtp_key := audio_master_key;
              audio_srtp_salt := audio_master_salt;
              audio_ssrc := audio_ssrc;
              process := None |}]> (sessions st)) st) ;;
  set_value "SetupEndpoints" (toBase64Str response_tlv).

(** ** The handlers, step by step *)

(** The state in which the handler dispatches on a request of kind [k]. *)
Definition dispatching (value : pystr) (k : Z) (st : state) : state :=
  with_trace
    (trace st ++ [Log DEBUG "set_selected_stream_config - value - %s" [VStr value];
                  Log DEBUG "Set stream config request: %d" [VInt k]])
    (with_selected_config (Some value) st).

(** The session id that [_start_stream] and [_stop_stream] read from the
    decoded request (lines 450-451 and 485-486). *)
Definition objs_session_id (objs : gmap byte bytes) : exc bytes :=
  session_objs ←
    getitem objs SELECTED_STREAM_CONFIGURATION_TYPES.SESSION ≫= tlv.decode;
  getitem session_objs x01.

(** The state after [_stop_stream] has removed the record [session_info]
    of [session_id]. *)
Definition stopped (session_id : bytes) (session_info : session) (st : state) : state :=
  let st1 := with_sessions (delete session_id (sessions st)) st in
  let st2 :=
    match process session_info with
    | Some p =>
        with_trace (trace st1 ++ [Kill p])
          (with_running (delete p (running st1)) (next_pid st1) st1)
    | None => st1
    end in
  with_session_id None st2.

(** The state after [_start_stream] has started [cmd] for the session [sid]. *)
Definition started (sid : bytes) (cmd : list pystr) (st : state) : state :=
  let pid := next_pid st in
  let status := toBase64Str (tlv.encode [(x01, [STREAMING_STATUS.STREAMING])]) in
  State [STREAMING_STATUS.STREAMING] (support_srtp st) (stream_address st)
    (stream_address_isv6 st)
    (alter (set_process pid) sid (sessions st))
    (selected_config st) (session_id st)
    (<["StreamingStatus"%string := status]> (characteristics st))
    (trace st ++ [Log DEBUG "Starting ffmpeg command: %s" [VList cmd];
                  Print (str.join cmd); Popen pid cmd;
                  Log DEBUG "Started ffmpeg" [];
                  SetValue "StreamingStatus" status])
    (<[pid := cmd]> (running st)) (S pid) (ffmpeg_present st).

(** [_start_stream] up to the lookup of the session: nothing but parsing. *)
Definition start_request (objs : gmap byte bytes) : exc (video_locals * bytes) :=
  v ← parse_video (objs !! SELECTED_STREAM_CONFIGURATION_TYPES.VIDEO);
  _ ← parse_audio (objs !! SELECTED_STREAM_CONFIGURATION_TYPES.AUDIO);
  session_id ← objs_session_id objs;
  mret (v, session_id).

(** The rest of it, for a known session. *)
Definition start_known (v : video_locals) (session_id : bytes)
    (session_info : session) (st : state) : state * exc unit :=
  match width v, height v, video_max_bitrate v, fps v, video_ssrc_arg v with
  | None, _, _, _, _ => (st, Raise (UnboundLocalError "width"))
  | Some _, None, _, _, _ => (st, Raise (UnboundLocalError "height"))
  | Some _, Some _, None, _, _ => (st, Raise (UnboundLocalError "video_max_bitrate"))
  | Some _, Some _, Some _, None, _ => (st, Raise (UnboundLocalError "fps"))
  | Some _, Some _, Some _, Some _, None => (st, Raise (UnboundLocalError "video_ssrc"))
  | Some w, Some h, Some b, Some f, Some ssrc =>
      match ffmpeg_cmd session_info ssrc (Z.min f 30) (or_int w 1280)
              (or_int h 720) (or_int b 300) with
      | inl e => (st, Raise e)
      | inr cmd =>
          if ffmpeg_present st then (started session_id cmd st, Ok tt)
          else (with_trace (trace st ++ [Log DEBUG "Starting ffmpeg command: %s" [VList cmd];
                                         Print (str.join cmd)]) st,
                Raise FileNotFoundError)
      end
  end.

(** What [set_endpoints] reads from a request (lines 520-545). *)
Record endpoints : Type := Endpoints {
  ep_session_id : bytes;
  ep_address : pystr;
  ep_video_port : Z;
  ep_audio_port : Z;
  ep_video_suite : Z;
  ep_video_key : bytes;
  ep_video_salt : bytes;
  ep_audio_suite : Z;
  ep_audio_key : bytes;
  ep_audio_salt : bytes
}.

Definition parse_endpoints (value : pystr) : exc endpoints :=
  objs ← base64ToBytes value ≫= tlv.decode;
  session_id ← getitem objs SETUP_TYPES.SESSION_ID;
  address_tlv ← getitem objs SETUP_TYPES.ADDRESS;
  address_info_objs ← tlv.decode address_tlv;
  is_ipv6 ← getitem address_info_objs SETUP_ADDR_INFO.ADDRESS_VER ≫= first_byte;
  address ← getitem address_info_objs SETUP_ADDR_INFO.ADDRESS ≫= utf8.decode;
  target_video_port ←
    getitem address_info_objs SETUP_ADDR_INFO.VIDEO_RTP_PORT ≫= unpack_H;
  target_audio_port ←
    getitem address_info_objs SETUP_ADDR_INFO.AUDIO_RTP_PORT ≫= unpack_H;
  video_srtp_tlv ← getitem objs SETUP_TYPES.VIDEO_SRTP_PARAM;
  video ← parse_srtp video_srtp_tlv;
  audio_srtp_tlv ← getitem objs SETUP_TYPES.AUDIO_SRTP_PARAM;
  audio ← parse_srtp audio_srtp_tlv;
  mret (Endpoints session_id address target_video_port target_audio_port
          video.1.1 video.1.2 video.2 audio.1.1 audio.1.2 audio.2).

(** The two SRTP blocks of the response (lines 562-574). *)
Definition srtp_blocks (support_srtp : bool) (r : endpoints) : bytes * bytes :=
  if support_srtp
  then (srtp_response (ep_video_key r) (ep_video_salt r),
        srtp_response (ep_audio_key r) (ep_audio_salt r))
  else (NO_SRTP, NO_SRTP).

(** The response blob (lines 576-592). *)
Definition response_tlv (st : state) (r : endpoints) : exc bytes :=
  stream_address_utf8 ← utf8.encode (stream_address st);
  video_port_H ← pack_H (ep_video_port r);
  audio_port_H ← pack_H (ep_audio_port r);
  mret (tlv.encode
    [(SETUP_TYPES.SESSION_ID, ep_session_id r);
     (SETUP_TYPES.STATUS, [SETUP_STATUS.SUCCESS]);
     (SETUP_TYPES.ADDRESS,
        tlv.encode [(SETUP_ADDR_INFO.ADDRESS_VER, stream_address_isv6 st);
                    (SETUP_ADDR_INFO.ADDRESS, stream_address_utf8);
                    (SETUP_ADDR_INFO.VIDEO_RTP_PORT, video_port_H);
                    (SETUP_ADDR_INFO.AUDIO_RTP_PORT, audio_port_H)]);
     (SETUP_TYPES.VIDEO_SRTP_PARAM, (srtp_blocks (support_srtp st) r).1);
     (SETUP_TYPES.AUDIO_SRTP_PARAM, (srtp_blocks (support_srtp st) r).2);
     (SETUP_TYPES.VIDEO_SSRC, [x01]);
     (SETUP_TYPES.AUDIO_SSRC, [x01])]).

(** The record stored for the session (lines 594-604). *)
Definition session_record (r : endpoints) : session :=
  {| address := ep_address r;
     video_port := ep_video_port r;
     video_srtp_key := ep_video_key r;
     video_srtp_salt := ep_video_salt r;
     video_ssrc := [x01];
     audio_port := ep_audio_port r;
     audio_srtp_key := ep_audio_key r;
     audio_srtp_salt := ep_audio_salt r;
     audio_ssrc := [x01];
     process := None |}.

Definition received (r : endpoints) : event :=
  Log DEBUG received_endpoint_configuration
    [VBytes (ep_session_id r); VStr (ep_address r); VInt (ep_video_port r);
     VInt (ep_audio_port r); VInt (ep_video_suite r); VBytes (ep_video_key r);
     VBytes (ep_video_salt r); VInt (ep_audio_suite r);
     VBytes (ep_audio_key r); VBytes (ep_audio_salt r)].

(** The state after [set_endpoints] has answered the request [r] with
    [response]. *)
Definition negotiated (r : endpoints) (response : bytes) (st : state) : state :=
  State (streaming_status st) (support_srtp st) (stream_address st)
    (stream_address_isv6 st)
    (<[ep_session_id r := session_record r]> (sessions st))
    (selected_config st) (session_id st)
    (<["SetupEndpoints"%string := toBase64Str response]> (characteristics st))
    (trace st ++ [received r; SetValue "SetupEndpoints" (toBase64Str response)])
    (running st) (next_pid st) (ffmpeg_present st).

Definition nospace (s : pystr) : Prop := Forall (λ c, str.isspace c = false) s.

(** ** A camera and a controller *)

Module scenario.

(** An accessory as [__init__] and [_set_services] leave it, with SRTP
    support, and with ffmpeg installed. *)
Definition accessory : state :=
  {| streaming_status := [STREAMING_STATUS.AVAILABLE];
     support_srtp := true;
     stream_address := lit "192.168.1.10";
     stream_address_isv6 := [x00];
     sessions := ∅;
     selected_config := None;
     session_id := None;
     characteristics := {[ "StreamingStatus"%string := lit "AQEA" ]};
     trace := [];
     running := ∅;
     next_pid := 0;
     ffmpeg_present := true |}.

Definition sid : bytes := [xaa; xbb; xcc; xdd].

(** Setup of session aa bb cc dd towards 10.0.0.5, ports 10000 and 10001,
    with a key and a salt for each stream. *)
Definition setup : pystr :=
  lit "AQSqu8zdAxUBAQACCDEwLjAuMC41AwIQJwQCEScEJQEBAAIQMDEyMzQ1Njc4OWFiY2RlZgMOc2FsdHNhbHRzYWx0c2EFJQEBAAIQZmVkY2JhOTg3NjU0MzIxMAMOcGVwcGVycGVwcGVycGU=".

(** The same without the session id. *)
Definition setup_without_session_id : pystr :=
  lit "AxUBAQACCDEwLjAuMC41AwIQJwQCEScEJQEBAAIQMDEyMzQ1Njc4OWFiY2RlZgMOc2FsdHNhbHRzYWx0c2EFJQEBAAIQZmVkY2JhOTg3NjU0MzIxMAMOcGVwcGVycGVwcGVycGU=".

(** The same without the master salt of the audio stream. *)
Definition setup_without_audio_salt : pystr :=
  lit "AQSqu8zdAxUBAQACCDEwLjAuMC41AwIQJwQCEScEJQEBAAIQMDEyMzQ1Njc4OWFiY2RlZgMOc2FsdHNhbHRzYWx0c2EFFQEBAAIQZmVkY2JhOTg3NjU0MzIxMA==".

(** Start of that session: 1280x720 at 60 frames per second, 299 kbps,
    synchronisation source 5. *)
Definition start : pystr :=
  lit "AQkBBKq7zN0CAQECMAEBAAIJAQEBAgECAwEAAwsBAgAFAgLQAgMBPAQTAQFjAgQFAAAAAwIrAQQEAAAAPw==".

(** The same with request kind 4. *)
Definition reconfigure : pystr :=
  lit "AQkBBKq7zN0CAQQCMAEBAAIJAQEBAgECAwEAAwsBAgAFAgLQAgMBPAQTAQFjAgQFAAAAAwIrAQQEAAAAPw==".

(** Session block only, with request kinds 0, 9 and 1. *)
Definition stop : pystr := lit "AQkBBKq7zN0CAQA=".
Definition unknown_kind : pystr := lit "AQkBBKq7zN0CAQk=".
Definition start_without_video : pystr := lit "AQkBBKq7zN0CAQE=".

(** Starts with a video block that lacks the attributes, the width, the
    RTP parameters, the maximal bit rate. *)
Definition start_without_attributes : pystr :=
  lit "AQkBBKq7zN0CAQECIwEBAAIJAQEBAgECAwEABBMBAWMCBAUAAAADAisBBAQAAAA/".
Definition start_without_width : pystr :=
  lit "AQkBBKq7zN0CAQECLAEBAAIJAQEBAgECAwEAAwcCAtACAwE8BBMBAWMCBAUAAAADAisBBAQAAAA/".
Definition start_without_rtp : pystr :=
  lit "AQkBBKq7zN0CAQECGwEBAAIJAQEBAgECAwEAAwsBAgAFAgLQAgMBPA==".
Definition start_without_bit_rate : pystr :=
  lit "AQkBBKq7zN0CAQECJgEBAAIJAQEBAgECAwEAAwsBAgAFAgLQAgMBPAQJAQFjAgQFAAAA".

(** A start whose width, height and maximal bit rate are all 0. *)
Definition start_with_zeros : pystr :=
  lit "AQkBBKq7zN0CAQECKgEBAAIJAQEBAgECAwEAAwsBAgAAAgIAAAMBPAQNAQFjAgQFAAAAAwIAAA==".

(** The states the controller drives the accessory through. *)
Definition configured : state := (set_endpoints setup accessory).1.
Definition streaming : state :=
  (set_selected_stream_configuration start configured).1.
Definition stopped_again : state :=
  (set_selected_stream_configuration stop streaming).1.
Definition reconfigured : state :=
  (set_selected_stream_configuration reconfigure streaming).1.

(** Descriptors for the capability encoders. *)
Definition opus_at_44_kHz : audio_params :=
  {| codecs := [ {| type := lit "OPUS"; samplerate := 44 |} ];
     comfort_noise := None |}.
Definition pcmu_only : audio_params :=
  {| codecs := [ {| type := lit "PCMU"; samplerate := 8 |} ];
     comfort_noise := None |}.
Definition one_resolution : video_params :=
  {| codec := {| profiles := [[x00]]; levels := [[x02]] |};
     resolutions := [(320, 240, 15)] |}.

End scenario.

(** The key and the salt that the request carries in the SRTP block
    [param] (lines 534-538 and 541-545). *)
Definition client_srtp (value : pystr) (param : byte) : exc (bytes * bytes) :=
  objs ← request_objs value;
  info_objs ← getitem objs param ≫= tlv.decode;
  master_key ← getitem info_objs SETUP_SRTP_PARAM.MASTER_KEY;
  master_salt ← getitem info_objs SETUP_SRTP_PARAM.MASTER_SALT;
  mret (master_key, master_salt).

(** A required field is missing from a decoded setup request: the session
    id, the address block or one of its four fields, an SRTP block or one
    of its three fields. *)
Inductive missing_required_field (objs : gmap byte bytes) : Prop :=
| missing_session_id :
    objs !! SETUP_TYPES.SESSION_ID = None → missing_required_field objs
| missing_address :
    objs !! SETUP_TYPES.ADDRESS = None → missing_required_field objs
| missing_address_field block info k :
    objs !! SETUP_TYPES.ADDRESS = Some block → tlv.decode block = Ok info →
    k ∈ [SETUP_ADDR_INFO.ADDRESS_VER; SETUP_ADDR_INFO.ADDRESS;
         SETUP_ADDR_INFO.VIDEO_RTP_PORT; SETUP_ADDR_INFO.AUDIO_RTP_PORT] →
    info !! k = None → missing_required_field objs
| missing_srtp param :
    param ∈ [SETUP_TYPES.VIDEO_SRTP_PARAM; SETUP_TYPES.AUDIO_SRTP_PARAM] →
    objs !! param = None → missing_required_field objs
| missing_srtp_field param block info k :
    param ∈ [SETUP_TYPES.VIDEO_SRTP_PARAM; SETUP_TYPES.AUDIO_SRTP_PARAM] →
    objs !! param = Some block → tlv.decode block = Ok info →
    k ∈ [SETUP_SRTP_PARAM.CRYPTO; SETUP_SRTP_PARAM.MASTER_KEY;
         SETUP_SRTP_PARAM.MASTER_SALT] →
    info !! k = None → missing_required_field objs.

(** The decoded form of a request that decodes. *)
Definition decoded (value : pystr) : gmap byte bytes :=
  match request_objs value with inr objs => objs | inl _ => ∅ end.

(** ** The encoders, entry by entry *)

(** The entry that the loop of [get_supported_audio_stream_config] adds for
    one codec of the descriptor (lines 264-293): nothing unless its kind
    and its sample rate are both recognised. *)
Definition advertised (c : audio_codec) : bytes :=
  match audio_kind (type c), audio_rate (samplerate c) with
  | Some (codec, bitrate), Some rate => audio_entry codec bitrate rate
  | _, _ => []
  end.

(** The warning that the loop logs for a codec that it skips (lines 274
    and 285). *)
Definition skipped (c : audio_codec) : list event :=
  match audio_kind (type c), audio_rate (samplerate c) with
  | None, _ => [Log WARNING "Unsupported codec %s" [VStr (type c)]]
  | Some _, None => [Log WARNING "Unsupported sample rate %s" [VInt (samplerate c)]]
  | Some _, Some _ => []
  end.

(** The kind of the codec is OPUS or AAC-eld: the test that sets
    [has_supported_codec] (lines 265-272). *)
Definition recognised (c : audio_codec) : bool :=
  match audio_kind (type c) with Some _ => true | None => false end.

(** The entry synthesized when no kind is recognised (lines 298-310). *)
Definition fallback_entry : bytes :=
  audio_entry AUDIO_CODEC_TYPES.OPUS AUDIO_CODEC_PARAM_BIT_RATE_TYPES.VARIABLE
    AUDIO_CODEC_PARAM_SAMPLE_RATE_TYPES.KHZ_24.

(** The comfort noise field that ends the advertisement (lines 312-314). *)
Definition comfort_noise_field (audio_params : audio_params) : bytes :=
  [x02; x01; if default false (comfort_noise audio_params) then x01 else x00].

(** What [struct.pack('<H', x)] accepts. *)
Definition packable (x : Z) : Prop := 0 ≤ x ≤ 65535.

Definition packable_resolution (resolution : Z * Z * Z) : Prop :=
  packable resolution.1.1 ∧ packable resolution.1.2 ∧ packable resolution.2.

#[global] Instance packable_resolution_dec r : Decision (packable_resolution r).
Proof. unfold packable_resolution, packable. apply _. Defined.

(** The two bytes of [struct.pack('<H', x)] for a packable [x]. *)
Definition le16 (x : Z) : bytes := [byte_of_Z (x `mod` 256); byte_of_Z (x `div` 256)].

(** The attributes item of one resolution (lines 240-244): 14 bytes. *)
Definition attributes_item (resolution : Z * Z * Z) : bytes :=
  [x03; x0c; x01; x02] ++ le16 resolution.1.1 ++ [x02; x02] ++ le16 resolution.1.2
  ++ [x03; x02] ++ le16 resolution.2.

(** ** Requests, field by field *)

(** The address block of a setup request, decoded (lines 524-525). *)
Definition request_address_info (value : pystr) : exc (gmap byte bytes) :=
  objs ← request_objs value;
  getitem objs SETUP_TYPES.ADDRESS ≫= tlv.decode.

(** An event that starts or kills a process. *)
Definition process_event (e : event) : Prop :=
  match e with Popen _ _ | Kill _ => True | _ => False end.

#[global] Instance process_event_dec e : Decision (process_event e).
Proof. destruct e; apply _. Defined.

(** An event that is a call of the logger or a [print]. *)
Definition quiet (e : event) : Prop :=
  match e with Log _ _ _ | Print _ => True | _ => False end.

#[global] Instance quiet_dec e : Decision (quiet e).
Proof. destruct e; apply _. Defined.

(** ** The handler of the selected configuration, step by step *)

(** The state in which the handler decodes the request: lines 495 and 496
    are done. *)
Definition entered (value : pystr) (st : state) : state :=
  with_trace
    (trace st ++ [Log DEBUG "set_selected_stream_config - value - %s" [VStr value]])
    (with_selected_config (Some value) st).

(** The request kind in a session block (lines 502-504). *)
Definition session_kind (session_tlv : bytes) : exc Z :=
  session ← tlv.decode session_tlv;
  getitem session x02 ≫= first_byte.

(** What a call of [set_selected_stream_configuration] has done, besides
    the assignment of [selected_config] and the first debug log: nothing
    more than logging and printing; or the start of the command [cmd] for a
    session of the store; or the stop of a session of the store. *)
Inductive outcome (value : pystr) (st : state) : state → exc unit → Prop :=
| outcome_quiet events r :
    Forall quiet events →
    outcome value st
      (with_trace (trace st ++ events) (with_selected_config (Some value) st)) r
| outcome_started k sid session_info cmd :
    k = 1 ∨ k = 4 → sessions st !! sid = Some session_info →
    outcome value st (started sid cmd (dispatching value k st)) (Ok tt)
| outcome_stopped sid session_info :
    sessions st !! sid = Some session_info →
    outcome value st (stopped sid session_info (dispatching value 0 st)) (Ok tt).

(** ** More requests of the controller *)

Module requests.

(** A session block for the session aa bb cc dd with a request kind. *)
Definition session_block (kind : byte) : bytes :=
  tlv.encode [(x01, scenario.sid); (x02, [kind])].

(** The video block of [scenario.start]: 1280x720 at 60 frames per second,
    299 kbps. *)
Definition video_block : bytes :=
  tlv.encode
    [(VIDEO_TYPES.CODEC, [x00]);
     (VIDEO_TYPES.CODEC_PARAM,
      tlv.encode [(VIDEO_CODEC_PARAM_TYPES.PROFILE_ID, [x01]);
                  (VIDEO_CODEC_PARAM_TYPES.LEVEL, [x02]);
                  (VIDEO_CODEC_PARAM_TYPES.PACKETIZATION_MODE, [x00])]);
     (VIDEO_TYPES.ATTRIBUTES,
      tlv.encode [(VIDEO_ATTRIBUTES_TYPES.IMAGE_WIDTH, [x00; x05]);
                  (VIDEO_ATTRIBUTES_TYPES.IMAGE_HEIGHT, [xd0; x02]);
                  (VIDEO_ATTRIBUTES_TYPES.FRAME_RATE, [x3c])]);
     (VIDEO_TYPES.RTP_PARAM,
      tlv.encode [(RTP_PARAM_TYPES.PAYLOAD_TYPE, [x63]);
                  (RTP_PARAM_TYPES.SYNCHRONIZATION_SOURCE, [x05; x00; x00; x00]);
                  (RTP_PARAM_TYPES.MAX_BIT_RATE, [x2b; x01]);
                  (RTP_PARAM_TYPES.RTCP_SEND_INTERVAL, [x00; x00; x00; x3f])])].

(** An audio block with every field that [_start_stream] reads. *)
Definition audio_block : bytes :=
  tlv.encode
    [(AUDIO_TYPES.CODEC, [x03]);
     (AUDIO_TYPES.CODEC_PARAM,
      tlv.encode [(AUDIO_CODEC_PARAM_TYPES.CHANNEL, [x01]);
                  (AUDIO_CODEC_PARAM_TYPES.BIT_RATE, [x00]);
                  (AUDIO_CODEC_PARAM_TYPES.SAMPLE_RATE, [x01]);
                  (AUDIO_CODEC_PARAM_TYPES.PACKET_TIME, [x14])]);
     (AUDIO_TYPES.RTP_PARAM,
      tlv.encode [(RTP_PARAM_TYPES.PAYLOAD_TYPE, [x6e]);
                  (RTP_PARAM_TYPES.SYNCHRONIZATION_SOURCE, [x06; x00; x00; x00]);
                  (RTP_PARAM_TYPES.MAX_BIT_RATE, [x18; x00]);
                  (RTP_PARAM_TYPES.RTCP_SEND_INTERVAL, [x00; x00; xa0; x40]);
                  (RTP_PARAM_TYPES.COMFORT_NOISE_PAYLOAD_TYPE, [x0d])]);
     (AUDIO_TYPES.COMFORT_NOISE, [x00])].

(** A start of the session with video and audio. *)
Definition start_with_audio : pystr :=
  toBase64Str (tlv.encode
    [(SELECTED_STREAM_CONFIGURATION_TYPES.SESSION, session_block x01);
     (SELECTED_STREAM_CONFIGURATION_TYPES.VIDEO, video_block);
     (SELECTED_STREAM_CONFIGURATION_TYPES.AUDIO, audio_block)]).

(** A request whose session block has the session id only. *)
Definition without_kind : pystr :=
  toBase64Str (tlv.encode
    [(SELECTED_STREAM_CONFIGURATION_TYPES.SESSION, tlv.encode [(x01, scenario.sid)])]).

(** A request with a video block of one byte and no session block. *)
Definition without_session : pystr := lit "AgEA".

(** The command that [scenario.start] starts for the session set up by
    [scenario.setup]. *)
Definition command : list pystr :=
  str.split (lit "ffmpeg -f video4linux2 -input_format h264 -video_size 1280x720 -framerate 20 -i /dev/video0 -vcodec copy -an -payload_type 99 -ssrc 1 -f rtsp -b:v 299k -bufsize 299k -payload_type 99 -f rtp -srtp_out_suite AES_CM_128_HMAC_SHA1_80 -srtp_out_params MDEyMzQ1Njc4OWFiY2RlZnNhbHRzYWx0c2FsdHNh srtp://10.0.0.5:10000?rtcpport=10000&localrtcpport=10000&pkt_size=1378").

End requests.

(** ** The fields of a start request *)

(** The video block of a request, decoded (lines 387-391), and its
    attributes and RTP parameters (lines 400-402 and 410-412). *)
Definition request_video (value : pystr) : exc (gmap byte bytes) :=
  objs ← request_objs value;
  getitem objs SELECTED_STREAM_CONFIGURATION_TYPES.VIDEO ≫= tlv.decode.

Definition request_video_attributes (value : pystr) : exc (gmap byte bytes) :=
  video_objs ← request_video value;
  getitem video_objs VIDEO_TYPES.ATTRIBUTES ≫= tlv.decode.

Definition request_video_rtp (value : pystr) : exc (gmap byte bytes) :=
  video_objs ← request_video value;
  getitem video_objs VIDEO_TYPES.RTP_PARAM ≫= tlv.decode.

(** The width, the height, the frame rate and the maximal bit rate as
    [_start_stream] unpacks them (lines 403-408 and 419-420). *)
Definition request_width (value : pystr) : exc Z :=
  video_attr_objs ← request_video_attributes value;
  getitem video_attr_objs VIDEO_ATTRIBUTES_TYPES.IMAGE_WIDTH ≫= unpack_H.

Definition request_height (value : pystr) : exc Z :=
  video_attr_objs ← request_video_attributes value;
  getitem video_attr_objs VIDEO_ATTRIBUTES_TYPES.IMAGE_HEIGHT ≫= unpack_H.

Definition request_frame_rate (value : pystr) : exc Z :=
  video_attr_objs ← request_video_attributes value;
  getitem video_attr_objs VIDEO_ATTRIBUTES_TYPES.FRAME_RATE ≫= unpack_B.

Definition request_max_bit_rate (value : pystr) : exc Z :=
  video_rtp_param_objs ← request_video_rtp value;
  unpack_H_opt (video_rtp_param_objs !! RTP_PARAM_TYPES.MAX_BIT_RATE).

(** The audio block of a request, decoded (line 426), and its codec
    parameters and RTP parameters (lines 428-431). *)
Definition request_audio (value : pystr) : exc (gmap byte bytes) :=
  objs ← request_objs value;
  getitem objs SELECTED_STREAM_CONFIGURATION_TYPES.AUDIO ≫= tlv.decode.

Definition request_audio_codec_param (value : pystr) : exc (gmap byte bytes) :=
  audio_objs ← request_audio value;
  getitem audio_objs AUDIO_TYPES.CODEC_PARAM ≫= tlv.decode.

Definition request_audio_rtp (value : pystr) : exc (gmap byte bytes) :=
  audio_objs ← request_audio value;
  getitem audio_objs AUDIO_TYPES.RTP_PARAM ≫= tlv.decode.

(** ** Sequences of calls *)

(** [_run], after its [time.sleep(3)]. *)
Definition _run : M unit :=
  modify (with_streaming_status [STREAMING_STATUS.STREAMING]) ;;
  status ← _get_streaimg_status;
  set_value "StreamingStatus" status.

(** The methods that change the accessory once it is built: the two setter
    callbacks and [_run]. *)
Inductive call : Type :=
| SetEndpoints (value : pystr)
| SetSelectedStreamConfiguration (value : pystr)
| Run.

Definition perform (c : call) : M unit :=
  match c with
  | SetEndpoints value => set_endpoints value
  | SetSelectedStreamConfiguration value => set_selected_stream_configuration value
  | Run => _run
  end.

(** The accessory after a sequence of calls made one after the other; a
    call that raises leaves the accessory as it is at that point, for the
    calls that follow. *)
Definition after (cs : list call) (st : state) : state :=
  foldl (λ st c, (perform c st).1) st cs.

(** What a controller may do next with the session of the scenario: stop
    it, set it up and start it again, and stop it again. *)
Definition stop_and_start_again : list call :=
  [ SetSelectedStreamConfiguration scenario.stop; SetEndpoints scenario.setup;
    SetSelectedStreamConfiguration scenario.start; Run;
    SetSelectedStreamConfiguration scenario.stop ].

(** The StreamingStatus characteristic holds the encoded streaming status. *)
Definition status_published (st : state) : Prop :=
  characteristics st !! "StreamingStatus"%string
  = Some (toBase64Str (tlv.encode [(x01, streaming_status st)])).

(** ** The command line *)

(** The words of [FFMPEG_CMD] up to the SRTP parameters, for a width, a
    height and a bit rate. *)
Definition command_head (width height bitrate : Z) : list pystr :=
  [ lit "ffmpeg"; lit "-f"; lit "video4linux2"; lit "-input_format"; lit "h264";
    lit "-video_size"; str.of_int width ++ lit "x" ++ str.of_int height;
    lit "-framerate"; lit "20"; lit "-i"; lit "/dev/video0"; lit "-vcodec";
    lit "copy"; lit "-an"; lit "-payload_type"; lit "99"; lit "-ssrc"; lit "1";
    lit "-f"; lit "rtsp"; lit "-b:v"; str.of_int bitrate ++ lit "k";
    lit "-bufsize"; str.of_int bitrate ++ lit "k"; lit "-payload_type"; lit "99";
    lit "-f"; lit "rtp"; lit "-srtp_out_suite"; lit "AES_CM_128_HMAC_SHA1_80";
    lit "-srtp_out_params" ].

(** The destination of [FFMPEG_CMD] for a session record. *)
Definition command_url (session_info : session) : pystr :=
  lit "srtp://" ++ address session_info ++ lit ":"
  ++ str.of_int (video_port session_info) ++ lit "?rtcpport="
  ++ str.of_int (video_port session_info) ++ lit "&localrtcpport="
  ++ str.of_int (video_port session_info) ++ lit "&pkt_size=1378".

(** The text of [FFMPEG_CMD] after the option [-srtp_out_params]. *)
Definition command_tail (session_info : session) : pystr :=
  toBase64Str (video_srtp_key session_info ++ video_srtp_salt session_info)
  ++ 32%N :: command_url session_info.

(** * Properties *)

(** ** The codecs on small inputs *)

Example tlv_encode_two_pairs :
  tlv.encode [(x01, [x07; x08]); (x02, [])] = [x01; x02; x07; x08; x02; x00].
Proof. reflexivity. Qed.

Example tlv_decode_two_pairs :
  tlv.decode [x01; x02; x07; x08; x02; x00] = Ok {[ x01 := [x07; x08]; x02 := [] ]}.
Proof. vm_compute. reflexivity. Qed.

(** A value of 256 bytes is a chunk of 255 and a chunk of 1, and decodes
    to itself; after a chunk of 255 bytes an entry of another type is not
    merged; a length beyond the buffer is refused. *)
Example tlv_fragmentation :
  tlv.encode [(x09, replicate 256 x41)]
  = [x09; xff] ++ replicate 255 x41 ++ [x09; x01; x41]
  ∧ tlv.decode (tlv.encode [(x09, replicate 256 x41)]) = Ok {[ x09 := replicate 256 x41 ]}
  ∧ tlv.decode ([x09; xff] ++ replicate 255 x41 ++ [x0a; x01; x42])
    = Ok {[ x09 := replicate 255 x41; x0a := [x42] ]}
  ∧ tlv.decode [x01; x03; x07] = Raise MalformedTlv.
Proof. repeat (split; [vm_compute; reflexivity|]). vm_compute. reflexivity. Qed.

Example base64_of_four_bytes :
  toBase64Str [x01; x02; x07; x08] = lit "AQIHCA=="
  ∧ base64ToBytes (lit "AQIHCA==") = Ok [x01; x02; x07; x08]
  ∧ base64ToBytes (lit "AQIHCA=") = Raise Base64Error.
Proof. repeat split; reflexivity. Qed.

Example utf8_of_euro_sign :
  utf8.decode [xe2; x82; xac; x41] = Ok [8364%N; 65%N]
  ∧ utf8.encode [8364%N; 65%N] = Ok [xe2; x82; xac; x41]
  ∧ utf8.decode [xc0; x80] = Raise UnicodeDecodeError.
Proof. repeat split; reflexivity. Qed.

Example str_methods :
  str.split (lit " ab  c d ") = [lit "ab"; lit "c"; lit "d"]
  ∧ str.join [lit "ab"; lit "c"] = lit "ab c"
  ∧ str.of_int 1280 = lit "1280" ∧ str.of_int 0 = lit "0".
Proof. repeat split; reflexivity. Qed.

(** ** The TLV8 codec *)

Section tlv_facts.
Implicit Types (data rest v : bytes) (objs : gmap byte bytes) (t : byte).

Lemma len_byte_to_nat (n : nat) : (n ≤ 255)%nat → Byte.to_nat (tlv.len_byte n) = n.
Proof.
  intros Hn. unfold tlv.len_byte.
  destruct (Byte.of_nat n) as [b|] eqn:E.
  - simpl. by apply Byte.to_of_nat.
  - apply Byte.of_nat_None_iff in E. lia.
Qed.

(** Any fuel that covers the length of the buffer gives the same result. *)
Lemma decode_loop_fuel (n n' : nat) data objs prev :
  (length data ≤ n)%nat → (length data ≤ n')%nat →
  tlv.decode_loop n data objs prev = tlv.decode_loop n' data objs prev.
Proof.
  revert n' data objs prev.
  induction n as [|n IH]; intros n' data objs prev Hn Hn'.
  - destruct data; [|simpl in Hn; lia]. by destruct n'.
  - destruct data as [|t [|l rest]]; [by destruct n'|by destruct n'|].
    destruct n' as [|n']; [simpl in Hn'; lia|].
    simpl. case_decide; [done|].
    apply IH; rewrite length_drop; simpl in *; lia.
Qed.

Lemma decode_loop_step (fuel : nat) t (l : byte) rest objs prev :
  ¬ (length rest < Byte.to_nat l)%nat →
  tlv.decode_loop (S fuel) (t :: l :: rest) objs prev
  = tlv.decode_loop fuel (drop (Byte.to_nat l) rest)
      (if decide (prev = Some (t, 255%nat))
       then <[t := default [] (objs !! t) ++ take (Byte.to_nat l) rest]> objs
       else <[t := take (Byte.to_nat l) rest]> objs)
      (Some (t, Byte.to_nat l)).
Proof. intros Hfit. simpl. by rewrite decide_False. Qed.

(** One step of the scan on an entry that fits. *)
Lemma decode_loop_entry t (l : byte) v rest objs prev :
  length v = Byte.to_nat l →
  tlv.decode_loop (length (t :: l :: v ++ rest)) (t :: l :: v ++ rest) objs prev
  = tlv.decode_loop (length rest) rest
      (if decide (prev = Some (t, 255%nat))
       then <[t := default [] (objs !! t) ++ v]> objs
       else <[t := v]> objs)
      (Some (t, length v)).
Proof.
  intros Hl.
  change (length (t :: l :: v ++ rest)) with (S (S (length (v ++ rest)))).
  rewrite decode_loop_step by (rewrite length_app; lia).
  rewrite <- Hl, take_app_length, drop_app_length.
  apply decode_loop_fuel; rewrite ?length_app; lia.
Qed.

(** The chunks of a long value, met in continuation of an open entry. *)
Lemma decode_loop_fragments (n : nat) t v rest objs acc :
  (length v < 255 * S n)%nat → (255 * n ≤ length v)%nat →
  objs !! t = Some acc →
  tlv.decode_loop (length (tlv.fragments n t v ++ rest)) (tlv.fragments n t v ++ rest)
    objs (Some (t, 255%nat))
  = tlv.decode_loop (length rest) rest (<[t := acc ++ v]> objs)
      (Some (t, length v - 255 * n)%nat).
Proof.
  revert v objs acc. induction n as [|n IH]; intros v objs acc Hlt Hge Hacc.
  - cbn [tlv.fragments]. rewrite <- app_comm_cons, <- app_comm_cons.
    rewrite decode_loop_entry by (rewrite len_byte_to_nat; lia).
    rewrite decide_True by done. rewrite Hacc. simpl.
    by replace (length v - 0)%nat with (length v) by lia.
  - cbn [tlv.fragments].
    rewrite <- app_comm_cons, <- app_comm_cons, <- app_assoc.
    rewrite decode_loop_entry by (by rewrite length_take_le by lia).
    rewrite decide_True by done. rewrite Hacc. cbn [default id].
    rewrite (length_take_le v 255) by lia.
    rewrite (IH _ _ (acc ++ take 255 v)).
    + rewrite insert_insert_eq, <- app_assoc, take_drop, length_drop.
      do 3 f_equal. lia.
    + rewrite length_drop. lia.
    + rewrite length_drop. lia.
    + apply lookup_insert_eq.
Qed.

(** The scan over the encoding of one pair, when the entry just before
    cannot be continued by it. *)
Lemma decode_loop_item t v rest objs prev :
  (∀ n, prev ≠ Some (t, n)) →
  ∃ n, tlv.decode_loop (length (tlv.encode_item (t, v) ++ rest))
         (tlv.encode_item (t, v) ++ rest) objs prev
       = tlv.decode_loop (length rest) rest (<[t := v]> objs) (Some (t, n)).
Proof.
  intros Hprev. unfold tlv.encode_item. case_decide as Hv.
  - exists (length v). rewrite <- app_comm_cons, <- app_comm_cons.
    rewrite decode_loop_entry by (rewrite len_byte_to_nat; lia).
    by rewrite decide_False by apply Hprev.
  - pose proof (Nat.div_mod_eq (length v) 255) as Hdm.
    pose proof (Nat.mod_upper_bound (length v) 255) as Hm.
    destruct (length v / 255)%nat as [|n] eqn:En; [lia|].
    exists (length v - 255 * S n)%nat.
    cbn [tlv.fragments].
    rewrite <- app_comm_cons, <- app_comm_cons, <- app_assoc.
    rewrite decode_loop_entry by (by rewrite length_take_le by lia).
    rewrite decide_False by apply Hprev.
    rewrite (length_take_le v 255) by lia.
    rewrite (decode_loop_fragments _ _ _ _ _ (take 255 v)).
    + rewrite insert_insert_eq, take_drop, length_drop.
      do 3 f_equal. lia.
    + rewrite length_drop. lia.
    + rewrite length_drop. lia.
    + apply lookup_insert_eq.
Qed.

(** Decoding an encoding whose types are pairwise different gives back
    every value. *)
Lemma decode_loop_encode (pairs : list (byte * bytes)) objs prev :
  NoDup pairs.*1 → (∀ t n, prev = Some (t, n) → t ∉ pairs.*1) →
  tlv.decode_loop (length (tlv.encode pairs)) (tlv.encode pairs) objs prev
  = Ok (foldl (λ m p, <[p.1 := p.2]> m) objs pairs).
Proof.
  revert objs prev. induction pairs as [|[t v] pairs IH]; intros objs prev Hnd Hprev.
  - done.
  - apply NoDup_cons in Hnd as [Ht Hnd].
    unfold tlv.encode. cbn [map concat]. fold (tlv.encode pairs).
    destruct (decode_loop_item t v (tlv.encode pairs) objs prev) as [n ->].
    { intros n ->. eapply Hprev; [done|]. simpl. left. }
    rewrite IH; [done|done|]. by intros ?? [= <- _].
Qed.

Lemma decode_encode (pairs : list (byte * bytes)) :
  NoDup pairs.*1 →
  tlv.decode (tlv.encode pairs) = Ok (foldl (λ m p, <[p.1 := p.2]> m) ∅ pairs).
Proof. intros Hnd. apply decode_loop_encode; [done|]. by intros. Qed.

End tlv_facts.

(** ** Running the monad *)

Lemma try_bind {A B} (c : exc A) (f : A → M B) (st : state) :
  (try c ≫= f) st = match c with inl e => (st, inl e) | inr a => f a st end.
Proof. by destruct c. Qed.

Lemma try_Ok {A B} (c : exc A) (a : A) (f : A → M B) (st : state) :
  c = Ok a → (try c ≫= f) st = f a st.
Proof. by intros ->. Qed.

Lemma log_bind {B} lvl fmt args (f : unit → M B) (st : state) :
  (log lvl fmt args ≫= f) st = f tt (with_trace (trace st ++ [Log lvl fmt args]) st).
Proof. done. Qed.

Lemma emit_bind {B} (e : event) (f : unit → M B) (st : state) :
  (emit e ≫= f) st = f tt (with_trace (trace st ++ [e]) st).
Proof. done. Qed.

Lemma modify_bind {B} (g : state → state) (f : unit → M B) (st : state) :
  (modify g ≫= f) st = f tt (g st).
Proof. done. Qed.

Lemma ret_bind {A B} (a : A) (f : A → M B) (st : state) : (mret a ≫= f) st = f a st.
Proof. done. Qed.

Lemma get_bind {B} (f : state → M B) (st : state) : (get ≫= f) st = f st st.
Proof. done. Qed.

Lemma local_bind {A B} (name : string) (v : option A) (f : A → M B) (st : state) :
  (local name v ≫= f) st
  = match v with Some a => f a st | None => (st, Raise (UnboundLocalError name)) end.
Proof. by destruct v. Qed.

Lemma set_value_bind {B} (name : string) (v : pystr) (f : unit → M B) (st : state) :
  (set_value name v ≫= f) st
  = f tt (with_trace (trace st ++ [SetValue name v])
            (with_characteristics (<[name := v]> (characteristics st)) st)).
Proof. done. Qed.

Lemma popen_bind {B} (cmd : list pystr) (f : nat → M B) (st : state) :
  (popen cmd ≫= f) st
  = if ffmpeg_present st
    then f (next_pid st)
           (with_trace (trace st ++ [Popen (next_pid st) cmd])
              (with_running (<[next_pid st := cmd]> (running st)) (S (next_pid st)) st))
    else (st, Raise FileNotFoundError).
Proof.
  unfold popen, mbind, M_bind, get. simpl. by destruct (ffmpeg_present st).
Qed.

Lemma kill_bind {B} (pid : nat) (f : unit → M B) (st : state) :
  (kill pid ≫= f) st
  = f tt (with_trace (trace st ++ [Kill pid])
            (with_running (delete pid (running st)) (next_pid st) st)).
Proof. done. Qed.

Lemma _get_streaimg_status_bind {B} (f : pystr → M B) (st : state) :
  (_get_streaimg_status ≫= f) st
  = f (toBase64Str (tlv.encode [(x01, streaming_status st)])) st.
Proof. done. Qed.

Ltac st_simpl :=
  cbn [with_trace with_sessions with_selected_config with_session_id
       with_characteristics with_streaming_status with_running
       streaming_status support_srtp stream_address stream_address_isv6
       sessions selected_config session_id characteristics trace running
       next_pid ffmpeg_present].

Ltac mstep :=
  first [ rewrite log_bind | rewrite emit_bind | rewrite modify_bind
        | rewrite get_bind | rewrite local_bind | rewrite set_value_bind
        | rewrite popen_bind | rewrite kill_bind | rewrite ret_bind
        | rewrite _get_streaimg_status_bind ];
  st_simpl.

Lemma getitem_Ok `{Countable K} {V} (d : gmap K V) (k : K) (v : V) :
  getitem d k = Ok v ↔ d !! k = Some v.
Proof. unfold getitem, Ok, Raise. destruct (d !! k); split; congruence. Qed.

Lemma getitem_None `{Countable K} {V} (d : gmap K V) (k : K) :
  d !! k = None → getitem d k = Raise KeyError.
Proof. unfold getitem. by intros ->. Qed.

Lemma exc_bind_Ok {A B} (c : exc A) (f : A → exc B) (b : B) :
  c ≫= f = Ok b ↔ ∃ a, c = Ok a ∧ f a = Ok b.
Proof.
  unfold Ok. destruct c as [e|a]; simpl; split.
  - intros [=].
  - intros (a & [=] & _).
  - eauto.
  - by intros (a' & [= ->] & Hf).
Qed.

(** Split a conjunction, and only a conjunction. *)
Ltac conjuncts := repeat match goal with |- _ ∧ _ => split end.

(** An event is not in an explicit list of other events. *)
Ltac not_among :=
  repeat (rewrite not_elem_of_app || rewrite not_elem_of_cons);
  repeat split; try done; apply not_elem_of_nil.

(** Invert a chain of binds that returned. *)
Ltac exc_inv H :=
  repeat match type of H with
         | _ ≫= _ = Ok _ =>
             let x := fresh "x" in let Hx := fresh "Hx" in
             apply exc_bind_Ok in H as (x & Hx & H)
         end.

(** ** The stream controller *)

Lemma dispatch (value : pystr) (objs : gmap byte bytes) (k : Z) (st : state) :
  request_objs value = Ok objs → request_type value = Ok k →
  set_selected_stream_configuration value st
  = (if decide (k = 1) then _start_stream objs false
     else if decide (k = 0) then _stop_stream objs
     else if decide (k = 4) then _start_stream objs true
     else log ERROR "Unknown request type %d" [VInt k]) (dispatching value k st).
Proof.
  intros Hobjs Hk. unfold request_type, request_session in Hk. rewrite Hobjs in Hk.
  apply exc_bind_Ok in Hk as (session & Hs & Hk). simpl in Hs.
  apply exc_bind_Ok in Hs as (session_tlv & Htlv%getitem_Ok & Hs).
  unfold request_objs in Hobjs.
  unfold set_selected_stream_configuration.
  do 2 mstep. rewrite (try_Ok _ objs) by done. rewrite Htlv.
  rewrite (try_Ok _ session) by done.
  rewrite (try_Ok _ k) by done.
  mstep. unfold dispatching. st_simpl. by rewrite <- app_assoc.
Qed.

Lemma _stop_stream_run (objs : gmap byte bytes) (st : state) :
  _stop_stream objs st
  = match objs_session_id objs with
    | inl e => (st, Raise e)
    | inr session_id =>
        match sessions st !! session_id with
        | None => (st, Raise KeyError)
        | Some session_info => (stopped session_id session_info st, Ok tt)
        end
    end.
Proof.
  unfold _stop_stream, objs_session_id. rewrite try_bind.
  destruct (getitem objs _ ≫= tlv.decode) as [e|session_objs]; [done|].
  simpl. rewrite try_bind.
  destruct (getitem session_objs x01) as [e|session_id]; [done|].
  mstep. rewrite try_bind. unfold getitem.
  destruct (sessions st !! session_id) as [session_info|]; [|done].
  unfold Ok. mstep. unfold stopped, modify.
  destruct (process session_info) as [p|]; by repeat mstep.
Qed.

Lemma _start_stream_run (objs : gmap byte bytes) (reconfigure : bool) (st : state) :
  _start_stream objs reconfigure st
  = match start_request objs with
    | inl e => (st, Raise e)
    | inr (v, session_id) =>
        match sessions st !! session_id with
        | None => (st, Raise KeyError)
        | Some session_info => start_known v session_id session_info st
        end
    end.
Proof.
  unfold _start_stream, start_request, objs_session_id. rewrite try_bind.
  destruct (parse_video _) as [e|v]; [done|]. simpl. rewrite try_bind.
  destruct (parse_audio _) as [e|[]]; [done|]. simpl. rewrite try_bind.
  destruct (getitem objs _ ≫= tlv.decode) as [e|session_objs]; [done|].
  simpl. rewrite try_bind.
  destruct (getitem session_objs x01) as [e|session_id]; [done|].
  simpl. mstep. rewrite try_bind. unfold getitem.
  destruct (sessions st !! session_id) as [session_info|]; [|done].
  unfold Ok, start_known.
  mstep. destruct (width v) as [w|]; [|done].
  mstep. destruct (height v) as [h|]; [|done].
  mstep. destruct (video_max_bitrate v) as [b|]; [|done].
  mstep. destruct (fps v) as [f|]; [|done].
  mstep. destruct (video_ssrc_arg v) as [ssrc|]; [|done].
  rewrite try_bind. destruct (ffmpeg_cmd _ _ _ _ _ _) as [e|cmd]; [done|].
  do 2 mstep. rewrite popen_bind. st_simpl.
  destruct (ffmpeg_present st); [|by rewrite <- app_assoc].
  repeat mstep. unfold set_value. mstep.
  unfold started, emit, modify. st_simpl. by rewrite <- !app_assoc.
Qed.

(** ** The endpoint negotiator *)

Lemma set_endpoints_run (value : pystr) (st : state) :
  set_endpoints value st
  = match parse_endpoints value with
    | inl e => (st, Raise e)
    | inr r =>
        match response_tlv st r with
        | inl e => (with_trace (trace st ++ [received r]) st, Raise e)
        | inr response => (negotiated r response st, Ok tt)
        end
    end.
Proof.
  unfold set_endpoints, parse_endpoints.
  repeat (rewrite try_bind;
          match goal with
          | |- context [match ?c with inl _ => _ | inr _ => _ end] =>
              destruct c as [?|?]; [done|]; cbn [mbind exc_bind]
          end;
          repeat match goal with p : (_ * _)%type |- _ => destruct p end;
          cbv beta iota).
  mstep. mstep. unfold response_tlv, srtp_blocks, mret, exc_ret, Ok.
  cbv beta iota.
  destruct (support_srtp st); cbv beta iota zeta;
    cbn [ep_session_id ep_video_port ep_audio_port ep_video_key ep_video_salt
         ep_audio_key ep_audio_salt fst snd];
    (rewrite try_bind; destruct (utf8.encode _) as [e|sa]; [reflexivity|]);
    cbn [mbind exc_bind];
    (rewrite try_bind; destruct (pack_H _) as [e|pv]; [reflexivity|]);
    cbn [mbind exc_bind];
    (rewrite try_bind; destruct (pack_H _) as [e|pa]; [reflexivity|]);
    cbn [mbind exc_bind mret exc_ret]; unfold Ok; cbv beta iota;
    mstep; unfold set_value; mstep;
    unfold emit, modify, negotiated, received, session_record; st_simpl;
    cbn [ep_session_id ep_video_port ep_audio_port ep_video_key ep_video_salt
         ep_audio_key ep_audio_salt ep_address ep_video_suite ep_audio_suite];
    by rewrite <- !app_assoc.
Qed.

(** ** Text *)

Lemma split_from_nospace (cur tok s : pystr) :
  nospace tok → str.split_from cur (tok ++ s) = str.split_from (cur ++ tok) s.
Proof.
  intros Htok. revert cur. induction Htok as [|c tok Hc _ IH]; intros cur.
  - by rewrite app_nil_r.
  - simpl. rewrite Hc, IH. by rewrite <- app_assoc.
Qed.

Lemma split_from_space (cur s r : pystr) (sp : N) :
  str.isspace sp = true →
  str.split_from cur (s ++ sp :: r) = str.split_from cur s ++ str.split_from [] r.
Proof.
  intros Hsp. revert cur. induction s as [|c s IH]; intros cur; simpl.
  - rewrite Hsp. by destruct cur.
  - destruct (str.isspace c); [|apply IH].
    destruct cur; simpl; by rewrite IH.
Qed.

Lemma of_uint_nospace (d : Decimal.uint) : nospace (str.of_uint d).
Proof. induction d; simpl; by constructor. Qed.

Lemma of_int_nospace (z : Z) : nospace (str.of_int z).
Proof.
  unfold str.of_int. destruct (Z.to_int z); [|constructor; [done|]];
    apply of_uint_nospace.
Qed.

Lemma split_token (tok : pystr) :
  nospace tok → tok ≠ [] → str.split_from [] tok = [tok].
Proof.
  intros Htok Hne. rewrite <- (app_nil_r tok) at 1.
  rewrite split_from_nospace by done. simpl. by destruct tok.
Qed.

Lemma format_FFMPEG_CMD (cs addr port key ssrc fps w h b lport : pyval) :
  format FFMPEG_CMD
    [ ("camera_source", cs); ("address", addr); ("video_port", port);
      ("video_srtp_key", key); ("video_ssrc", ssrc); ("fps", fps);
      ("width", w); ("height", h); ("bitrate", b);
      ("local_video_port", lport) ]%string
  = Ok (lit "ffmpeg -f video4linux2 -input_format h264 -video_size"
        ++ 32%N :: render w ++ lit "x" ++ render h
        ++ 32%N :: lit "-framerate 20 -i /dev/video0 -vcodec copy -an -payload_type 99 -ssrc 1 -f rtsp -b:v"
        ++ 32%N :: render b ++ lit "k -bufsize " ++ render b
        ++ lit "k -payload_type 99 -f rtp -srtp_out_suite AES_CM_128_HMAC_SHA1_80 -srtp_out_params "
        ++ render key ++ lit " srtp://" ++ render addr ++ lit ":" ++ render port
        ++ lit "?rtcpport=" ++ render port ++ lit "&localrtcpport="
        ++ render lport ++ lit "&pkt_size=1378").
Proof. vm_compute. reflexivity. Qed.

Lemma exc_fmap_Ok {A B} (f : A → B) (a : A) : f <$> Ok a = Ok (f a).
Proof. done. Qed.

Lemma Ok_inj {A} (a b : A) : Ok a = Ok b → a = b.
Proof. by intros [=]. Qed.

Lemma split_from_cons_space (cur r : pystr) (sp : N) :
  str.isspace sp = true → cur ≠ [] →
  str.split_from cur (sp :: r) = cur :: str.split_from [] r.
Proof. intros Hsp Hcur. simpl. rewrite Hsp. by destruct cur. Qed.

Lemma ffmpeg_cmd_ssrc (session_info : session) (ssrc fps w h b : Z) (cmd : list pystr) :
  ffmpeg_cmd session_info ssrc fps w h b = Ok cmd →
  cmd !! 16%nat = Some (lit "-ssrc") ∧ cmd !! 17%nat = Some (lit "1").
Proof.
  unfold ffmpeg_cmd. rewrite format_FFMPEG_CMD, exc_fmap_Ok.
  intros <-%Ok_inj. unfold str.split.
  rewrite split_from_space by done.
  rewrite split_from_nospace by apply of_int_nospace.
  rewrite split_from_nospace by (by repeat constructor).
  rewrite split_from_nospace by apply of_int_nospace.
  rewrite split_from_cons_space; [|done|].
  - rewrite split_from_space by done. split; reflexivity.
  - intros [Hnil _]%app_eq_nil. apply app_eq_nil in Hnil as [_ Hnil].
    discriminate Hnil.
Qed.

(** ** Requests as the handlers read them *)

Lemma request_type_objs (value : pystr) (k : Z) :
  request_type value = Ok k → ∃ objs, request_objs value = Ok objs.
Proof.
  unfold request_type, request_session.
  intros (session & (objs & Hobjs & _)%exc_bind_Ok & _)%exc_bind_Ok. eauto.
Qed.

Lemma request_session_id_objs (value : pystr) (objs : gmap byte bytes) :
  request_objs value = Ok objs →
  request_session_id value = objs_session_id objs.
Proof. unfold request_session_id, request_session. by intros ->. Qed.

Example scenario_requests :
  request_type scenario.start = Ok 1 ∧ request_type scenario.reconfigure = Ok 4
  ∧ request_type scenario.stop = Ok 0 ∧ request_type scenario.unknown_kind = Ok 9
  ∧ request_session_id scenario.start = Ok scenario.sid.
Proof. repeat (split; [vm_compute; reflexivity|]). vm_compute. reflexivity. Qed.

(** ** Unknown request kinds *)

(** C7.  A request whose session block carries a request kind other than
    0, 1 and 4 is answered by the error log "Unknown request type" and
    nothing else: the handler returns, and the session store with every
    record in it, the streaming status, the values of the characteristics
    (the published streaming status among them) and the processes are as
    before. *)
Theorem unknown_request_type_changes_nothing (value : pystr) (k : Z) (st : state) :
  request_type value = Ok k → k ≠ 0 → k ≠ 1 → k ≠ 4 →
  ∃ st', set_selected_stream_configuration value st = (st', Ok tt)
    ∧ sessions st' = sessions st
    ∧ streaming_status st' = streaming_status st
    ∧ characteristics st' = characteristics st
    ∧ running st' = running st ∧ next_pid st' = next_pid st
    ∧ session_id st' = session_id st
    ∧ trace st'
      = trace st ++ [Log DEBUG "set_selected_stream_config - value - %s" [VStr value];
                     Log DEBUG "Set stream config request: %d" [VInt k];
                     Log ERROR "Unknown request type %d" [VInt k]].
Proof.
  intros Hk H0 H1 H4. destruct (request_type_objs _ _ Hk) as [objs Hobjs].
  rewrite (dispatch value objs k) by done.
  rewrite !decide_False by done.
  eexists. split; [reflexivity|]. unfold dispatching. st_simpl.
  by rewrite <- app_assoc.
Qed.

Lemma unknown_request_type_changes_nothing_witness :
  request_type scenario.unknown_kind = Ok 9
  ∧ ∃ st', set_selected_stream_configuration scenario.unknown_kind scenario.streaming
           = (st', Ok tt)
    ∧ sessions st' = sessions scenario.streaming
    ∧ streaming_status st' = streaming_status scenario.streaming
    ∧ characteristics st' = characteristics scenario.streaming
    ∧ running st' = running scenario.streaming
    ∧ next_pid st' = next_pid scenario.streaming
    ∧ session_id st' = session_id scenario.streaming
    ∧ trace st'
      = trace scenario.streaming
        ++ [Log DEBUG "set_selected_stream_config - value - %s" [VStr scenario.unknown_kind];
            Log DEBUG "Set stream config request: %d" [VInt 9];
            Log ERROR "Unknown request type %d" [VInt 9]].
Proof.
  split; [vm_compute; reflexivity|].
  apply (unknown_request_type_changes_nothing scenario.unknown_kind 9);
    [vm_compute; reflexivity|lia|lia|lia].
Defined.

(** ** Unknown sessions *)

(** C1, as the code has it.  A stop, start or reconfigure request whose
    session id is not in the session store is not answered by an error
    report: an exception escapes the handler.  It is [KeyError] for a stop,
    and for a start or reconfigure whose video and audio blocks decode; the
    session store, the processes, the streaming status and the
    characteristics are as before (only [selected_config] and the debug
    log have changed). *)
Theorem unknown_session_raises (value : pystr) (k : Z) (sid : bytes) (st : state) :
  request_type value = Ok k → k = 0 ∨ k = 1 ∨ k = 4 →
  request_session_id value = Ok sid → sessions st !! sid = None →
  ∃ e st', set_selected_stream_configuration value st = (st', Raise e)
    ∧ (k = 0 → e = KeyError)
    ∧ (∀ objs v,
         request_objs value = Ok objs →
         parse_video (objs !! SELECTED_STREAM_CONFIGURATION_TYPES.VIDEO) = Ok v →
         parse_audio (objs !! SELECTED_STREAM_CONFIGURATION_TYPES.AUDIO) = Ok tt →
         e = KeyError)
    ∧ sessions st' = sessions st ∧ running st' = running st
    ∧ streaming_status st' = streaming_status st
    ∧ characteristics st' = characteristics st.
Proof.
  intros Hk Hkind Hsid Hnone.
  destruct (request_type_objs _ _ Hk) as [objs Hobjs].
  rewrite (request_session_id_objs _ _ Hobjs) in Hsid.
  rewrite (dispatch value objs k) by done.
  assert (sessions (dispatching value k st) !! sid = None) as Hnone' by done.
  destruct Hkind as [->|Hkind].
  - rewrite decide_False, decide_True by done.
    rewrite _stop_stream_run, Hsid. unfold Ok. rewrite Hnone'.
    eexists _, _. split; [reflexivity|]. by repeat split.
  - assert (∀ reconfigure, ∃ e,
        _start_stream objs reconfigure (dispatching value k st)
        = (dispatching value k st, Raise e)
        ∧ (∀ v, parse_video (objs !! SELECTED_STREAM_CONFIGURATION_TYPES.VIDEO) = Ok v →
                parse_audio (objs !! SELECTED_STREAM_CONFIGURATION_TYPES.AUDIO) = Ok tt →
                e = KeyError)) as Hstart.
    { intros reconfigure. rewrite _start_stream_run. unfold start_request.
      destruct (parse_video _) as [e|v]; [by eexists|]. cbn [mbind exc_bind].
      destruct (parse_audio _) as [e|[]]; [by eexists|]. cbn [mbind exc_bind].
      rewrite Hsid. unfold Ok. cbn [mbind exc_bind]. unfold mret, exc_ret, Ok.
      cbv beta iota. rewrite Hnone'. by eexists. }
    destruct Hkind as [->| ->].
    + rewrite decide_True by done. destruct (Hstart false) as (e & -> & He).
      eexists _, _. split; [reflexivity|]. repeat split; try done.
      intros objs' v Hobjs'. rewrite Hobjs in Hobjs'. injection Hobjs' as <-. apply He.
    + rewrite decide_False, decide_False, decide_True by done.
      destruct (Hstart true) as (e & -> & He).
      eexists _, _. split; [reflexivity|]. repeat split; try done.
      intros objs' v Hobjs'. rewrite Hobjs in Hobjs'. injection Hobjs' as <-. apply He.
Qed.

Lemma unknown_session_raises_witness :
  request_type scenario.stop = Ok 0
  ∧ request_session_id scenario.stop = Ok scenario.sid
  ∧ sessions scenario.accessory !! scenario.sid = None
  ∧ ∃ e st', set_selected_stream_configuration scenario.stop scenario.accessory
             = (st', Raise e)
      ∧ (0 = 0 → e = KeyError)
      ∧ (∀ objs v,
           request_objs scenario.stop = Ok objs →
           parse_video (objs !! SELECTED_STREAM_CONFIGURATION_TYPES.VIDEO) = Ok v →
           parse_audio (objs !! SELECTED_STREAM_CONFIGURATION_TYPES.AUDIO) = Ok tt →
           e = KeyError)
      ∧ sessions st' = sessions scenario.accessory
      ∧ running st' = running scenario.accessory
      ∧ streaming_status st' = streaming_status scenario.accessory
      ∧ characteristics st' = characteristics scenario.accessory.
Proof.
  split; [vm_compute; reflexivity|]. split; [vm_compute; reflexivity|].
  split; [reflexivity|].
  apply (unknown_session_raises scenario.stop 0 scenario.sid scenario.accessory);
    [vm_compute; reflexivity|by left|vm_compute; reflexivity|reflexivity].
Defined.

(** C1, as stated, fails.  After setup, start and stop of a session, a
    second stop for its id does not return: [KeyError] escapes the
    handler. *)
Lemma repeated_stop_escapes :
  request_type scenario.stop = Ok 0
  ∧ request_session_id scenario.stop = Ok scenario.sid
  ∧ sessions scenario.stopped_again !! scenario.sid = None
  ∧ (set_selected_stream_configuration scenario.stop scenario.stopped_again).2
    = Raise KeyError
  ∧ ¬ ∃ st', set_selected_stream_configuration scenario.stop scenario.stopped_again
             = (st', Ok tt).
Proof.
  assert ((set_selected_stream_configuration scenario.stop scenario.stopped_again).2
          = Raise KeyError) as Hraise by (vm_compute; reflexivity).
  conjuncts; try (vm_compute; reflexivity).
  intros [st' Hst']. rewrite Hst' in Hraise. discriminate Hraise.
Qed.

(** ** Stop and the streaming status *)

(** C9.  A stop request leaves the streaming status and the values of
    the characteristics as they are and calls no [set_value]; when it
    returns, the state is the one in which the handler dispatched, but for
    the record removed from the session store, the process of that record
    killed, and [session_id] set to [None].  So after a start that
    returned, the status and the published StreamingStatus still read
    Streaming after the stop. *)
Theorem stop_keeps_streaming_status (value : pystr) (st st' : state) (r : exc unit) :
  request_type value = Ok 0 →
  set_selected_stream_configuration value st = (st', r) →
  streaming_status st' = streaming_status st
  ∧ characteristics st' = characteristics st
  ∧ (∃ evs, trace st' = trace st ++ evs ∧ ∀ name v, SetValue name v ∉ evs)
  ∧ (r = Ok tt →
       ∃ sid session_info,
         sessions st !! sid = Some session_info
         ∧ st' = stopped sid session_info (dispatching value 0 st)
         ∧ sessions st' = delete sid (sessions st)
         ∧ session_id st' = None
         ∧ running st' = match process session_info with
                         | Some p => delete p (running st)
                         | None => running st
                         end)
  ∧ (∀ value0 st0 k,
       request_type value0 = Ok k → k = 1 ∨ k = 4 →
       set_selected_stream_configuration value0 st0 = (st, Ok tt) →
       streaming_status st' = [STREAMING_STATUS.STREAMING]
       ∧ characteristics st' !! "StreamingStatus"%string
         = Some (toBase64Str (tlv.encode [(x01, [STREAMING_STATUS.STREAMING])]))).
Proof.
  intros Hk Hrun. destruct (request_type_objs _ _ Hk) as [objs Hobjs].
  rewrite (dispatch value objs 0) in Hrun by done.
  rewrite decide_False, decide_True in Hrun by done.
  rewrite _stop_stream_run in Hrun.
  assert (streaming_status st' = streaming_status st
          ∧ characteristics st' = characteristics st
          ∧ (∃ evs, trace st' = trace st ++ evs ∧ ∀ name v, SetValue name v ∉ evs)
          ∧ (r = Ok tt →
               ∃ sid session_info,
                 sessions st !! sid = Some session_info
                 ∧ st' = stopped sid session_info (dispatching value 0 st)
                 ∧ sessions st' = delete sid (sessions st)
                 ∧ session_id st' = None
                 ∧ running st' = match process session_info with
                                 | Some p => delete p (running st)
                                 | None => running st
                                 end)) as (Hs & Hc & Ht & Hr).
  { destruct (objs_session_id objs) as [e|sid].
    - injection Hrun as <- <-. repeat split; try done.
      eexists. split; [reflexivity|]. intros name v. not_among.
    - change (sessions (dispatching value 0 st)) with (sessions st) in Hrun.
      destruct (sessions st !! sid) as [session_info|] eqn:Hinfo;
        injection Hrun as <- <-.
      + split; [by unfold stopped; destruct (process session_info)|].
        split; [by unfold stopped; destruct (process session_info)|]. split.
        * unfold stopped, dispatching.
          destruct (process session_info) as [p|]; st_simpl; eexists;
            (split; [by rewrite <- ?app_assoc|]); intros name v; not_among.
        * intros _. exists sid, session_info. unfold stopped.
          by destruct (process session_info).
      + repeat split; try done.
        eexists. split; [reflexivity|]. intros name v. not_among. }
  do 4 (split; [done|]).
  clear Hrun. intros value0 st0 k Hk0 Hkind Hstart.
  destruct (request_type_objs _ _ Hk0) as [objs0 Hobjs0].
  rewrite (dispatch value0 objs0 k) in Hstart by done.
  assert (∃ reconfigure, _start_stream objs0 reconfigure (dispatching value0 k st0)
                         = (st, Ok tt)) as [reconfigure Hst].
  { destruct Hkind as [-> | ->]; [exists false|exists true]; done. }
  rewrite Hs, Hc. rewrite _start_stream_run in Hst.
  destruct (start_request objs0) as [e|[v sid]]; [done|].
  destruct (sessions _ !! sid) as [info|]; [|done].
  unfold start_known in Hst.
  repeat match type of Hst with
         | context [match ?o with Some _ => _ | None => _ end] =>
             destruct o; [|done]
         end.
  destruct (ffmpeg_cmd _ _ _ _ _ _) as [e|cmd]; [done|].
  destruct (ffmpeg_present _); [|done].
  injection Hst as <-. split; [done|]. unfold started. st_simpl.
  apply lookup_insert_eq.
Qed.

Lemma stop_keeps_streaming_status_witness :
  request_type scenario.stop = Ok 0
  ∧ set_selected_stream_configuration scenario.stop scenario.streaming
    = (scenario.stopped_again, Ok tt)
  ∧ request_type scenario.start = Ok 1
  ∧ set_selected_stream_configuration scenario.start scenario.configured
    = (scenario.streaming, Ok tt)
  ∧ streaming_status scenario.stopped_again = [STREAMING_STATUS.STREAMING]
  ∧ characteristics scenario.stopped_again !! "StreamingStatus"%string
    = Some (lit "AQEB")
  ∧ sessions scenario.stopped_again = ∅.
Proof.
  assert (request_type scenario.stop = Ok 0) as H0 by (vm_compute; reflexivity).
  assert (set_selected_stream_configuration scenario.stop scenario.streaming
          = (scenario.stopped_again, Ok tt)) as Hstop by (vm_compute; reflexivity).
  assert (request_type scenario.start = Ok 1) as H1 by (vm_compute; reflexivity).
  assert (set_selected_stream_configuration scenario.start scenario.configured
          = (scenario.streaming, Ok tt)) as Hstart by (vm_compute; reflexivity).
  destruct (stop_keeps_streaming_status _ _ _ _ H0 Hstop)
    as (_ & _ & _ & _ & Hafter).
  destruct (Hafter _ _ 1 H1 (or_introl eq_refl) Hstart) as [Hs Hc].
  split; [exact H0|]. split; [exact Hstop|]. split; [exact H1|].
  split; [exact Hstart|]. split; [exact Hs|].
  split; [rewrite Hc|]; vm_compute; reflexivity.
Defined.

(** ** Reconfigure *)

(** [_start_stream] kills nothing: whatever it returns, the processes
    that were running still are, and no [Kill] is among its events. *)
Lemma _start_stream_keeps_processes (objs : gmap byte bytes) (reconfigure : bool)
    (st st' : state) (r : exc unit) :
  _start_stream objs reconfigure st = (st', r) →
  running st !! next_pid st = None →
  running st ⊆ running st'
  ∧ ∃ evs, trace st' = trace st ++ evs ∧ ∀ p, Kill p ∉ evs.
Proof.
  intros Hrun Hfresh. rewrite _start_stream_run in Hrun.
  assert (running st ⊆ running st
          ∧ ∃ evs, trace st = trace st ++ evs ∧ ∀ p, Kill p ∉ evs) as Hsame.
  { split; [done|]. exists []. split; [by rewrite app_nil_r|]. intros p. not_among. }
  destruct (start_request objs) as [e|[v sid]]; [by injection Hrun as <- <-|].
  destruct (sessions st !! sid) as [info|]; [|by injection Hrun as <- <-].
  unfold start_known in Hrun.
  repeat match type of Hrun with
         | context [match ?o with Some _ => _ | None => _ end] =>
             destruct o; [|by injection Hrun as <- <-]
         end.
  destruct (ffmpeg_cmd _ _ _ _ _ _) as [e|cmd]; [by injection Hrun as <- <-|].
  destruct (ffmpeg_present st); injection Hrun as <- <-.
  - unfold started. st_simpl. split; [by apply insert_subseteq|].
    eexists. split; [reflexivity|]. intros p. not_among.
  - st_simpl. split; [done|].
    eexists. split; [reflexivity|]. intros p. not_among.
Qed.

(** C2, on the code.  After setup and start of a session, a reconfigure
    request for it returns with a second process attached to the record;
    the first process is still running, nothing has asked to kill it, and
    no record refers to it any more. *)
Theorem reconfigure_leaves_old_process_running :
  request_type scenario.reconfigure = Ok 4
  ∧ request_session_id scenario.reconfigure = Ok scenario.sid
  ∧ process <$> sessions scenario.streaming !! scenario.sid = Some (Some 0%nat)
  ∧ set_selected_stream_configuration scenario.reconfigure scenario.streaming
    = (scenario.reconfigured, Ok tt)
  ∧ process <$> sessions scenario.reconfigured !! scenario.sid = Some (Some 1%nat)
  ∧ is_Some (running scenario.reconfigured !! 0%nat)
  ∧ is_Some (running scenario.reconfigured !! 1%nat)
  ∧ size (running scenario.reconfigured) = 2%nat
  ∧ Forall (λ e, ∀ p, e ≠ Kill p) (trace scenario.reconfigured).
Proof.
  conjuncts; try (vm_compute; reflexivity).
  - vm_compute. eexists; reflexivity.
  - vm_compute. eexists; reflexivity.
  - vm_compute. repeat constructor; intros p; discriminate.
Qed.

(** ** Defaults *)

(** C5, on the code.  For a known session, a start request without video
    block, or without attributes sub-block, raises [UnboundLocalError] at
    [width = width or 1280]; one without the width field raises [KeyError];
    one without RTP parameters raises [UnboundLocalError] at
    [video_max_bitrate]; one without the maximal bit rate raises
    [TypeError].  No process is started.  A start that asks for 60 frames
    per second runs ffmpeg with the frame rate 20 of the template. *)
Theorem start_without_fields_raises :
  sessions scenario.configured !! scenario.sid ≠ None
  ∧ (set_selected_stream_configuration scenario.start_without_video
       scenario.configured).2 = Raise (UnboundLocalError "width")
  ∧ (set_selected_stream_configuration scenario.start_without_attributes
       scenario.configured).2 = Raise (UnboundLocalError "width")
  ∧ (set_selected_stream_configuration scenario.start_without_width
       scenario.configured).2 = Raise KeyError
  ∧ (set_selected_stream_configuration scenario.start_without_rtp
       scenario.configured).2 = Raise (UnboundLocalError "video_max_bitrate")
  ∧ (set_selected_stream_configuration scenario.start_without_bit_rate
       scenario.configured).2 = Raise TypeError
  ∧ running (set_selected_stream_configuration scenario.start_without_video
               scenario.configured).1 = ∅
  ∧ (set_selected_stream_configuration scenario.start scenario.configured).2 = Ok tt
  ∧ (str.join <$> running scenario.streaming !! 0%nat)
    = Some (lit "ffmpeg -f video4linux2 -input_format h264 -video_size 1280x720 -framerate 20 -i /dev/video0 -vcodec copy -an -payload_type 99 -ssrc 1 -f rtsp -b:v 299k -bufsize 299k -payload_type 99 -f rtp -srtp_out_suite AES_CM_128_HMAC_SHA1_80 -srtp_out_params MDEyMzQ1Njc4OWFiY2RlZnNhbHRzYWx0c2FsdHNh srtp://10.0.0.5:10000?rtcpport=10000&localrtcpport=10000&pkt_size=1378").
Proof.
  conjuncts; [vm_compute; discriminate|vm_compute; reflexivity..].
Qed.

(** The defaults are those of [x or d]: they stand in for a width, a
    height or a bit rate that is present and 0. *)
Example defaults_for_zero_fields :
  (str.join <$> running (set_selected_stream_configuration scenario.start_with_zeros
                           scenario.configured).1 !! 0%nat)
  = Some (lit "ffmpeg -f video4linux2 -input_format h264 -video_size 1280x720 -framerate 20 -i /dev/video0 -vcodec copy -an -payload_type 99 -ssrc 1 -f rtsp -b:v 300k -bufsize 300k -payload_type 99 -f rtp -srtp_out_suite AES_CM_128_HMAC_SHA1_80 -srtp_out_params MDEyMzQ1Njc4OWFiY2RlZnNhbHRzYWx0c2FsdHNh srtp://10.0.0.5:10000?rtcpport=10000&localrtcpport=10000&pkt_size=1378").
Proof. vm_compute. reflexivity. Qed.

(** ** The capability encoders *)

(** C4, on the code.  For a descriptor whose only codec is OPUS at
    44 kHz the encoder warns about the sample rate and returns the
    comfort-noise field alone: no codec entry, and no fallback. *)
Theorem no_fallback_for_unsupported_sample_rate (st : state) :
  get_supported_audio_stream_config scenario.opus_at_44_kHz st
  = (with_trace (trace st ++ [Log WARNING "Unsupported sample rate %s" [VInt 44]]) st,
     Ok (lit "AgEA"))
  ∧ base64ToBytes (lit "AgEA") = Ok [x02; x01; x00]
  ∧ tlv.decode [x02; x01; x00] = Ok {[ x02 := [x00] ]}.
Proof. conjuncts; vm_compute; reflexivity. Qed.

(** The fallback, when no codec is of a recognised kind. *)
Example fallback_for_unsupported_codec (st : state) :
  get_supported_audio_stream_config scenario.pcmu_only st
  = (with_trace
       ((trace st ++ [Log WARNING "Unsupported codec %s" [VStr (lit "PCMU")]])
        ++ [Log WARNING "Client does not support any audio codec that iOS supports." []])
       st,
     Ok (toBase64Str
           (audio_entry AUDIO_CODEC_TYPES.OPUS AUDIO_CODEC_PARAM_BIT_RATE_TYPES.VARIABLE
              AUDIO_CODEC_PARAM_SAMPLE_RATE_TYPES.KHZ_24
            ++ [x02; x01; x00]))).
Proof. vm_compute. reflexivity. Qed.

(** C8, on the code.  The attributes sub-block of a resolution carries
    the width, the height and also the frame rate as two bytes each, low
    byte first: the frame rate entry has length 2, not 1. *)
Theorem frame_rate_is_packed_on_two_bytes (w h f : Z) :
  0 ≤ w ≤ 65535 → 0 ≤ h ≤ 65535 → 0 ≤ f ≤ 65535 →
  resolution_tlv (w, h, f)
  = Ok [ VIDEO_ATTRIBUTES_TYPES.IMAGE_WIDTH; x02;
           byte_of_Z (w `mod` 256); byte_of_Z (w `div` 256);
         VIDEO_ATTRIBUTES_TYPES.IMAGE_HEIGHT; x02;
           byte_of_Z (h `mod` 256); byte_of_Z (h `div` 256);
         VIDEO_ATTRIBUTES_TYPES.FRAME_RATE; x02;
           byte_of_Z (f `mod` 256); byte_of_Z (f `div` 256) ].
Proof.
  intros Hw Hh Hf. unfold resolution_tlv, pack_H.
  rewrite !decide_True by done. reflexivity.
Qed.

Lemma frame_rate_is_packed_on_two_bytes_witness :
  (0 ≤ 320 ≤ 65535 ∧ 0 ≤ 240 ≤ 65535 ∧ 0 ≤ 15 ≤ 65535)
  ∧ resolution_tlv (320, 240, 15)
    = Ok [x01; x02; x40; x01; x02; x02; xf0; x00; x03; x02; x0f; x00].
Proof.
  split; [lia|].
  apply (frame_rate_is_packed_on_two_bytes 320 240 15); lia.
Defined.

(** The whole advertisement of that descriptor: one list item of type 1
    around the codec block and the attribute blocks. *)
Example video_config_one_resolution :
  get_supported_video_stream_config scenario.one_resolution
  ≫= base64ToBytes
  = Ok [x01; x1c; x01; x01; x00; x02; x09; x03; x01; x00; x01; x01; x00; x02;
        x01; x02; x03; x0c; x01; x02; x40; x01; x02; x02; xf0; x00; x03; x02;
        x0f; x00].
Proof. vm_compute. reflexivity. Qed.

(** ** The endpoint negotiator: requests *)

Lemma parse_srtp_Ok (srtp_tlv : bytes) (suite : Z) (key salt : bytes) :
  parse_srtp srtp_tlv = Ok (suite, key, salt) →
  ∃ info, tlv.decode srtp_tlv = Ok info
    ∧ is_Some (info !! SETUP_SRTP_PARAM.CRYPTO)
    ∧ info !! SETUP_SRTP_PARAM.MASTER_KEY = Some key
    ∧ info !! SETUP_SRTP_PARAM.MASTER_SALT = Some salt.
Proof.
  unfold parse_srtp. intros H. exc_inv H. injection H as <- <- <-.
  exc_inv Hx0. apply getitem_Ok in Hx1, Hx2, Hx3. eauto 10.
Qed.

(** What a request that [set_endpoints] can read contains. *)
Lemma parse_endpoints_Ok (value : pystr) (r : endpoints) :
  parse_endpoints value = Ok r →
  ∃ objs address_tlv address_info video_tlv video_info audio_tlv audio_info,
    request_objs value = Ok objs
    ∧ objs !! SETUP_TYPES.SESSION_ID = Some (ep_session_id r)
    ∧ objs !! SETUP_TYPES.ADDRESS = Some address_tlv
    ∧ tlv.decode address_tlv = Ok address_info
    ∧ (∀ k, k ∈ [SETUP_ADDR_INFO.ADDRESS_VER; SETUP_ADDR_INFO.ADDRESS;
                 SETUP_ADDR_INFO.VIDEO_RTP_PORT; SETUP_ADDR_INFO.AUDIO_RTP_PORT] →
            is_Some (address_info !! k))
    ∧ objs !! SETUP_TYPES.VIDEO_SRTP_PARAM = Some video_tlv
    ∧ tlv.decode video_tlv = Ok video_info
    ∧ is_Some (video_info !! SETUP_SRTP_PARAM.CRYPTO)
    ∧ video_info !! SETUP_SRTP_PARAM.MASTER_KEY = Some (ep_video_key r)
    ∧ video_info !! SETUP_SRTP_PARAM.MASTER_SALT = Some (ep_video_salt r)
    ∧ objs !! SETUP_TYPES.AUDIO_SRTP_PARAM = Some audio_tlv
    ∧ tlv.decode audio_tlv = Ok audio_info
    ∧ is_Some (audio_info !! SETUP_SRTP_PARAM.CRYPTO)
    ∧ audio_info !! SETUP_SRTP_PARAM.MASTER_KEY = Some (ep_audio_key r)
    ∧ audio_info !! SETUP_SRTP_PARAM.MASTER_SALT = Some (ep_audio_salt r).
Proof.
  unfold parse_endpoints. intros H.
  apply exc_bind_Ok in H as (objs & Hobjs & H).
  apply exc_bind_Ok in H as (session_id & Hsid%getitem_Ok & H).
  apply exc_bind_Ok in H as (address_tlv & Haddr%getitem_Ok & H).
  apply exc_bind_Ok in H as (address_info & Hinfo & H).
  apply exc_bind_Ok in H as (is_ipv6 & (? & Hver%getitem_Ok & _)%exc_bind_Ok & H).
  apply exc_bind_Ok in H as (address & (? & Ha%getitem_Ok & _)%exc_bind_Ok & H).
  apply exc_bind_Ok in H as (vport & (? & Hvp%getitem_Ok & _)%exc_bind_Ok & H).
  apply exc_bind_Ok in H as (aport & (? & Hap%getitem_Ok & _)%exc_bind_Ok & H).
  apply exc_bind_Ok in H as (video_tlv & Hvt%getitem_Ok & H).
  apply exc_bind_Ok in H as ([[vsuite vkey] vsalt] & Hv & H).
  apply exc_bind_Ok in H as (audio_tlv & Hat%getitem_Ok & H).
  apply exc_bind_Ok in H as ([[asuite akey] asalt] & Ha' & H).
  injection H as <-. cbn [ep_session_id ep_video_key ep_video_salt ep_audio_key
                          ep_audio_salt fst snd].
  apply parse_srtp_Ok in Hv as (video_info & ? & ? & ? & ?).
  apply parse_srtp_Ok in Ha' as (audio_info & ? & ? & ? & ?).
  exists objs, address_tlv, address_info, video_tlv, video_info, audio_tlv, audio_info.
  do 4 (split; [done|]). split; [|done].
  intros k Hk. repeat (apply elem_of_cons in Hk as [->|Hk]); eauto.
  by apply elem_of_nil in Hk.
Qed.

Lemma client_srtp_Ok (value : pystr) (objs info : gmap byte bytes) (param : byte)
    (block key salt : bytes) :
  request_objs value = Ok objs → objs !! param = Some block →
  tlv.decode block = Ok info →
  info !! SETUP_SRTP_PARAM.MASTER_KEY = Some key →
  info !! SETUP_SRTP_PARAM.MASTER_SALT = Some salt →
  client_srtp value param = Ok (key, salt).
Proof.
  intros Hobjs Hblock Hinfo Hkey Hsalt. unfold client_srtp, getitem.
  rewrite Hobjs. unfold Ok. cbn [mbind exc_bind]. rewrite Hblock.
  unfold Ok. cbn [mbind exc_bind]. rewrite Hinfo.
  unfold Ok. cbn [mbind exc_bind]. by rewrite Hkey, Hsalt.
Qed.

Lemma client_srtp_parsed (value : pystr) (r : endpoints) :
  parse_endpoints value = Ok r →
  client_srtp value SETUP_TYPES.VIDEO_SRTP_PARAM = Ok (ep_video_key r, ep_video_salt r)
  ∧ client_srtp value SETUP_TYPES.AUDIO_SRTP_PARAM = Ok (ep_audio_key r, ep_audio_salt r).
Proof.
  intros (objs & ? & ? & vt & vi & at_ & ai & Hobjs & _ & _ & _ & _ & Hvt & Hvi & _
          & Hvk & Hvs & Hat & Hai & _ & Hak & Has)%parse_endpoints_Ok.
  split; eapply client_srtp_Ok; eauto.
Qed.

(** C3, as the code has it.  When a required field is missing from a
    setup request, an exception escapes [set_endpoints] ([KeyError] when
    it is the session id); the state is untouched: no session record is
    created, no response is written, nothing is logged. *)
Theorem missing_field_raises (value : pystr) (objs : gmap byte bytes) (st : state) :
  request_objs value = Ok objs → missing_required_field objs →
  ∃ e, set_endpoints value st = (st, Raise e)
    ∧ (objs !! SETUP_TYPES.SESSION_ID = None → e = KeyError).
Proof.
  intros Hobjs Hmiss. rewrite set_endpoints_run.
  destruct (parse_endpoints value) as [e|r] eqn:Hparse.
  - exists e. split; [done|]. intros Hsid. revert Hparse.
    unfold parse_endpoints. unfold request_objs in Hobjs. rewrite Hobjs.
    unfold Ok. cbn [mbind exc_bind]. rewrite (getitem_None _ _ Hsid).
    cbn [mbind exc_bind]. by intros [= <-].
  - exfalso.
    apply parse_endpoints_Ok
      in Hparse as (objs' & at_ & ai & vt & vi & aut & aui & Hobjs' & Hsid & Hat & Hai
                    & Hfields & Hvt & Hvi & Hvc & Hvk & Hvs & Haut & Haui & Hac
                    & Hak & Has).
    rewrite Hobjs in Hobjs'. injection Hobjs' as <-.
    destruct Hmiss as [Hm|Hm|block info k Hb Hi Hk Hm|param Hp Hm
                       |param block info k Hp Hb Hi Hk Hm].
    + congruence.
    + congruence.
    + rewrite Hat in Hb. injection Hb as <-. rewrite Hai in Hi. injection Hi as <-.
      destruct (Hfields k Hk) as [? ?]. congruence.
    + repeat (apply elem_of_cons in Hp as [->|Hp]); [congruence..|].
      by apply elem_of_nil in Hp.
    + repeat (apply elem_of_cons in Hp as [->|Hp]);
        [| |by apply elem_of_nil in Hp].
      * rewrite Hvt in Hb. injection Hb as <-. rewrite Hvi in Hi. injection Hi as <-.
        repeat (apply elem_of_cons in Hk as [->|Hk]);
          [destruct Hvc; congruence|congruence..|by apply elem_of_nil in Hk].
      * rewrite Haut in Hb. injection Hb as <-. rewrite Haui in Hi. injection Hi as <-.
        repeat (apply elem_of_cons in Hk as [->|Hk]);
          [destruct Hac; congruence|congruence..|by apply elem_of_nil in Hk].
Qed.

Lemma missing_field_raises_witness :
  request_objs scenario.setup_without_audio_salt
  = Ok (decoded scenario.setup_without_audio_salt)
  ∧ missing_required_field (decoded scenario.setup_without_audio_salt)
  ∧ ∃ e, set_endpoints scenario.setup_without_audio_salt scenario.accessory
         = (scenario.accessory, Raise e)
      ∧ (decoded scenario.setup_without_audio_salt !! SETUP_TYPES.SESSION_ID = None
         → e = KeyError).
Proof.
  assert (request_objs scenario.setup_without_audio_salt
          = Ok (decoded scenario.setup_without_audio_salt)) as Hobjs
    by (vm_compute; reflexivity).
  assert (missing_required_field (decoded scenario.setup_without_audio_salt))
    as Hmiss.
  { eapply (missing_srtp_field _ SETUP_TYPES.AUDIO_SRTP_PARAM _ _
              SETUP_SRTP_PARAM.MASTER_SALT).
    - apply elem_of_cons. right. apply elem_of_cons. by left.
    - vm_compute. reflexivity.
    - vm_compute. reflexivity.
    - do 2 (apply elem_of_cons; right). apply elem_of_cons. by left.
    - vm_compute. reflexivity. }
  split; [exact Hobjs|]. split; [exact Hmiss|].
  exact (missing_field_raises _ _ scenario.accessory Hobjs Hmiss).
Defined.

(** C3, as stated, fails.  A setup request without session id is not
    answered by a structured error: [KeyError] escapes [set_endpoints]. *)
Lemma setup_without_session_id_escapes :
  request_objs scenario.setup_without_session_id
  = Ok (decoded scenario.setup_without_session_id)
  ∧ decoded scenario.setup_without_session_id !! SETUP_TYPES.SESSION_ID = None
  ∧ (set_endpoints scenario.setup_without_session_id scenario.accessory).2
    = Raise KeyError
  ∧ ¬ ∃ st', set_endpoints scenario.setup_without_session_id scenario.accessory
             = (st', Ok tt).
Proof.
  assert ((set_endpoints scenario.setup_without_session_id scenario.accessory).2
          = Raise KeyError) as Hraise by (vm_compute; reflexivity).
  conjuncts; try (vm_compute; reflexivity).
  intros [st' Hst']. rewrite Hst' in Hraise. discriminate Hraise.
Qed.

(** ** The endpoint negotiator: responses *)

Lemma srtp_response_decode (key salt : bytes) :
  ∃ info, tlv.decode (srtp_response key salt) = Ok info
    ∧ info !! SETUP_SRTP_PARAM.CRYPTO = Some [SRTP_CRYPTO_SUITES.AES_CM_128_HMAC_SHA1_80]
    ∧ info !! SETUP_SRTP_PARAM.MASTER_KEY = Some key
    ∧ info !! SETUP_SRTP_PARAM.MASTER_SALT = Some salt.
Proof.
  unfold srtp_response. rewrite decode_encode by compute_done.
  eexists. split; [reflexivity|]. cbn [foldl fst snd].
  split; [|split].
  - rewrite !lookup_insert_ne by done. apply lookup_insert_eq.
  - rewrite lookup_insert_ne by done. apply lookup_insert_eq.
  - apply lookup_insert_eq.
Qed.

Lemma response_tlv_decode (st : state) (r : endpoints) (response : bytes) :
  response_tlv st r = Ok response →
  ∃ robjs, tlv.decode response = Ok robjs
    ∧ robjs !! SETUP_TYPES.SESSION_ID = Some (ep_session_id r)
    ∧ robjs !! SETUP_TYPES.STATUS = Some [SETUP_STATUS.SUCCESS]
    ∧ robjs !! SETUP_TYPES.VIDEO_SRTP_PARAM = Some (srtp_blocks (support_srtp st) r).1
    ∧ robjs !! SETUP_TYPES.AUDIO_SRTP_PARAM = Some (srtp_blocks (support_srtp st) r).2
    ∧ robjs !! SETUP_TYPES.VIDEO_SSRC = Some [x01]
    ∧ robjs !! SETUP_TYPES.AUDIO_SSRC = Some [x01].
Proof.
  unfold response_tlv. intros H. exc_inv H. injection H as <-.
  rewrite decode_encode by compute_done.
  eexists. split; [reflexivity|]. cbn [foldl fst snd].
  conjuncts; rewrite ?lookup_insert_ne by done; apply lookup_insert_eq.
Qed.

(** What [set_endpoints] has done when it returns. *)
Lemma set_endpoints_Ok (value : pystr) (st st' : state) :
  set_endpoints value st = (st', Ok tt) →
  ∃ r response, parse_endpoints value = Ok r
    ∧ response_tlv st r = Ok response
    ∧ st' = negotiated r response st.
Proof.
  rewrite set_endpoints_run.
  destruct (parse_endpoints value) as [e|r] eqn:Hparse; [done|].
  destruct (response_tlv st r) as [e|response] eqn:Hresponse; [done|].
  intros [= <-]. by exists r, response.
Qed.

(** C6.  When [set_endpoints] returns, the response it has written
    decodes; with SRTP support its video and audio SRTP blocks each decode to
    the crypto suite 0 (AES_CM_128_HMAC_SHA1_80) and the master key and
    master salt that the request carries for that stream, byte for byte;
    without SRTP support both blocks are [NO_SRTP]. *)
Theorem response_srtp_blocks (value : pystr) (st st' : state) :
  set_endpoints value st = (st', Ok tt) →
  ∃ video_key video_salt audio_key audio_salt response robjs video_block audio_block,
    client_srtp value SETUP_TYPES.VIDEO_SRTP_PARAM = Ok (video_key, video_salt)
    ∧ client_srtp value SETUP_TYPES.AUDIO_SRTP_PARAM = Ok (audio_key, audio_salt)
    ∧ characteristics st' !! "SetupEndpoints"%string = Some (toBase64Str response)
    ∧ tlv.decode response = Ok robjs
    ∧ robjs !! SETUP_TYPES.VIDEO_SRTP_PARAM = Some video_block
    ∧ robjs !! SETUP_TYPES.AUDIO_SRTP_PARAM = Some audio_block
    ∧ if support_srtp st then
        (∃ info, tlv.decode video_block = Ok info
           ∧ info !! SETUP_SRTP_PARAM.CRYPTO
             = Some [SRTP_CRYPTO_SUITES.AES_CM_128_HMAC_SHA1_80]
           ∧ info !! SETUP_SRTP_PARAM.MASTER_KEY = Some video_key
           ∧ info !! SETUP_SRTP_PARAM.MASTER_SALT = Some video_salt)
        ∧ (∃ info, tlv.decode audio_block = Ok info
           ∧ info !! SETUP_SRTP_PARAM.CRYPTO
             = Some [SRTP_CRYPTO_SUITES.AES_CM_128_HMAC_SHA1_80]
           ∧ info !! SETUP_SRTP_PARAM.MASTER_KEY = Some audio_key
           ∧ info !! SETUP_SRTP_PARAM.MASTER_SALT = Some audio_salt)
      else video_block = NO_SRTP ∧ audio_block = NO_SRTP.
Proof.
  intros (r & response & Hparse & Hresponse & ->)%set_endpoints_Ok.
  destruct (client_srtp_parsed _ _ Hparse) as [Hv Ha].
  destruct (response_tlv_decode _ _ _ Hresponse)
    as (robjs & Hdec & _ & _ & Hvb & Hab & _ & _).
  exists (ep_video_key r), (ep_video_salt r), (ep_audio_key r), (ep_audio_salt r),
    response, robjs, (srtp_blocks (support_srtp st) r).1,
    (srtp_blocks (support_srtp st) r).2.
  do 2 (split; [done|]).
  split; [unfold negotiated; st_simpl; apply lookup_insert_eq|].
  do 3 (split; [done|]).
  unfold srtp_blocks. destruct (support_srtp st); cbn [fst snd]; [|done].
  split; apply srtp_response_decode.
Qed.

Lemma response_srtp_blocks_witness :
  set_endpoints scenario.setup scenario.accessory = (scenario.configured, Ok tt)
  ∧ ∃ video_key video_salt audio_key audio_salt response robjs video_block audio_block,
      client_srtp scenario.setup SETUP_TYPES.VIDEO_SRTP_PARAM = Ok (video_key, video_salt)
      ∧ client_srtp scenario.setup SETUP_TYPES.AUDIO_SRTP_PARAM = Ok (audio_key, audio_salt)
      ∧ characteristics scenario.configured !! "SetupEndpoints"%string
        = Some (toBase64Str response)
      ∧ tlv.decode response = Ok robjs
      ∧ robjs !! SETUP_TYPES.VIDEO_SRTP_PARAM = Some video_block
      ∧ robjs !! SETUP_TYPES.AUDIO_SRTP_PARAM = Some audio_block
      ∧ if support_srtp scenario.accessory then
          (∃ info, tlv.decode video_block = Ok info
             ∧ info !! SETUP_SRTP_PARAM.CRYPTO
               = Some [SRTP_CRYPTO_SUITES.AES_CM_128_HMAC_SHA1_80]
             ∧ info !! SETUP_SRTP_PARAM.MASTER_KEY = Some video_key
             ∧ info !! SETUP_SRTP_PARAM.MASTER_SALT = Some video_salt)
          ∧ (∃ info, tlv.decode audio_block = Ok info
             ∧ info !! SETUP_SRTP_PARAM.CRYPTO
               = Some [SRTP_CRYPTO_SUITES.AES_CM_128_HMAC_SHA1_80]
             ∧ info !! SETUP_SRTP_PARAM.MASTER_KEY = Some audio_key
             ∧ info !! SETUP_SRTP_PARAM.MASTER_SALT = Some audio_salt)
        else video_block = NO_SRTP ∧ audio_block = NO_SRTP.
Proof.
  split; [vm_compute; reflexivity|].
  apply (response_srtp_blocks scenario.setup scenario.accessory scenario.configured).
  vm_compute. reflexivity.
Defined.

(** The same request to an accessory without SRTP support, and the key and
    salt of the video stream as the request carries them. *)
Example response_without_srtp :
  let plain := with_streaming_status [STREAMING_STATUS.AVAILABLE]
                 (State [] false (lit "192.168.1.10") [x00] ∅ None None ∅ [] ∅ 0 true) in
  (characteristics (set_endpoints scenario.setup plain).1 !! "SetupEndpoints"%string)
  ≫= (λ v, match base64ToBytes v ≫= tlv.decode with
           | inr robjs => robjs !! SETUP_TYPES.VIDEO_SRTP_PARAM
           | inl _ => None
           end)
  = Some NO_SRTP
  ∧ client_srtp scenario.setup SETUP_TYPES.VIDEO_SRTP_PARAM
    = Ok (String.list_byte_of_string "0123456789abcdef",
          String.list_byte_of_string "saltsaltsaltsa").
Proof. split; vm_compute; reflexivity. Qed.

(** ** Synchronisation sources *)

Lemma parse_video_ssrc (video_tlv : option bytes) (v : video_locals) (ssrc : Z) :
  parse_video video_tlv = Ok v → video_ssrc_arg v = Some ssrc → ssrc = 1.
Proof.
  unfold parse_video. intros H Hssrc.
  destruct video_tlv as [[|b video_tlv]|]; [by injection H as <-| |by injection H as <-].
  apply exc_bind_Ok in H as (video_objs & _ & H).
  apply exc_bind_Ok in H as ([] & _ & H).
  apply exc_bind_Ok in H as ([[w h] f] & _ & H).
  apply exc_bind_Ok in H as ([s m] & Hrtp & H).
  injection H as <-. cbn [video_ssrc_arg] in Hssrc. subst s.
  destruct (video_objs !! VIDEO_TYPES.RTP_PARAM) as [[|b' rtp]|];
    [by injection Hrtp| |by injection Hrtp].
  apply exc_bind_Ok in Hrtp as (rtp_objs & _ & Hrtp).
  apply exc_bind_Ok in Hrtp as (m' & _ & Hrtp).
  by injection Hrtp as <- _.
Qed.

(** What [_start_stream] has done when it returns. *)
Lemma _start_stream_Ok (objs : gmap byte bytes) (reconfigure : bool) (st st' : state) :
  _start_stream objs reconfigure st = (st', Ok tt) →
  ∃ v sid session_info w h b f cmd,
    start_request objs = Ok (v, sid)
    ∧ sessions st !! sid = Some session_info
    ∧ width v = Some w ∧ height v = Some h ∧ video_max_bitrate v = Some b
    ∧ fps v = Some f
    ∧ ffmpeg_cmd session_info 1 (Z.min f 30) (or_int w 1280) (or_int h 720)
        (or_int b 300) = Ok cmd
    ∧ st' = started sid cmd st.
Proof.
  rewrite _start_stream_run.
  destruct (start_request objs) as [e|[v sid]] eqn:Hreq; [done|].
  destruct (sessions st !! sid) as [info|] eqn:Hinfo; [|done].
  unfold start_known.
  destruct (width v) as [w|] eqn:Hw; [|done].
  destruct (height v) as [h|] eqn:Hh; [|done].
  destruct (video_max_bitrate v) as [b|] eqn:Hb; [|done].
  destruct (fps v) as [f|] eqn:Hf; [|done].
  destruct (video_ssrc_arg v) as [ssrc|] eqn:Hssrc; [|done].
  assert (ssrc = 1) as ->.
  { unfold start_request in Hreq.
    apply exc_bind_Ok in Hreq as (v' & Hv & Hreq).
    apply exc_bind_Ok in Hreq as ([] & _ & Hreq).
    apply exc_bind_Ok in Hreq as (sid' & _ & Hreq).
    injection Hreq as <- _. by eapply parse_video_ssrc. }
  destruct (ffmpeg_cmd _ _ _ _ _ _) as [e|cmd] eqn:Hcmd; [done|].
  destruct (ffmpeg_present st); [|done].
  intros [= <-]. by exists v, sid, info, w, h, b, f, cmd.
Qed.

(** C10.  When [set_endpoints] returns, its response carries the one byte
    01 as the video and as the audio synchronisation source, and so does the
    record it has stored; and when a start or reconfigure request returns,
    the command of the process it has started has [-ssrc 1] as its 17th and
    18th words, whatever the request says: the command is built from the
    session record, the width, the height, the frame rate and the bit rate
    alone, with 1 for the synchronisation source. *)
Theorem ssrc_is_constant :
  (∀ (value : pystr) (st st' : state),
     set_endpoints value st = (st', Ok tt) →
     ∃ response robjs sid session_info,
       characteristics st' !! "SetupEndpoints"%string = Some (toBase64Str response)
       ∧ tlv.decode response = Ok robjs
       ∧ robjs !! SETUP_TYPES.VIDEO_SSRC = Some [x01]
       ∧ robjs !! SETUP_TYPES.AUDIO_SSRC = Some [x01]
       ∧ robjs !! SETUP_TYPES.SESSION_ID = Some sid
       ∧ sessions st' !! sid = Some session_info
       ∧ video_ssrc session_info = [x01] ∧ audio_ssrc session_info = [x01])
  ∧ (∀ (value : pystr) (k : Z) (st st' : state),
       request_type value = Ok k → k = 1 ∨ k = 4 →
       set_selected_stream_configuration value st = (st', Ok tt) →
       ∃ cmd session_info w h f b,
         running st' !! next_pid st = Some cmd
         ∧ Popen (next_pid st) cmd ∈ trace st'
         ∧ ffmpeg_cmd session_info 1 f w h b = Ok cmd
         ∧ cmd !! 16%nat = Some (lit "-ssrc") ∧ cmd !! 17%nat = Some (lit "1")).
Proof.
  split.
  - intros value st st' (r & response & Hparse & Hresponse & ->)%set_endpoints_Ok.
    destruct (response_tlv_decode _ _ _ Hresponse)
      as (robjs & Hdec & Hsid & _ & _ & _ & Hv & Ha).
    exists response, robjs, (ep_session_id r), (session_record r).
    unfold negotiated. st_simpl.
    split; [apply lookup_insert_eq|]. do 4 (split; [done|]).
    split; [apply lookup_insert_eq|]. done.
  - intros value k st st' Hk Hkind Hrun.
    destruct (request_type_objs _ _ Hk) as [objs Hobjs].
    rewrite (dispatch value objs k) in Hrun by done.
    assert (∃ reconfigure, _start_stream objs reconfigure (dispatching value k st)
                           = (st', Ok tt)) as [reconfigure Hst].
    { destruct Hkind as [-> | ->]; [exists false|exists true]; done. }
    apply _start_stream_Ok
      in Hst as (v & sid & info & w & h & b & f & cmd & _ & _ & _ & _ & _ & _ & Hcmd & ->).
    exists cmd, info, (or_int w 1280), (or_int h 720), (Z.min f 30), (or_int b 300).
    unfold started, dispatching. st_simpl.
    split; [apply lookup_insert_eq|].
    split.
    { rewrite !elem_of_app. right. do 2 (apply elem_of_cons; right).
      apply elem_of_cons. by left. }
    split; [done|]. by eapply ffmpeg_cmd_ssrc.
Qed.

Lemma ssrc_is_constant_witness :
  (set_endpoints scenario.setup scenario.accessory = (scenario.configured, Ok tt)
   ∧ ∃ response robjs sid session_info,
       characteristics scenario.configured !! "SetupEndpoints"%string
       = Some (toBase64Str response)
       ∧ tlv.decode response = Ok robjs
       ∧ robjs !! SETUP_TYPES.VIDEO_SSRC = Some [x01]
       ∧ robjs !! SETUP_TYPES.AUDIO_SSRC = Some [x01]
       ∧ robjs !! SETUP_TYPES.SESSION_ID = Some sid
       ∧ sessions scenario.configured !! sid = Some session_info
       ∧ video_ssrc session_info = [x01] ∧ audio_ssrc session_info = [x01])
  ∧ (request_type scenario.start = Ok 1
     ∧ set_selected_stream_configuration scenario.start scenario.configured
       = (scenario.streaming, Ok tt)
     ∧ ∃ cmd session_info w h f b,
         running scenario.streaming !! next_pid scenario.configured = Some cmd
         ∧ Popen (next_pid scenario.configured) cmd ∈ trace scenario.streaming
         ∧ ffmpeg_cmd session_info 1 f w h b = Ok cmd
         ∧ cmd !! 16%nat = Some (lit "-ssrc") ∧ cmd !! 17%nat = Some (lit "1")).
Proof.
  assert (set_endpoints scenario.setup scenario.accessory
          = (scenario.configured, Ok tt)) as Hsetup by (vm_compute; reflexivity).
  assert (request_type scenario.start = Ok 1) as H1 by (vm_compute; reflexivity).
  assert (set_selected_stream_configuration scenario.start scenario.configured
          = (scenario.streaming, Ok tt)) as Hstart by (vm_compute; reflexivity).
  split; (split; [assumption|]).
  - exact (proj1 ssrc_is_constant _ _ _ Hsetup).
  - split; [assumption|].
    exact (proj2 ssrc_is_constant _ 1 _ _ H1 (or_introl eq_refl) Hstart).
Defined.

(** ** The audio encoder on every descriptor *)

Lemma with_trace_id (st : state) : with_trace (trace st) st = st.
Proof. by destruct st. Qed.

Lemma audio_loop_run (cs : list audio_codec) (has : bool) (configs : bytes) (st : state) :
  audio_loop cs has configs st
  = (with_trace (trace st ++ flat_map skipped cs) st,
     Ok (has || existsb recognised cs, configs ++ concat (map advertised cs))).
Proof.
  revert has configs st. induction cs as [|c cs IH]; intros has configs st.
  - simpl. by rewrite !app_nil_r, orb_false_r, with_trace_id.
  - cbn [audio_loop flat_map existsb map concat]. unfold skipped, recognised, advertised.
    destruct (audio_kind (type c)) as [[codec bitrate]|].
    + destruct (audio_rate (samplerate c)) as [rate|].
      * rewrite IH. simpl. by rewrite orb_true_r, <- app_assoc.
      * mstep. rewrite IH. st_simpl. simpl.
        by rewrite orb_true_r, <- app_assoc.
    + mstep. rewrite IH. st_simpl. simpl. by rewrite <- app_assoc.
Qed.

Lemma comfort_noise_field_encode (audio_params : audio_params) :
  tlv.encode [(x02, if default false (comfort_noise audio_params)
                    then [x01] else [x00])]
  = comfort_noise_field audio_params.
Proof. unfold comfort_noise_field. by destruct (default false _). Qed.

Lemma get_supported_audio_stream_config_run (audio_params : audio_params) (st : state) :
  get_supported_audio_stream_config audio_params st
  = (with_trace
       (trace st ++ flat_map skipped (codecs audio_params)
        ++ (if existsb recognised (codecs audio_params) then []
            else [Log WARNING "Client does not support any audio codec that iOS supports." []]))
       st,
     Ok (toBase64Str
           ((if existsb recognised (codecs audio_params)
             then concat (map advertised (codecs audio_params))
             else fallback_entry)
            ++ comfort_noise_field audio_params))).
Proof.
  unfold get_supported_audio_stream_config.
  unfold mbind at 1. unfold M_bind. rewrite audio_loop_run. unfold Ok.
  cbn [orb negb app]. 
  destruct (existsb recognised (codecs audio_params)); cbn [negb].
  - rewrite ret_bind, app_nil_r, comfort_noise_field_encode. reflexivity.
  - unfold mbind, M_bind, log, emit, modify, mret, M_ret. st_simpl.
    rewrite comfort_noise_field_encode, <- app_assoc. reflexivity.
Qed.

(** X1.  [get_supported_audio_stream_config] never raises, whatever the
    descriptor.  What it returns is the base64 text of: one entry for each
    codec of the descriptor whose kind (OPUS, AAC-eld) and sample rate (8,
    16, 24) are both recognised, in the order of the descriptor, or, when
    no codec of the descriptor has a recognised kind, the one entry
    OPUS, variable bit rate, 24 kHz; then the comfort noise field. *)
Theorem audio_advertisement (audio_params : audio_params) (st : state) :
  (get_supported_audio_stream_config audio_params st).2
  = Ok (toBase64Str
          ((if existsb recognised (codecs audio_params)
            then concat (map advertised (codecs audio_params))
            else fallback_entry)
           ++ comfort_noise_field audio_params)).
Proof. by rewrite get_supported_audio_stream_config_run. Qed.

(** X2.  [get_supported_audio_stream_config] changes nothing but the log.
    It logs one warning for each codec that it skips, in the order of the
    descriptor (the kind when it is not recognised, else the sample rate),
    and after them the warning that no codec is supported exactly when no
    codec of the descriptor has a recognised kind. *)
Theorem audio_advertisement_warnings (audio_params : audio_params) (st : state) :
  (get_supported_audio_stream_config audio_params st).1
  = with_trace
      (trace st ++ flat_map skipped (codecs audio_params)
       ++ (if existsb recognised (codecs audio_params) then []
           else [Log WARNING "Client does not support any audio codec that iOS supports." []]))
      st.
Proof. by rewrite get_supported_audio_stream_config_run. Qed.

(** ** The video encoder on every descriptor *)

Lemma tlv_encode_app (ps qs : list (byte * bytes)) :
  tlv.encode (ps ++ qs) = tlv.encode ps ++ tlv.encode qs.
Proof. unfold tlv.encode. by rewrite map_app, concat_app. Qed.

Lemma foldl_encode (t : byte) (vs : list bytes) (acc : bytes) :
  foldl (λ acc v, acc ++ tlv.encode [(t, v)]) acc vs
  = acc ++ tlv.encode (map (pair t) vs).
Proof.
  revert acc. induction vs as [|v vs IH]; intros acc; simpl.
  - by rewrite app_nil_r.
  - rewrite IH, <- app_assoc. f_equal.
    change ((t, v) :: map (pair t) vs) with ([(t, v)] ++ map (pair t) vs).
    by rewrite tlv_encode_app.
Qed.

Lemma pack_H_packable (x : Z) : packable x → pack_H x = Ok (le16 x).
Proof. intros Hx. unfold pack_H. by rewrite decide_True. Qed.

Lemma pack_H_not_packable (x : Z) : ¬ packable x → pack_H x = Raise StructError.
Proof. intros Hx. unfold pack_H. by rewrite decide_False. Qed.

Lemma resolution_tlv_packable (resolution : Z * Z * Z) :
  packable_resolution resolution →
  resolution_tlv resolution
  ≫= (λ res_tlv, Ok (tlv.encode [(VIDEO_TYPES.ATTRIBUTES, res_tlv)]))
  = Ok (attributes_item resolution).
Proof.
  destruct resolution as [[w h] f]. intros (Hw & Hh & Hf). simpl in Hw, Hh, Hf.
  unfold resolution_tlv.
  rewrite (pack_H_packable w), (pack_H_packable h), (pack_H_packable f) by done.
  reflexivity.
Qed.

Lemma resolution_tlv_not_packable (resolution : Z * Z * Z) :
  ¬ packable_resolution resolution → resolution_tlv resolution = Raise StructError.
Proof.
  destruct resolution as [[w h] f]. unfold packable_resolution. simpl. intros Hn.
  unfold resolution_tlv.
  destruct (decide (packable w)) as [Hw|Hw];
    [rewrite (pack_H_packable w) by done|by rewrite (pack_H_not_packable w)].
  destruct (decide (packable h)) as [Hh|Hh];
    [rewrite (pack_H_packable h) by done|by rewrite (pack_H_not_packable h)].
  destruct (decide (packable f)) as [Hf|Hf];
    [tauto|by rewrite (pack_H_not_packable f)].
Qed.

Lemma attributes_loop_run (attr_tlv : bytes) (rs : list (Z * Z * Z)) :
  attributes_loop attr_tlv rs
  = if decide (Forall packable_resolution rs)
    then Ok (attr_tlv ++ concat (map attributes_item rs))
    else Raise StructError.
Proof.
  revert attr_tlv. induction rs as [|r rs IH]; intros attr_tlv.
  - cbn [attributes_loop map concat]. rewrite decide_True by constructor.
    by rewrite app_nil_r.
  - cbn [attributes_loop].
    destruct (decide (packable_resolution r)) as [Hr|Hr].
    + pose proof (resolution_tlv_packable r Hr) as Hitem.
      destruct (resolution_tlv r) as [e|res_tlv]; [done|].
      apply Ok_inj in Hitem. unfold Ok. cbn [mbind exc_bind]. rewrite IH, Hitem.
      destruct (decide (Forall packable_resolution rs)) as [Hrs|Hrs].
      * rewrite decide_True by by constructor. simpl. by rewrite <- app_assoc.
      * rewrite decide_False; [done|]. by intros [_ ?]%Forall_cons.
    + rewrite (resolution_tlv_not_packable r Hr).
      rewrite decide_False; [done|]. by intros [? _]%Forall_cons.
Qed.

(** The advertisement of a descriptor, as bytes. *)
Lemma get_supported_video_stream_config_run (video_params : video_params) :
  get_supported_video_stream_config video_params
  = if decide (Forall packable_resolution (resolutions video_params))
    then Ok (toBase64Str (tlv.encode
           [(x01,
             tlv.encode
               [(VIDEO_TYPES.CODEC, [VIDEO_CODEC_TYPES.H264]);
                (VIDEO_TYPES.CODEC_PARAM,
                 tlv.encode
                   ((VIDEO_CODEC_PARAM_TYPES.PACKETIZATION_MODE,
                     [VIDEO_CODEC_PARAM_PACKETIZATION_MODE_TYPES.NON_INTERLEAVED])
                    :: map (pair VIDEO_CODEC_PARAM_TYPES.PROFILE_ID)
                         (profiles (codec video_params))
                    ++ map (pair VIDEO_CODEC_PARAM_TYPES.LEVEL)
                         (levels (codec video_params))))]
             ++ concat (map attributes_item (resolutions video_params)))]))
    else Raise StructError.
Proof.
  unfold get_supported_video_stream_config. rewrite attributes_loop_run.
  destruct (decide (Forall packable_resolution _)); [|done].
  unfold Ok. cbn [mbind exc_bind mret exc_ret]. unfold mret, exc_ret, Ok.
  rewrite !foldl_encode, <- !tlv_encode_app. reflexivity.
Qed.

(** X3.  [get_supported_video_stream_config] raises exactly when a width,
    a height or a frame rate of the descriptor is outside 0..65535, and
    then it raises the error of [struct.pack]; the profiles and the levels
    never make it fail. *)
Theorem video_advertisement_raises (video_params : video_params) :
  (get_supported_video_stream_config video_params = Raise StructError
   ↔ ∃ resolution, resolution ∈ resolutions video_params
                   ∧ ¬ packable_resolution resolution)
  ∧ ((∃ text, get_supported_video_stream_config video_params = Ok text)
     ↔ ∀ resolution, resolution ∈ resolutions video_params
                     → packable_resolution resolution)
  ∧ ∀ e, get_supported_video_stream_config video_params = Raise e → e = StructError.
Proof.
  rewrite get_supported_video_stream_config_run.
  destruct (decide (Forall packable_resolution (resolutions video_params))) as [H|H].
  - split; [|split].
    + split; [done|]. intros (r & Hr & Hn). rewrite Forall_forall in H.
      destruct Hn. by apply H.
    + split; [by rewrite Forall_forall in H|eauto].
    + done.
  - split; [|split].
    + split; [|done]. intros _. apply not_Forall_Exists in H; [|apply _].
      by apply Exists_exists in H.
    + split; [by intros [? ?]|]. intros Hall. by rewrite Forall_forall in H.
    + by intros e [= <-].
Qed.

(** X4.  When every width, height and frame rate of the descriptor is in
    0..65535, the video advertisement is the base64 text of one item of type
    01 that holds: the codec H264; the codec parameters, which are the
    packetization mode, then one PROFILE_ID entry for each profile and one
    LEVEL entry for each level, in the order of the descriptor; and after
    them one attributes item of 14 bytes for each resolution, in order,
    the width, the height and the frame rate each on two bytes, low byte
    first. *)
Theorem video_advertisement (video_params : video_params) :
  Forall packable_resolution (resolutions video_params) →
  get_supported_video_stream_config video_params
  = Ok (toBase64Str (tlv.encode
         [(x01,
           tlv.encode
             [(VIDEO_TYPES.CODEC, [VIDEO_CODEC_TYPES.H264]);
              (VIDEO_TYPES.CODEC_PARAM,
               tlv.encode
                 ((VIDEO_CODEC_PARAM_TYPES.PACKETIZATION_MODE,
                   [VIDEO_CODEC_PARAM_PACKETIZATION_MODE_TYPES.NON_INTERLEAVED])
                  :: map (pair VIDEO_CODEC_PARAM_TYPES.PROFILE_ID)
                       (profiles (codec video_params))
                  ++ map (pair VIDEO_CODEC_PARAM_TYPES.LEVEL)
                       (levels (codec video_params))))]
           ++ concat (map attributes_item (resolutions video_params)))]))
  ∧ length (concat (map attributes_item (resolutions video_params)))
    = (14 * length (resolutions video_params))%nat.
Proof.
  intros H. rewrite get_supported_video_stream_config_run, decide_True by done.
  split; [done|]. clear H.
  induction (resolutions video_params) as [|r rs IH]; [done|].
  cbn [map concat]. rewrite length_app, IH. unfold attributes_item, le16. simpl. lia.
Qed.

Lemma video_advertisement_witness :
  Forall packable_resolution (resolutions scenario.one_resolution)
  ∧ get_supported_video_stream_config scenario.one_resolution
    = Ok (lit "ARwBAQACCQMBAAEBAAIBAgMMAQJAAQIC8AADAg8A").
Proof.
  assert (Forall packable_resolution (resolutions scenario.one_resolution)) as H.
  { repeat constructor; simpl; lia. }
  split; [exact H|].
  rewrite (proj1 (video_advertisement scenario.one_resolution H)).
  vm_compute. reflexivity.
Defined.

(** ** The RTP configuration *)

(** X5.  The RTP configuration that [get_supported_rtp_config] advertises
    decodes to the one field CRYPTO, whose value is the suite
    AES_CM_128_HMAC_SHA1_80 with SRTP support and NONE without; the suite
    AES_CM_256_HMAC_SHA1_80 is never advertised. *)
Theorem rtp_advertisement (support_srtp : bool) :
  base64ToBytes (get_supported_rtp_config support_srtp) ≫= tlv.decode
  = Ok {[ RTP_CONFIG_TYPES.CRYPTO :=
            [if support_srtp then SRTP_CRYPTO_SUITES.AES_CM_128_HMAC_SHA1_80
             else SRTP_CRYPTO_SUITES.NONE] ]}.
Proof. destruct support_srtp; vm_compute; reflexivity. Qed.

(** ** Ports *)

Lemma byte_to_Z_range (b : byte) : 0 ≤ byte_to_Z b < 256.
Proof.
  unfold byte_to_Z. pose proof (Byte.to_N_bounded b) as H.
lia.
Qed.

Lemma byte_of_to_Z (b : byte) : byte_of_Z (byte_to_Z b) = b.
Proof. unfold byte_of_Z, byte_to_Z. by rewrite N2Z.id, Byte.of_to_N. Qed.

Lemma unpack_H_packable (b : bytes) (z : Z) : unpack_H b = Ok z → packable z.
Proof.
  destruct b as [|lo [|hi [|? ?]]]; try done. intros [= <-].
  pose proof (byte_to_Z_range lo). pose proof (byte_to_Z_range hi).
  unfold packable. lia.
Qed.

Lemma pack_unpack_H (b : bytes) (z : Z) : unpack_H b = Ok z → pack_H z = Ok b.
Proof.
  intros H. rewrite pack_H_packable by by eapply unpack_H_packable.
  destruct b as [|lo [|hi [|? ?]]]; try done. injection H as <-.
  pose proof (byte_to_Z_range lo). pose proof (byte_to_Z_range hi).
  unfold le16. do 2 f_equal.
  - replace ((byte_to_Z lo + 256 * byte_to_Z hi) `mod` 256) with (byte_to_Z lo).
    + by rewrite byte_of_to_Z.
    + rewrite Z.mul_comm, Z.mod_add by lia. by rewrite Z.mod_small.
  - replace ((byte_to_Z lo + 256 * byte_to_Z hi) `div` 256) with (byte_to_Z hi).
    + by rewrite byte_of_to_Z.
    + rewrite Z.mul_comm, Z.div_add by lia. rewrite Z.div_small by lia. lia.
Qed.

(** ** The endpoint negotiator on every request *)

(** The address block of a request that [set_endpoints] can read. *)
Lemma parse_endpoints_address (value : pystr) (r : endpoints) :
  parse_endpoints value = Ok r →
  ∃ objs info a vb ab,
    request_objs value = Ok objs
    ∧ objs !! SETUP_TYPES.SESSION_ID = Some (ep_session_id r)
    ∧ request_address_info value = Ok info
    ∧ info !! SETUP_ADDR_INFO.ADDRESS = Some a ∧ utf8.decode a = Ok (ep_address r)
    ∧ info !! SETUP_ADDR_INFO.VIDEO_RTP_PORT = Some vb
    ∧ unpack_H vb = Ok (ep_video_port r)
    ∧ info !! SETUP_ADDR_INFO.AUDIO_RTP_PORT = Some ab
    ∧ unpack_H ab = Ok (ep_audio_port r).
Proof.
  unfold parse_endpoints. intros H.
  apply exc_bind_Ok in H as (objs & Hobjs & H).
  apply exc_bind_Ok in H as (session_id & Hsid%getitem_Ok & H).
  apply exc_bind_Ok in H as (address_tlv & Haddr & H).
  apply exc_bind_Ok in H as (info & Hinfo & H).
  apply exc_bind_Ok in H as (is_ipv6 & _ & H).
  apply exc_bind_Ok in H as (address & (a & Ha%getitem_Ok & Hdec)%exc_bind_Ok & H).
  apply exc_bind_Ok in H as (vport & (vb & Hvb%getitem_Ok & Hvp)%exc_bind_Ok & H).
  apply exc_bind_Ok in H as (aport & (ab & Hab%getitem_Ok & Hap)%exc_bind_Ok & H).
  apply exc_bind_Ok in H as (video_tlv & _ & H).
  apply exc_bind_Ok in H as (video & _ & H).
  apply exc_bind_Ok in H as (audio_tlv & _ & H).
  apply exc_bind_Ok in H as (audio & _ & H).
  injection H as <-. cbn [ep_session_id ep_address ep_video_port ep_audio_port].
  assert (request_address_info value = Ok info) as Hreq.
  { unfold request_address_info, request_objs. apply exc_bind_Ok. exists objs.
    split; [done|]. apply exc_bind_Ok. by exists address_tlv. }
  by exists objs, info, a, vb, ab.
Qed.

(** The response to a request that can be read fails on the accessory's
    own address only. *)
Lemma response_tlv_run (st : state) (r : endpoints) (value : pystr) :
  parse_endpoints value = Ok r →
  response_tlv st r
  = match utf8.encode (stream_address st) with
    | inl e => Raise e
    | inr a =>
        Ok (tlv.encode
          [(SETUP_TYPES.SESSION_ID, ep_session_id r);
           (SETUP_TYPES.STATUS, [SETUP_STATUS.SUCCESS]);
           (SETUP_TYPES.ADDRESS,
              tlv.encode [(SETUP_ADDR_INFO.ADDRESS_VER, stream_address_isv6 st);
                          (SETUP_ADDR_INFO.ADDRESS, a);
                          (SETUP_ADDR_INFO.VIDEO_RTP_PORT, le16 (ep_video_port r));
                          (SETUP_ADDR_INFO.AUDIO_RTP_PORT, le16 (ep_audio_port r))]);
           (SETUP_TYPES.VIDEO_SRTP_PARAM, (srtp_blocks (support_srtp st) r).1);
           (SETUP_TYPES.AUDIO_SRTP_PARAM, (srtp_blocks (support_srtp st) r).2);
           (SETUP_TYPES.VIDEO_SSRC, [x01]);
           (SETUP_TYPES.AUDIO_SSRC, [x01])])
    end.
Proof.
  intros (objs & info & a' & vb & ab & _ & _ & _ & _ & _ & _ & Hvp & _ & Hap)
    %parse_endpoints_address.
  unfold response_tlv. destruct (utf8.encode (stream_address st)) as [e|a]; [done|].
  cbn [mbind exc_bind].
  rewrite (pack_H_packable (ep_video_port r)) by by eapply unpack_H_packable.
  rewrite (pack_H_packable (ep_audio_port r)) by by eapply unpack_H_packable.
  reflexivity.
Qed.

(** X6.  [set_endpoints] returns exactly when the request can be read
    (it decodes and has every field that lines 520-545 read, well formed)
    and the accessory's own address can be encoded in UTF-8.  Building the
    response adds no other failure: the ports, unpacked from two bytes
    each, are always packed again. *)
Theorem set_endpoints_returns (value : pystr) (st : state) :
  (∃ st', set_endpoints value st = (st', Ok tt))
  ↔ (∃ r, parse_endpoints value = Ok r)
    ∧ (∃ a, utf8.encode (stream_address st) = Ok a).
Proof.
  rewrite set_endpoints_run. split.
  - intros [st' H]. destruct (parse_endpoints value) as [e|r] eqn:Hparse; [done|].
    split; [by exists r|]. rewrite (response_tlv_run st r value Hparse) in H.
    destruct (utf8.encode (stream_address st)) as [e|a]; [done|]. by exists a.
  - intros [[r Hparse] [a Ha]]. pose proof (response_tlv_run st r value Hparse) as Hr.
    rewrite Ha in Hr. rewrite Hparse. unfold Ok in *. rewrite Hr. eauto.
Qed.

(** X7.  When [set_endpoints] returns, the response that it has written
    decodes to: the session id of the request; the status SUCCESS; and an
    address block that decodes to the accessory's own address version and
    address (not the controller's) and to the video and audio ports of the
    request, byte for byte. *)
Theorem response_echoes_request (value : pystr) (st st' : state) :
  set_endpoints value st = (st', Ok tt) →
  ∃ objs info response robjs block rinfo a,
    request_objs value = Ok objs ∧ request_address_info value = Ok info
    ∧ characteristics st' !! "SetupEndpoints"%string = Some (toBase64Str response)
    ∧ tlv.decode response = Ok robjs
    ∧ robjs !! SETUP_TYPES.SESSION_ID = objs !! SETUP_TYPES.SESSION_ID
    ∧ robjs !! SETUP_TYPES.STATUS = Some [SETUP_STATUS.SUCCESS]
    ∧ robjs !! SETUP_TYPES.ADDRESS = Some block
    ∧ tlv.decode block = Ok rinfo
    ∧ rinfo !! SETUP_ADDR_INFO.ADDRESS_VER = Some (stream_address_isv6 st)
    ∧ utf8.encode (stream_address st) = Ok a
    ∧ rinfo !! SETUP_ADDR_INFO.ADDRESS = Some a
    ∧ rinfo !! SETUP_ADDR_INFO.VIDEO_RTP_PORT = info !! SETUP_ADDR_INFO.VIDEO_RTP_PORT
    ∧ rinfo !! SETUP_ADDR_INFO.AUDIO_RTP_PORT = info !! SETUP_ADDR_INFO.AUDIO_RTP_PORT.
Proof.
  intros (r & response & Hparse & Hresponse & ->)%set_endpoints_Ok.
  destruct (parse_endpoints_address _ _ Hparse)
    as (objs & info & a' & vb & ab & Hobjs & Hsid & Hinfo & _ & _ & Hvb & Hvp & Hab & Hap).
  unfold response_tlv in Hresponse.
  apply exc_bind_Ok in Hresponse as (a & Ha & Hresponse).
  rewrite (pack_unpack_H vb _ Hvp), (pack_unpack_H ab _ Hap) in Hresponse.
  apply Ok_inj in Hresponse. subst response.
  eexists objs, info, _, _, _, _, a.
  do 2 (split; [done|]).
  split; [unfold negotiated; st_simpl; apply lookup_insert_eq|].
  split; [apply decode_encode; compute_done|]. cbn [foldl fst snd].
  split; [rewrite Hsid, !lookup_insert_ne by done; apply lookup_insert_eq|].
  split; [rewrite !lookup_insert_ne by done; apply lookup_insert_eq|].
  split; [rewrite !lookup_insert_ne by done; apply lookup_insert_eq|].
  split; [apply decode_encode; compute_done|]. cbn [foldl fst snd].
  split; [rewrite !lookup_insert_ne by done; apply lookup_insert_eq|].
  split; [done|].
  split; [rewrite !lookup_insert_ne by done; apply lookup_insert_eq|].
  split; [rewrite Hvb, !lookup_insert_ne by done; apply lookup_insert_eq|].
  rewrite Hab. apply lookup_insert_eq.
Qed.

Lemma response_echoes_request_witness :
  set_endpoints scenario.setup scenario.accessory = (scenario.configured, Ok tt)
  ∧ ∃ objs info response robjs block rinfo a,
      request_objs scenario.setup = Ok objs
      ∧ request_address_info scenario.setup = Ok info
      ∧ characteristics scenario.configured !! "SetupEndpoints"%string
        = Some (toBase64Str response)
      ∧ tlv.decode response = Ok robjs
      ∧ robjs !! SETUP_TYPES.SESSION_ID = objs !! SETUP_TYPES.SESSION_ID
      ∧ robjs !! SETUP_TYPES.STATUS = Some [SETUP_STATUS.SUCCESS]
      ∧ robjs !! SETUP_TYPES.ADDRESS = Some block
      ∧ tlv.decode block = Ok rinfo
      ∧ rinfo !! SETUP_ADDR_INFO.ADDRESS_VER
        = Some (stream_address_isv6 scenario.accessory)
      ∧ utf8.encode (stream_address scenario.accessory) = Ok a
      ∧ rinfo !! SETUP_ADDR_INFO.ADDRESS = Some a
      ∧ rinfo !! SETUP_ADDR_INFO.VIDEO_RTP_PORT = info !! SETUP_ADDR_INFO.VIDEO_RTP_PORT
      ∧ rinfo !! SETUP_ADDR_INFO.AUDIO_RTP_PORT = info !! SETUP_ADDR_INFO.AUDIO_RTP_PORT.
Proof.
  assert (set_endpoints scenario.setup scenario.accessory
          = (scenario.configured, Ok tt)) as H by (vm_compute; reflexivity).
  split; [exact H|]. exact (response_echoes_request _ _ _ H).
Defined.

(** The events of an explicit list start and kill nothing. *)
Ltac no_process_event :=
  repeat (apply Forall_cons_2; [intros Hp; exact Hp|]); apply Forall_nil_2.

(** X8.  [set_endpoints] never touches the streaming status, the selected
    configuration, the processes or the accessory's configuration, and
    writes no characteristic but SetupEndpoints; it starts and kills
    nothing.  When it raises, the session store and every characteristic
    are as before: the record and the response are written only after
    everything that can fail. *)
Theorem set_endpoints_frame (value : pystr) (st : state) :
  let st' := (set_endpoints value st).1 in
  streaming_status st' = streaming_status st
  ∧ selected_config st' = selected_config st
  ∧ session_id st' = session_id st
  ∧ running st' = running st ∧ next_pid st' = next_pid st
  ∧ support_srtp st' = support_srtp st
  ∧ stream_address st' = stream_address st
  ∧ stream_address_isv6 st' = stream_address_isv6 st
  ∧ (∀ name, name ≠ "SetupEndpoints"%string
             → characteristics st' !! name = characteristics st !! name)
  ∧ (∃ events, trace st' = trace st ++ events
               ∧ Forall (λ e, ¬ process_event e) events)
  ∧ ((set_endpoints value st).2 ≠ Ok tt
     → sessions st' = sessions st ∧ characteristics st' = characteristics st).
Proof.
  rewrite set_endpoints_run.
  destruct (parse_endpoints value) as [e|r].
  { cbn [fst snd]. conjuncts; try done. exists []. by rewrite app_nil_r. }
  destruct (response_tlv st r) as [e|response]; cbn [fst snd].
  - st_simpl. conjuncts; try done. exists [received r]. split; [done|].
    no_process_event.
  - unfold negotiated. st_simpl. conjuncts; try done.
    + intros name Hname. by rewrite lookup_insert_ne.
    + eexists. split; [done|]. no_process_event.
Qed.

(** X20.  When [set_endpoints] returns, the record that the store holds
    for the session id of the request is made of the request alone: the
    address of its address block decoded from UTF-8, its two ports
    unpacked, the master key and the master salt of its video and of its
    audio SRTP block, the byte 01 for both synchronisation sources, and no
    process.  A record that the store held for that session is replaced,
    its process handle with it; the records of the other sessions are not
    touched. *)
Theorem setup_stores_the_request (value : pystr) (st st' : state) :
  set_endpoints value st = (st', Ok tt) →
  ∃ objs info sid a vb ab record,
    request_objs value = Ok objs ∧ request_address_info value = Ok info
    ∧ objs !! SETUP_TYPES.SESSION_ID = Some sid
    ∧ sessions st' !! sid = Some record
    ∧ (∀ sid', sid' ≠ sid → sessions st' !! sid' = sessions st !! sid')
    ∧ info !! SETUP_ADDR_INFO.ADDRESS = Some a
    ∧ utf8.decode a = Ok (address record)
    ∧ info !! SETUP_ADDR_INFO.VIDEO_RTP_PORT = Some vb
    ∧ unpack_H vb = Ok (video_port record)
    ∧ info !! SETUP_ADDR_INFO.AUDIO_RTP_PORT = Some ab
    ∧ unpack_H ab = Ok (audio_port record)
    ∧ client_srtp value SETUP_TYPES.VIDEO_SRTP_PARAM
      = Ok (video_srtp_key record, video_srtp_salt record)
    ∧ client_srtp value SETUP_TYPES.AUDIO_SRTP_PARAM
      = Ok (audio_srtp_key record, audio_srtp_salt record)
    ∧ video_ssrc record = [x01] ∧ audio_ssrc record = [x01]
    ∧ process record = None.
Proof.
  intros (r & response & Hparse & _ & ->)%set_endpoints_Ok.
  destruct (parse_endpoints_address _ _ Hparse)
    as (objs & info & a & vb & ab & Hobjs & Hsid & Hinfo & Ha & Hdec & Hvb & Hvp & Hab
        & Hap).
  destruct (client_srtp_parsed _ _ Hparse) as [Hv Hau].
  exists objs, info, (ep_session_id r), a, vb, ab, (session_record r).
  unfold negotiated. st_simpl. do 3 (split; [done|]).
  split; [apply lookup_insert_eq|].
  split; [intros sid' Hne; by rewrite lookup_insert_ne|]. done.
Qed.

Lemma setup_stores_the_request_witness :
  set_endpoints scenario.setup scenario.streaming
  = ((set_endpoints scenario.setup scenario.streaming).1, Ok tt)
  ∧ ∃ objs info sid a vb ab record,
      request_objs scenario.setup = Ok objs
      ∧ request_address_info scenario.setup = Ok info
      ∧ objs !! SETUP_TYPES.SESSION_ID = Some sid
      ∧ sessions (set_endpoints scenario.setup scenario.streaming).1 !! sid
        = Some record
      ∧ (∀ sid', sid' ≠ sid →
                 sessions (set_endpoints scenario.setup scenario.streaming).1 !! sid'
                 = sessions scenario.streaming !! sid')
      ∧ info !! SETUP_ADDR_INFO.ADDRESS = Some a
      ∧ utf8.decode a = Ok (address record)
      ∧ info !! SETUP_ADDR_INFO.VIDEO_RTP_PORT = Some vb
      ∧ unpack_H vb = Ok (video_port record)
      ∧ info !! SETUP_ADDR_INFO.AUDIO_RTP_PORT = Some ab
      ∧ unpack_H ab = Ok (audio_port record)
      ∧ client_srtp scenario.setup SETUP_TYPES.VIDEO_SRTP_PARAM
        = Ok (video_srtp_key record, video_srtp_salt record)
      ∧ client_srtp scenario.setup SETUP_TYPES.AUDIO_SRTP_PARAM
        = Ok (audio_srtp_key record, audio_srtp_salt record)
      ∧ video_ssrc record = [x01] ∧ audio_ssrc record = [x01]
      ∧ process record = None.
Proof.
  assert (set_endpoints scenario.setup scenario.streaming
          = ((set_endpoints scenario.setup scenario.streaming).1, Ok tt)) as H
    by (vm_compute; reflexivity).
  split; [exact H|]. exact (setup_stores_the_request _ _ _ H).
Defined.

(** ** The handler of the selected configuration on every request *)

Lemma set_selected_stream_configuration_run (value : pystr) (st : state) :
  set_selected_stream_configuration value st
  = match request_objs value with
    | inl e => (entered value st, Raise e)
    | inr objs =>
        match objs !! SELECTED_STREAM_CONFIGURATION_TYPES.SESSION with
        | None =>
            (with_trace
               (trace (entered value st)
                ++ [Log ERROR "Bad request to set selected stream configuration." []])
               (entered value st), Ok tt)
        | Some session_tlv =>
            match session_kind session_tlv with
            | inl e => (entered value st, Raise e)
            | inr k =>
                (if decide (k = 1) then _start_stream objs false
                 else if decide (k = 0) then _stop_stream objs
                 else if decide (k = 4) then _start_stream objs true
                 else log ERROR "Unknown request type %d" [VInt k])
                  (dispatching value k st)
            end
        end
    end.
Proof.
  unfold set_selected_stream_configuration, request_objs, session_kind.
  do 2 mstep. rewrite try_bind. unfold entered. st_simpl.
  destruct (base64ToBytes value ≫= tlv.decode) as [e|objs]; [done|].
  destruct (objs !! SELECTED_STREAM_CONFIGURATION_TYPES.SESSION) as [session_tlv|];
    [|done].
  rewrite try_bind. destruct (tlv.decode session_tlv) as [e|session]; [done|].
  cbn [mbind exc_bind]. rewrite try_bind.
  destruct (getitem session x02 ≫= first_byte) as [e|k]; [done|].
  mstep. unfold dispatching. by rewrite <- app_assoc.
Qed.

Ltac all_quiet :=
  repeat (apply Forall_cons_2; [exact I|]); apply Forall_nil_2.

Lemma entered_quiet (value : pystr) (st : state) (r : exc unit) :
  outcome value st (entered value st) r.
Proof. unfold entered. st_simpl. apply outcome_quiet. all_quiet. Qed.

Lemma dispatching_quiet (value : pystr) (k : Z) (st : state) (r : exc unit) :
  outcome value st (dispatching value k st) r.
Proof. unfold dispatching. apply outcome_quiet. all_quiet. Qed.

Lemma _start_stream_outcome (value : pystr) (objs : gmap byte bytes) (reconfigure : bool)
    (k : Z) (st : state) :
  k = 1 ∨ k = 4 →
  outcome value st (_start_stream objs reconfigure (dispatching value k st)).1
    (_start_stream objs reconfigure (dispatching value k st)).2.
Proof.
  intros Hk. rewrite _start_stream_run.
  destruct (start_request objs) as [e|[v sid]]; [apply dispatching_quiet|].
  destruct (sessions (dispatching value k st) !! sid) as [info|] eqn:Hinfo;
    [|apply dispatching_quiet].
  unfold start_known.
  destruct (width v); [|apply dispatching_quiet].
  destruct (height v); [|apply dispatching_quiet].
  destruct (video_max_bitrate v); [|apply dispatching_quiet].
  destruct (fps v); [|apply dispatching_quiet].
  destruct (video_ssrc_arg v); [|apply dispatching_quiet].
  destruct (ffmpeg_cmd _ _ _ _ _ _) as [e|cmd]; [apply dispatching_quiet|].
  destruct (ffmpeg_present _).
  - cbn [fst snd]. by eapply outcome_started.
  - cbn [fst snd]. unfold dispatching. st_simpl. rewrite <- app_assoc.
    apply outcome_quiet. all_quiet.
Qed.

Lemma _stop_stream_outcome (value : pystr) (objs : gmap byte bytes) (st : state) :
  outcome value st (_stop_stream objs (dispatching value 0 st)).1
    (_stop_stream objs (dispatching value 0 st)).2.
Proof.
  rewrite _stop_stream_run.
  destruct (objs_session_id objs) as [e|sid]; [apply dispatching_quiet|].
  destruct (sessions (dispatching value 0 st) !! sid) as [info|] eqn:Hinfo;
    [|apply dispatching_quiet].
  cbn [fst snd]. by eapply outcome_stopped.
Qed.

(** Every call of the handler has one of the three outcomes. *)
Lemma set_selected_stream_configuration_outcome (value : pystr) (st : state) :
  outcome value st (set_selected_stream_configuration value st).1
    (set_selected_stream_configuration value st).2.
Proof.
  rewrite set_selected_stream_configuration_run.
  destruct (request_objs value) as [e|objs]; [apply entered_quiet|].
  destruct (objs !! SELECTED_STREAM_CONFIGURATION_TYPES.SESSION) as [session_tlv|].
  - destruct (session_kind session_tlv) as [e|k]; [apply entered_quiet|].
    destruct (decide (k = 1)) as [->|]; [apply _start_stream_outcome; by left|].
    destruct (decide (k = 0)) as [->|]; [apply _stop_stream_outcome|].
    destruct (decide (k = 4)) as [->|]; [apply _start_stream_outcome; by right|].
    unfold log, emit, modify, dispatching. cbn [fst snd]. st_simpl.
    rewrite <- app_assoc. apply outcome_quiet. all_quiet.
  - cbn [fst snd]. unfold entered. st_simpl. rewrite <- app_assoc.
    apply outcome_quiet. all_quiet.
Qed.

(** X9.  Whatever the request and whatever becomes of it (served, refused
    with a log, or raising), when the handler is left the attribute
    [selected_config] holds the text of that request: it is assigned
    before the request is decoded, and nothing assigns it again. *)
Theorem selected_config_is_last_request (value : pystr) (st : state) :
  selected_config (set_selected_stream_configuration value st).1 = Some value.
Proof.
  destruct (set_selected_stream_configuration_outcome value st)
    as [events r _|k sid info cmd _ _|sid info _].
  - done.
  - done.
  - unfold stopped. by destruct (process info).
Qed.

(** X10.  A request that decodes but has no session block is answered by
    the error log "Bad request to set selected stream configuration.": the
    handler returns, and nothing but [selected_config] and the log has
    changed, even when the request has a video or an audio block. *)
Theorem request_without_session_block (value : pystr) (objs : gmap byte bytes)
    (st : state) :
  request_objs value = Ok objs →
  objs !! SELECTED_STREAM_CONFIGURATION_TYPES.SESSION = None →
  set_selected_stream_configuration value st
  = (with_trace
       (trace st
        ++ [Log DEBUG "set_selected_stream_config - value - %s" [VStr value];
            Log ERROR "Bad request to set selected stream configuration." []])
       (with_selected_config (Some value) st), Ok tt).
Proof.
  intros Hobjs Hnone. rewrite set_selected_stream_configuration_run, Hobjs.
  unfold Ok. rewrite Hnone. unfold entered. st_simpl. by rewrite <- app_assoc.
Qed.

Lemma request_without_session_block_witness :
  request_objs requests.without_session = Ok {[ x02 := [x00] ]}
  ∧ ({[ x02 := [x00] ]} : gmap byte bytes)
      !! SELECTED_STREAM_CONFIGURATION_TYPES.SESSION = None
  ∧ set_selected_stream_configuration requests.without_session scenario.configured
    = (with_trace
         (trace scenario.configured
          ++ [Log DEBUG "set_selected_stream_config - value - %s" [VStr requests.without_session];
              Log ERROR "Bad request to set selected stream configuration." []])
         (with_selected_config (Some requests.without_session) scenario.configured), Ok tt).
Proof.
  assert (request_objs requests.without_session = Ok {[ x02 := [x00] ]}) as Hobjs
    by (vm_compute; reflexivity).
  assert (({[ x02 := [x00] ]} : gmap byte bytes)
            !! SELECTED_STREAM_CONFIGURATION_TYPES.SESSION = None) as Hnone
    by (vm_compute; reflexivity).
  split; [exact Hobjs|]. split; [exact Hnone|].
  exact (request_without_session_block _ _ scenario.configured Hobjs Hnone).
Defined.

(** X11.  A request whose session block decodes but has no request kind
    (field 02) raises [KeyError], and one whose request kind is empty
    raises [IndexError]; in both cases nothing but [selected_config] and
    the first debug log has changed. *)
Theorem request_without_kind (value : pystr) (session : gmap byte bytes) (st : state) :
  request_session value = Ok session →
  (session !! x02 = None
   → set_selected_stream_configuration value st = (entered value st, Raise KeyError))
  ∧ (session !! x02 = Some []
     → set_selected_stream_configuration value st
       = (entered value st, Raise IndexError)).
Proof.
  unfold request_session. intros (objs & Hobjs & Hs)%exc_bind_Ok.
  apply exc_bind_Ok in Hs as (session_tlv & Htlv%getitem_Ok & Hs).
  split; intros Hk;
    rewrite set_selected_stream_configuration_run, Hobjs; unfold Ok at 1;
    rewrite Htlv.
  - assert (session_kind session_tlv = Raise KeyError) as ->; [|done].
    unfold session_kind. rewrite Hs. unfold Ok, getitem. cbn [mbind exc_bind].
    by rewrite Hk.
  - assert (session_kind session_tlv = Raise IndexError) as ->; [|done].
    unfold session_kind. rewrite Hs. unfold Ok, getitem. cbn [mbind exc_bind].
    by rewrite Hk.
Qed.

Lemma request_without_kind_witness :
  request_session requests.without_kind = Ok {[ x01 := scenario.sid ]}
  ∧ (({[ x01 := scenario.sid ]} : gmap byte bytes) !! x02 = None
     → set_selected_stream_configuration requests.without_kind scenario.configured
       = (entered requests.without_kind scenario.configured, Raise KeyError))
  ∧ (({[ x01 := scenario.sid ]} : gmap byte bytes) !! x02 = Some []
     → set_selected_stream_configuration requests.without_kind scenario.configured
       = (entered requests.without_kind scenario.configured, Raise IndexError)).
Proof.
  assert (request_session requests.without_kind = Ok {[ x01 := scenario.sid ]}) as H
    by (vm_compute; reflexivity).
  split; [exact H|]. exact (request_without_kind _ _ scenario.configured H).
Defined.

(** X12.  The handler is all or nothing.  Whenever an exception escapes
    it, whatever the request and the state, nothing but [selected_config]
    and the log has changed: the session store, the processes, the
    streaming status and every characteristic are as before, no process
    has been started or killed, and no characteristic has been written. *)
Theorem failure_changes_nothing (value : pystr) (st : state) :
  (set_selected_stream_configuration value st).2 ≠ Ok tt →
  ∃ events,
    (set_selected_stream_configuration value st).1
    = with_trace (trace st ++ events) (with_selected_config (Some value) st)
    ∧ Forall quiet events.
Proof.
  intros Hr.
  destruct (set_selected_stream_configuration_outcome value st)
    as [events r Hq|k sid info cmd _ _|sid info _]; [|done..].
  by exists events.
Qed.

Lemma failure_changes_nothing_witness :
  (set_selected_stream_configuration scenario.start_without_video
     scenario.configured).2 ≠ Ok tt
  ∧ ∃ events,
      (set_selected_stream_configuration scenario.start_without_video
         scenario.configured).1
      = with_trace (trace scenario.configured ++ events)
          (with_selected_config (Some scenario.start_without_video)
             scenario.configured)
      ∧ Forall quiet events.
Proof.
  assert ((set_selected_stream_configuration scenario.start_without_video
             scenario.configured).2 ≠ Ok tt) as H.
  { assert ((set_selected_stream_configuration scenario.start_without_video
               scenario.configured).2 = Raise (UnboundLocalError "width")) as ->
      by (vm_compute; reflexivity).
    discriminate. }
  split; [exact H|]. exact (failure_changes_nothing _ _ H).
Defined.

(** ** Starts and stops that are served *)

Example requests_of_the_controller :
  scenario.start
  = toBase64Str (tlv.encode
      [(SELECTED_STREAM_CONFIGURATION_TYPES.SESSION, requests.session_block x01);
       (SELECTED_STREAM_CONFIGURATION_TYPES.VIDEO, requests.video_block)])
  ∧ request_type requests.start_with_audio = Ok 1
  ∧ request_session_id requests.start_with_audio = Ok scenario.sid.
Proof. split; [|split]; vm_compute; reflexivity. Qed.

Lemma start_request_session_id (objs : gmap byte bytes) (v : video_locals) (sid : bytes) :
  start_request objs = Ok (v, sid) → objs_session_id objs = Ok sid.
Proof.
  unfold start_request. intros H.
  apply exc_bind_Ok in H as (v' & _ & H).
  apply exc_bind_Ok in H as ([] & _ & H).
  apply exc_bind_Ok in H as (sid' & Hsid & H).
  by injection H as _ <-.
Qed.

(** What the handler has done when a start or a reconfigure returns. *)
Lemma start_served (value : pystr) (k : Z) (st st' : state) :
  request_type value = Ok k → k = 1 ∨ k = 4 →
  set_selected_stream_configuration value st = (st', Ok tt) →
  ∃ objs v sid info w h b f cmd,
    request_objs value = Ok objs ∧ start_request objs = Ok (v, sid)
    ∧ request_session_id value = Ok sid
    ∧ sessions st !! sid = Some info
    ∧ width v = Some w ∧ height v = Some h ∧ video_max_bitrate v = Some b
    ∧ fps v = Some f
    ∧ ffmpeg_cmd info 1 (Z.min f 30) (or_int w 1280) (or_int h 720) (or_int b 300)
      = Ok cmd
    ∧ st' = started sid cmd (dispatching value k st).
Proof.
  intros Hk Hkind Hrun. destruct (request_type_objs _ _ Hk) as [objs Hobjs].
  rewrite (dispatch value objs k) in Hrun by done.
  assert (∃ reconfigure, _start_stream objs reconfigure (dispatching value k st)
                         = (st', Ok tt)) as [reconfigure Hst].
  { destruct Hkind as [-> | ->]; [exists false|exists true]; done. }
  apply _start_stream_Ok
    in Hst as (v & sid & info & w & h & b & f & cmd & Hreq & Hinfo & Hw & Hh & Hb & Hf
               & Hcmd & ->).
  exists objs, v, sid, info, w, h, b, f, cmd.
  rewrite (request_session_id_objs _ _ Hobjs), (start_request_session_id _ _ _ Hreq).
  done.
Qed.

(** A stop, in terms of the request. *)
Lemma stop_run (value : pystr) (st : state) :
  request_type value = Ok 0 →
  set_selected_stream_configuration value st
  = match request_session_id value with
    | inl e => (dispatching value 0 st, Raise e)
    | inr sid =>
        match sessions st !! sid with
        | None => (dispatching value 0 st, Raise KeyError)
        | Some info => (stopped sid info (dispatching value 0 st), Ok tt)
        end
    end.
Proof.
  intros Hk. destruct (request_type_objs _ _ Hk) as [objs Hobjs].
  rewrite (dispatch value objs 0) by done.
  rewrite (request_session_id_objs _ _ Hobjs).
  rewrite decide_False, decide_True by done. rewrite _stop_stream_run.
  destruct (objs_session_id objs) as [e|sid]; [done|].
  change (sessions (dispatching value 0 st)) with (sessions st).
  by destruct (sessions st !! sid).
Qed.

(** X13.  When a start or a reconfigure returns, the session store has
    changed at the session of the request only: its record is as stored
    by the setup, with the new process as its handle, and every other
    record is untouched.  The processes are those of before and the new
    one, the streaming status is STREAMING and is published, and
    [session_id] is as before: a start never assigns it. *)
Theorem start_updates_one_session (value : pystr) (k : Z) (st st' : state) :
  request_type value = Ok k → k = 1 ∨ k = 4 →
  set_selected_stream_configuration value st = (st', Ok tt) →
  ∃ sid info cmd,
    request_session_id value = Ok sid
    ∧ sessions st !! sid = Some info
    ∧ sessions st' = <[sid := set_process (next_pid st) info]> (sessions st)
    ∧ running st' = <[next_pid st := cmd]> (running st)
    ∧ next_pid st' = S (next_pid st)
    ∧ streaming_status st' = [STREAMING_STATUS.STREAMING]
    ∧ characteristics st'
      = <["StreamingStatus"%string := lit "AQEB"]> (characteristics st)
    ∧ session_id st' = session_id st.
Proof.
  intros Hk Hkind Hrun.
  destruct (start_served _ _ _ _ Hk Hkind Hrun)
    as (objs & v & sid & info & w & h & b & f & cmd & _ & _ & Hsid & Hinfo & _ & _ & _
        & _ & _ & ->).
  exists sid, info, cmd. unfold started, dispatching. st_simpl.
  split; [done|]. split; [done|].
  split; [by apply alter_alt_Some|]. done.
Qed.

Lemma start_updates_one_session_witness :
  request_type scenario.start = Ok 1 ∧ (1 = 1 ∨ 1 = 4)
  ∧ set_selected_stream_configuration scenario.start scenario.configured
    = (scenario.streaming, Ok tt)
  ∧ ∃ sid info cmd,
      request_session_id scenario.start = Ok sid
      ∧ sessions scenario.configured !! sid = Some info
      ∧ sessions scenario.streaming
        = <[sid := set_process (next_pid scenario.configured) info]>
            (sessions scenario.configured)
      ∧ running scenario.streaming
        = <[next_pid scenario.configured := cmd]> (running scenario.configured)
      ∧ next_pid scenario.streaming = S (next_pid scenario.configured)
      ∧ streaming_status scenario.streaming = [STREAMING_STATUS.STREAMING]
      ∧ characteristics scenario.streaming
        = <["StreamingStatus"%string := lit "AQEB"]>
            (characteristics scenario.configured)
      ∧ session_id scenario.streaming = session_id scenario.configured.
Proof.
  assert (request_type scenario.start = Ok 1) as H1 by (vm_compute; reflexivity).
  assert (set_selected_stream_configuration scenario.start scenario.configured
          = (scenario.streaming, Ok tt)) as Hstart by (vm_compute; reflexivity).
  split; [exact H1|]. split; [left; reflexivity|]. split; [exact Hstart|].
  exact (start_updates_one_session _ 1 _ _ H1 (or_introl eq_refl) Hstart).
Defined.

(** X14.  A start followed by a stop of the same session.  When the start
    (or reconfigure) has returned, the stop returns too; it kills the
    process that the start has created and removes the record of the
    session.  Afterwards the processes are those of before the start, and
    the session is unknown: it cannot be started again without a new
    setup.  The streaming status, set by the start, is still STREAMING. *)
Theorem start_then_stop (value1 value0 : pystr) (k : Z) (st st1 : state) :
  request_type value1 = Ok k → k = 1 ∨ k = 4 →
  set_selected_stream_configuration value1 st = (st1, Ok tt) →
  request_type value0 = Ok 0 →
  request_session_id value0 = request_session_id value1 →
  ∃ sid cmd st2,
    request_session_id value1 = Ok sid
    ∧ set_selected_stream_configuration value0 st1 = (st2, Ok tt)
    ∧ running st1 = <[next_pid st := cmd]> (running st)
    ∧ running st2 = delete (next_pid st) (running st)
    ∧ sessions st2 = delete sid (sessions st)
    ∧ trace st2
      = trace st1
        ++ [Log DEBUG "set_selected_stream_config - value - %s" [VStr value0];
            Log DEBUG "Set stream config request: %d" [VInt 0];
            Kill (next_pid st)]
    ∧ streaming_status st2 = [STREAMING_STATUS.STREAMING]
    ∧ session_id st2 = None.
Proof.
  intros Hk Hkind Hrun H0 Hsame.
  destruct (start_served _ _ _ _ Hk Hkind Hrun)
    as (objs & v & sid & info & w & h & b & f & cmd & _ & _ & Hsid & Hinfo & _ & _ & _
        & _ & _ & ->).
  pose proof (stop_run value0 (started sid cmd (dispatching value1 k st)) H0) as Hstop.
  rewrite Hsame, Hsid in Hstop. unfold Ok in Hstop. cbv iota beta in Hstop.
  assert (sessions (started sid cmd (dispatching value1 k st)) !! sid
          = Some (set_process (next_pid st) info)) as Hrecord.
  { unfold started, dispatching. st_simpl. by rewrite lookup_alter_eq, Hinfo. }
  rewrite Hrecord in Hstop. clear Hrecord.
  exists sid, cmd. eexists. split; [done|]. split; [exact Hstop|]. clear Hstop.
  unfold stopped. cbn [process set_process]. unfold started, dispatching. st_simpl.
  split; [done|].
  split; [by rewrite delete_insert_eq|].
  split; [by rewrite (alter_alt_Some _ _ _ _ Hinfo), delete_insert_eq|].
  split; [by rewrite <- !app_assoc|]. done.
Qed.

Lemma start_then_stop_witness :
  request_type scenario.start = Ok 1 ∧ (1 = 1 ∨ 1 = 4)
  ∧ set_selected_stream_configuration scenario.start scenario.configured
    = (scenario.streaming, Ok tt)
  ∧ request_type scenario.stop = Ok 0
  ∧ request_session_id scenario.stop = request_session_id scenario.start
  ∧ ∃ sid cmd st2,
      request_session_id scenario.start = Ok sid
      ∧ set_selected_stream_configuration scenario.stop scenario.streaming
        = (st2, Ok tt)
      ∧ running scenario.streaming
        = <[next_pid scenario.configured := cmd]> (running scenario.configured)
      ∧ running st2 = delete (next_pid scenario.configured) (running scenario.configured)
      ∧ sessions st2 = delete sid (sessions scenario.configured)
      ∧ trace st2
        = trace scenario.streaming
          ++ [Log DEBUG "set_selected_stream_config - value - %s" [VStr scenario.stop];
              Log DEBUG "Set stream config request: %d" [VInt 0];
              Kill (next_pid scenario.configured)]
      ∧ streaming_status st2 = [STREAMING_STATUS.STREAMING]
      ∧ session_id st2 = None.
Proof.
  assert (request_type scenario.start = Ok 1) as H1 by (vm_compute; reflexivity).
  assert (set_selected_stream_configuration scenario.start scenario.configured
          = (scenario.streaming, Ok tt)) as Hstart by (vm_compute; reflexivity).
  assert (request_type scenario.stop = Ok 0) as H0 by (vm_compute; reflexivity).
  assert (request_session_id scenario.stop = request_session_id scenario.start)
    as Hsame by (vm_compute; reflexivity).
  split; [exact H1|]. split; [left; reflexivity|]. split; [exact Hstart|].
  split; [exact H0|]. split; [exact Hsame|].
  exact (start_then_stop _ _ 1 _ _ H1 (or_introl eq_refl) Hstart H0 Hsame).
Defined.

(** X15.  A setup followed by a stop of the same session.  When the setup
    has returned, the stop returns too and removes the record again; no
    process is killed, whatever the store held for the session before the
    setup.  So a session that was streaming when the setup came keeps its
    process running, with no record left that refers to it. *)
Theorem setup_then_stop (setup value0 : pystr) (r : endpoints) (st st1 : state) :
  set_endpoints setup st = (st1, Ok tt) →
  parse_endpoints setup = Ok r →
  request_type value0 = Ok 0 →
  request_session_id value0 = Ok (ep_session_id r) →
  ∃ st2,
    set_selected_stream_configuration value0 st1 = (st2, Ok tt)
    ∧ sessions st2 = delete (ep_session_id r) (sessions st)
    ∧ running st2 = running st
    ∧ trace st2
      = trace st1
        ++ [Log DEBUG "set_selected_stream_config - value - %s" [VStr value0];
            Log DEBUG "Set stream config request: %d" [VInt 0]].
Proof.
  intros (r' & response & Hparse & _ & ->)%set_endpoints_Ok Hr H0 Hsid.
  rewrite Hparse in Hr. apply Ok_inj in Hr. subst r'.
  pose proof (stop_run value0 (negotiated r response st) H0) as Hstop.
  rewrite Hsid in Hstop. unfold Ok in Hstop. cbv iota beta in Hstop.
  assert (sessions (negotiated r response st) !! ep_session_id r
          = Some (session_record r)) as Hrecord.
  { unfold negotiated. st_simpl. apply lookup_insert_eq. }
  rewrite Hrecord in Hstop. clear Hrecord.
  eexists. split; [exact Hstop|]. clear Hstop.
  unfold stopped. cbn [process session_record]. unfold negotiated, dispatching.
  st_simpl.
  split; [by rewrite delete_insert_eq|]. split; [done|].
  by rewrite <- !app_assoc.
Qed.

Lemma setup_then_stop_witness :
  set_endpoints scenario.setup scenario.streaming
  = ((set_endpoints scenario.setup scenario.streaming).1, Ok tt)
  ∧ parse_endpoints scenario.setup
    = Ok (Endpoints scenario.sid (lit "10.0.0.5") 10000 10001 0
            (String.list_byte_of_string "0123456789abcdef")
            (String.list_byte_of_string "saltsaltsaltsa") 0
            (String.list_byte_of_string "fedcba9876543210")
            (String.list_byte_of_string "pepperpepperpe"))
  ∧ request_type scenario.stop = Ok 0
  ∧ request_session_id scenario.stop = Ok scenario.sid
  ∧ ∃ st2,
      set_selected_stream_configuration scenario.stop
        (set_endpoints scenario.setup scenario.streaming).1 = (st2, Ok tt)
      ∧ sessions st2 = delete scenario.sid (sessions scenario.streaming)
      ∧ running st2 = running scenario.streaming
      ∧ trace st2
        = trace (set_endpoints scenario.setup scenario.streaming).1
          ++ [Log DEBUG "set_selected_stream_config - value - %s" [VStr scenario.stop];
              Log DEBUG "Set stream config request: %d" [VInt 0]].
Proof.
  assert (set_endpoints scenario.setup scenario.streaming
          = ((set_endpoints scenario.setup scenario.streaming).1, Ok tt)) as Hsetup
    by (vm_compute; reflexivity).
  assert (parse_endpoints scenario.setup
          = Ok (Endpoints scenario.sid (lit "10.0.0.5") 10000 10001 0
                  (String.list_byte_of_string "0123456789abcdef")
                  (String.list_byte_of_string "saltsaltsaltsa") 0
                  (String.list_byte_of_string "fedcba9876543210")
                  (String.list_byte_of_string "pepperpepperpe"))) as Hparse
    by (vm_compute; reflexivity).
  assert (request_type scenario.stop = Ok 0) as H0 by (vm_compute; reflexivity).
  assert (request_session_id scenario.stop = Ok scenario.sid) as Hsid
    by (vm_compute; reflexivity).
  split; [exact Hsetup|]. split; [exact Hparse|]. split; [exact H0|].
  split; [exact Hsid|].
  exact (setup_then_stop _ _ _ _ _ Hsetup Hparse H0 Hsid).
Defined.

(** ** What a start request must contain *)

Lemma parse_video_fields (objs : gmap byte bytes) (v : video_locals) (w h f b : Z) :
  parse_video (objs !! SELECTED_STREAM_CONFIGURATION_TYPES.VIDEO) = Ok v →
  width v = Some w → height v = Some h → fps v = Some f →
  video_max_bitrate v = Some b →
  ∃ video_objs attrs rtp,
    getitem objs SELECTED_STREAM_CONFIGURATION_TYPES.VIDEO ≫= tlv.decode = Ok video_objs
    ∧ getitem video_objs VIDEO_TYPES.ATTRIBUTES ≫= tlv.decode = Ok attrs
    ∧ getitem video_objs VIDEO_TYPES.RTP_PARAM ≫= tlv.decode = Ok rtp
    ∧ getitem attrs VIDEO_ATTRIBUTES_TYPES.IMAGE_WIDTH ≫= unpack_H = Ok w
    ∧ getitem attrs VIDEO_ATTRIBUTES_TYPES.IMAGE_HEIGHT ≫= unpack_H = Ok h
    ∧ getitem attrs VIDEO_ATTRIBUTES_TYPES.FRAME_RATE ≫= unpack_B = Ok f
    ∧ unpack_H_opt (rtp !! RTP_PARAM_TYPES.MAX_BIT_RATE) = Ok b.
Proof.
  unfold parse_video. intros H Hw Hh Hf Hb.
  destruct (objs !! SELECTED_STREAM_CONFIGURATION_TYPES.VIDEO)
    as [[|x video_tlv]|] eqn:Hvideo;
    [by injection H as <-| |by injection H as <-].
  apply exc_bind_Ok in H as (video_objs & Hdec & H).
  apply exc_bind_Ok in H as ([] & _ & H).
  apply exc_bind_Ok in H as ([[w' h'] f'] & Hattr & H).
  apply exc_bind_Ok in H as ([s m] & Hrtp & H).
  injection H as <-. cbn [width height fps video_max_bitrate] in Hw, Hh, Hf, Hb.
  subst w' h' f' m.
  destruct (video_objs !! VIDEO_TYPES.ATTRIBUTES) as [[|y attrs_tlv]|] eqn:Hattrs;
    [by injection Hattr| |by injection Hattr].
  apply exc_bind_Ok in Hattr as (attrs & Hattrs_dec & Hattr).
  apply exc_bind_Ok in Hattr as (w' & Hw & Hattr).
  apply exc_bind_Ok in Hattr as (h' & Hh & Hattr).
  apply exc_bind_Ok in Hattr as (f' & Hf & Hattr).
  injection Hattr as -> -> ->.
  destruct (video_objs !! VIDEO_TYPES.RTP_PARAM) as [[|z rtp_tlv]|] eqn:Hrtps;
    [by injection Hrtp| |by injection Hrtp].
  apply exc_bind_Ok in Hrtp as (rtp & Hrtp_dec & Hrtp).
  apply exc_bind_Ok in Hrtp as (b' & Hb & Hrtp).
  injection Hrtp as _ ->.
  exists video_objs, attrs, rtp. unfold getitem.
  rewrite Hvideo, Hattrs, Hrtps. done.
Qed.

Lemma parse_audio_fields (audio_tlv : bytes) :
  parse_audio (Some audio_tlv) = Ok tt → audio_tlv ≠ [] →
  ∃ audio_objs codec_param rtp,
    tlv.decode audio_tlv = Ok audio_objs
    ∧ getitem audio_objs AUDIO_TYPES.CODEC_PARAM ≫= tlv.decode = Ok codec_param
    ∧ getitem audio_objs AUDIO_TYPES.RTP_PARAM ≫= tlv.decode = Ok rtp
    ∧ is_Some (audio_objs !! AUDIO_TYPES.CODEC)
    ∧ is_Some (audio_objs !! AUDIO_TYPES.COMFORT_NOISE)
    ∧ (∀ k, k ∈ [AUDIO_CODEC_PARAM_TYPES.CHANNEL; AUDIO_CODEC_PARAM_TYPES.BIT_RATE;
                 AUDIO_CODEC_PARAM_TYPES.SAMPLE_RATE;
                 AUDIO_CODEC_PARAM_TYPES.PACKET_TIME] → is_Some (codec_param !! k))
    ∧ (∀ k, k ∈ [RTP_PARAM_TYPES.SYNCHRONIZATION_SOURCE; RTP_PARAM_TYPES.PAYLOAD_TYPE;
                 RTP_PARAM_TYPES.MAX_BIT_RATE; RTP_PARAM_TYPES.RTCP_SEND_INTERVAL;
                 RTP_PARAM_TYPES.COMFORT_NOISE_PAYLOAD_TYPE] → is_Some (rtp !! k)).
Proof.
  unfold parse_audio. destruct audio_tlv as [|x audio_tlv]; [done|]. intros H _.
  apply exc_bind_Ok in H as (audio_objs & Hdec & H).
  apply exc_bind_Ok in H as (? & Hcodec%getitem_Ok & H).
  apply exc_bind_Ok in H as (codec_param & Hcp & H).
  apply exc_bind_Ok in H as (rtp & Hrtp & H).
  apply exc_bind_Ok in H as (? & Hcn%getitem_Ok & H).
  apply exc_bind_Ok in H as (? & H1%getitem_Ok & H).
  apply exc_bind_Ok in H as (? & H2%getitem_Ok & H).
  apply exc_bind_Ok in H as (? & H3%getitem_Ok & H).
  apply exc_bind_Ok in H as (? & H4%getitem_Ok & H).
  apply exc_bind_Ok in H as (? & H5%getitem_Ok & H).
  apply exc_bind_Ok in H as (? & H6%getitem_Ok & H).
  apply exc_bind_Ok in H as (? & H7%getitem_Ok & H).
  apply exc_bind_Ok in H as (? & H8%getitem_Ok & H).
  apply exc_bind_Ok in H as (? & H9%getitem_Ok & H).
  exists audio_objs, codec_param, rtp.
  do 3 (split; [done|]). split; [eauto|]. split; [eauto|].
  split; intros k Hk; repeat (apply elem_of_cons in Hk as [->|Hk]); eauto;
    by apply elem_of_nil in Hk.
Qed.

Lemma start_request_Ok (objs : gmap byte bytes) (v : video_locals) (sid : bytes) :
  start_request objs = Ok (v, sid) →
  parse_video (objs !! SELECTED_STREAM_CONFIGURATION_TYPES.VIDEO) = Ok v
  ∧ parse_audio (objs !! SELECTED_STREAM_CONFIGURATION_TYPES.AUDIO) = Ok tt.
Proof.
  unfold start_request. intros H.
  apply exc_bind_Ok in H as (v' & Hv & H).
  apply exc_bind_Ok in H as ([] & Ha & H).
  apply exc_bind_Ok in H as (sid' & _ & H).
  by injection H as <- _.
Qed.

(** The fields of the video block of a start that is served. *)
Lemma start_served_fields (value : pystr) (objs : gmap byte bytes) (v : video_locals)
    (sid : bytes) (w h f b : Z) :
  request_objs value = Ok objs → start_request objs = Ok (v, sid) →
  width v = Some w → height v = Some h → fps v = Some f →
  video_max_bitrate v = Some b →
  request_width value = Ok w ∧ request_height value = Ok h
  ∧ request_frame_rate value = Ok f ∧ request_max_bit_rate value = Ok b.
Proof.
  intros Hobjs [Hv _]%start_request_Ok Hw Hh Hf Hb.
  destruct (parse_video_fields _ _ _ _ _ _ Hv Hw Hh Hf Hb)
    as (video_objs & attrs & rtp & Hvideo & Hattrs & Hrtp & ? & ? & ? & ?).
  assert (request_video value = Ok video_objs) as Hrv.
  { unfold request_video. apply exc_bind_Ok. by exists objs. }
  assert (request_video_attributes value = Ok attrs) as Hra.
  { unfold request_video_attributes. apply exc_bind_Ok. by exists video_objs. }
  assert (request_video_rtp value = Ok rtp) as Hrr.
  { unfold request_video_rtp. apply exc_bind_Ok. by exists video_objs. }
  unfold request_width, request_height, request_frame_rate, request_max_bit_rate.
  conjuncts; apply exc_bind_Ok; eauto.
Qed.

(** X16.  A start or a reconfigure is served only if its audio block is
    absent, empty, or complete: when the request has a non-empty audio
    block and the handler returns, that block decodes and has a codec, a
    comfort noise field, codec parameters with a channel, a bit rate, a
    sample rate and a packet time, and RTP parameters with a
    synchronisation source, a payload type, a maximal bit rate, an RTCP
    interval and a comfort noise payload type; although no value of the
    audio block reaches the command. *)
Theorem served_start_has_audio_fields (value : pystr) (k : Z) (st st' : state)
    (objs : gmap byte bytes) (audio_tlv : bytes) :
  request_type value = Ok k → k = 1 ∨ k = 4 →
  set_selected_stream_configuration value st = (st', Ok tt) →
  request_objs value = Ok objs →
  objs !! SELECTED_STREAM_CONFIGURATION_TYPES.AUDIO = Some audio_tlv →
  audio_tlv ≠ [] →
  ∃ audio_objs codec_param rtp,
    request_audio value = Ok audio_objs
    ∧ request_audio_codec_param value = Ok codec_param
    ∧ request_audio_rtp value = Ok rtp
    ∧ is_Some (audio_objs !! AUDIO_TYPES.CODEC)
    ∧ is_Some (audio_objs !! AUDIO_TYPES.COMFORT_NOISE)
    ∧ (∀ k, k ∈ [AUDIO_CODEC_PARAM_TYPES.CHANNEL; AUDIO_CODEC_PARAM_TYPES.BIT_RATE;
                 AUDIO_CODEC_PARAM_TYPES.SAMPLE_RATE;
                 AUDIO_CODEC_PARAM_TYPES.PACKET_TIME] → is_Some (codec_param !! k))
    ∧ (∀ k, k ∈ [RTP_PARAM_TYPES.SYNCHRONIZATION_SOURCE; RTP_PARAM_TYPES.PAYLOAD_TYPE;
                 RTP_PARAM_TYPES.MAX_BIT_RATE; RTP_PARAM_TYPES.RTCP_SEND_INTERVAL;
                 RTP_PARAM_TYPES.COMFORT_NOISE_PAYLOAD_TYPE] → is_Some (rtp !! k)).
Proof.
  intros Hk Hkind Hrun Hobjs Haudio Hne.
  destruct (start_served _ _ _ _ Hk Hkind Hrun)
    as (objs' & v & sid & info & w & h & b & f & cmd & Hobjs' & Hreq & _).
  rewrite Hobjs in Hobjs'. apply Ok_inj in Hobjs'. subst objs'.
  apply start_request_Ok in Hreq as [_ Ha]. rewrite Haudio in Ha.
  destruct (parse_audio_fields _ Ha Hne)
    as (audio_objs & codec_param & rtp & Hdec & Hcp & Hrtp & Hrest).
  assert (request_audio value = Ok audio_objs) as Hra.
  { unfold request_audio. apply exc_bind_Ok. exists objs. split; [done|].
    apply exc_bind_Ok. exists audio_tlv. by rewrite getitem_Ok. }
  exists audio_objs, codec_param, rtp. split; [done|].
  split; [unfold request_audio_codec_param; apply exc_bind_Ok; eauto|].
  split; [unfold request_audio_rtp; apply exc_bind_Ok; eauto|]. done.
Qed.

Lemma served_start_has_audio_fields_witness :
  request_type requests.start_with_audio = Ok 1 ∧ (1 = 1 ∨ 1 = 4)
  ∧ set_selected_stream_configuration requests.start_with_audio scenario.configured
    = ((set_selected_stream_configuration requests.start_with_audio
          scenario.configured).1, Ok tt)
  ∧ request_objs requests.start_with_audio = Ok (decoded requests.start_with_audio)
  ∧ decoded requests.start_with_audio !! SELECTED_STREAM_CONFIGURATION_TYPES.AUDIO
    = Some requests.audio_block
  ∧ requests.audio_block ≠ []
  ∧ ∃ audio_objs codec_param rtp,
      request_audio requests.start_with_audio = Ok audio_objs
      ∧ request_audio_codec_param requests.start_with_audio = Ok codec_param
      ∧ request_audio_rtp requests.start_with_audio = Ok rtp
      ∧ is_Some (audio_objs !! AUDIO_TYPES.CODEC)
      ∧ is_Some (audio_objs !! AUDIO_TYPES.COMFORT_NOISE)
      ∧ (∀ k, k ∈ [AUDIO_CODEC_PARAM_TYPES.CHANNEL; AUDIO_CODEC_PARAM_TYPES.BIT_RATE;
                   AUDIO_CODEC_PARAM_TYPES.SAMPLE_RATE;
                   AUDIO_CODEC_PARAM_TYPES.PACKET_TIME] → is_Some (codec_param !! k))
      ∧ (∀ k, k ∈ [RTP_PARAM_TYPES.SYNCHRONIZATION_SOURCE;
                   RTP_PARAM_TYPES.PAYLOAD_TYPE; RTP_PARAM_TYPES.MAX_BIT_RATE;
                   RTP_PARAM_TYPES.RTCP_SEND_INTERVAL;
                   RTP_PARAM_TYPES.COMFORT_NOISE_PAYLOAD_TYPE] → is_Some (rtp !! k)).
Proof.
  assert (request_type requests.start_with_audio = Ok 1) as H1
    by (vm_compute; reflexivity).
  assert (set_selected_stream_configuration requests.start_with_audio
            scenario.configured
          = ((set_selected_stream_configuration requests.start_with_audio
                scenario.configured).1, Ok tt)) as Hstart
    by (vm_compute; reflexivity).
  assert (request_objs requests.start_with_audio
          = Ok (decoded requests.start_with_audio)) as Hobjs
    by (vm_compute; reflexivity).
  assert (decoded requests.start_with_audio
            !! SELECTED_STREAM_CONFIGURATION_TYPES.AUDIO
          = Some requests.audio_block) as Haudio by (vm_compute; reflexivity).
  assert (requests.audio_block ≠ []) as Hne by (vm_compute; discriminate).
  split; [exact H1|]. split; [left; reflexivity|]. split; [exact Hstart|].
  split; [exact Hobjs|]. split; [exact Haudio|]. split; [exact Hne|].
  exact (served_start_has_audio_fields _ 1 _ _ _ _ H1 (or_introl eq_refl) Hstart
           Hobjs Haudio Hne).
Defined.

(** ** The command line, word by word *)

Lemma split_words (ws : list pystr) (rest : pystr) :
  Forall (λ w, nospace w ∧ w ≠ []) ws →
  str.split_from [] (concat (map (λ w, w ++ [32%N]) ws) ++ rest)
  = ws ++ str.split_from [] rest.
Proof.
  induction 1 as [|w ws [Hw Hne] _ IH]; [done|].
  cbn [map concat]. rewrite <- !app_assoc.
  rewrite split_from_nospace by done. cbn [app].
  rewrite split_from_cons_space by done. by rewrite IH.
Qed.

Lemma forallb_nospace (s : pystr) :
  forallb (λ c, negb (str.isspace c)) s = true → nospace s.
Proof.
  induction s as [|c s IH]; [constructor|]. cbn [forallb].
  intros [Hc Hs]%andb_prop. constructor; [by destruct (str.isspace c)|by apply IH].
Qed.

Lemma lit_word (s : string) :
  forallb (λ c, negb (str.isspace c)) (lit s) = true → lit s ≠ [] →
  nospace (lit s) ∧ lit s ≠ [].
Proof. intros H Hne. split; [by apply forallb_nospace|done]. Qed.

Lemma nospace_app (s t : pystr) : nospace s → nospace t → nospace (s ++ t).
Proof. apply Forall_app_2. Qed.

Lemma of_uint_nonempty (d : Decimal.uint) : d ≠ Decimal.Nil → str.of_uint d ≠ [].
Proof. by destruct d. Qed.

Lemma sized_word (z : Z) (s : string) :
  forallb (λ c, negb (str.isspace c)) (lit s) = true → lit s ≠ [] →
  nospace (str.of_int z ++ lit s) ∧ str.of_int z ++ lit s ≠ [].
Proof.
  intros H Hne. destruct (lit_word s H Hne) as [Hs _]. split.
  - apply nospace_app; [apply of_int_nospace|done].
  - intros [_ ?]%app_eq_nil. done.
Qed.

Lemma size_word (w h : Z) :
  nospace (str.of_int w ++ lit "x" ++ str.of_int h)
  ∧ str.of_int w ++ lit "x" ++ str.of_int h ≠ [].
Proof.
  split.
  - apply nospace_app; [apply of_int_nospace|].
    apply nospace_app; [|apply of_int_nospace].
    by apply forallb_nospace.
  - intros [_ [? _]%app_eq_nil]%app_eq_nil. done.
Qed.

Lemma command_head_words (w h b : Z) :
  Forall (λ w, nospace w ∧ w ≠ []) (command_head w h b).
Proof.
  unfold command_head.
  repeat match goal with
         | |- Forall _ (lit _ :: _) =>
             apply Forall_cons_2;
             [apply lit_word; [vm_compute; reflexivity|discriminate]|]
         | |- Forall _ ((str.of_int _ ++ lit "k") :: _) =>
             apply Forall_cons_2;
             [apply sized_word; [vm_compute; reflexivity|discriminate]|]
         | |- Forall _ ((str.of_int _ ++ lit "x" ++ str.of_int _) :: _) =>
             apply Forall_cons_2; [apply size_word|]
         end.
  apply Forall_nil_2.
Qed.


Lemma command_text (sw sh sb sp sa sk : pystr) :
  lit "ffmpeg -f video4linux2 -input_format h264 -video_size"
  ++ 32%N :: sw ++ lit "x" ++ sh
  ++ 32%N :: lit "-framerate 20 -i /dev/video0 -vcodec copy -an -payload_type 99 -ssrc 1 -f rtsp -b:v"
  ++ 32%N :: sb ++ lit "k -bufsize " ++ sb
  ++ lit "k -payload_type 99 -f rtp -srtp_out_suite AES_CM_128_HMAC_SHA1_80 -srtp_out_params "
  ++ sk ++ lit " srtp://" ++ sa ++ lit ":" ++ sp
  ++ lit "?rtcpport=" ++ sp ++ lit "&localrtcpport="
  ++ sp ++ lit "&pkt_size=1378"
  = concat (map (λ w, w ++ [32%N])
      [ lit "ffmpeg"; lit "-f"; lit "video4linux2"; lit "-input_format"; lit "h264";
        lit "-video_size"; sw ++ lit "x" ++ sh;
        lit "-framerate"; lit "20"; lit "-i"; lit "/dev/video0"; lit "-vcodec";
        lit "copy"; lit "-an"; lit "-payload_type"; lit "99"; lit "-ssrc"; lit "1";
        lit "-f"; lit "rtsp"; lit "-b:v"; sb ++ lit "k";
        lit "-bufsize"; sb ++ lit "k"; lit "-payload_type"; lit "99";
        lit "-f"; lit "rtp"; lit "-srtp_out_suite"; lit "AES_CM_128_HMAC_SHA1_80";
        lit "-srtp_out_params" ])
    ++ sk ++ 32%N :: lit "srtp://" ++ sa ++ lit ":" ++ sp ++ lit "?rtcpport="
    ++ sp ++ lit "&localrtcpport=" ++ sp ++ lit "&pkt_size=1378".
Proof.
  cbn [map concat]. rewrite <- !app_assoc. vm_compute. reflexivity.
Qed.

(** The command of a session, a width, a height and a bit rate: neither
    the frame rate nor the synchronisation source has a part in it. *)
Lemma ffmpeg_cmd_words (session_info : session) (ssrc fps w h b : Z) :
  ffmpeg_cmd session_info ssrc fps w h b
  = Ok (command_head w h b ++ str.split (command_tail session_info)).
Proof.
  unfold ffmpeg_cmd. rewrite format_FFMPEG_CMD, exc_fmap_Ok. f_equal.
  cbn [render]. rewrite command_text.
  pose proof (split_words _ (command_tail session_info) (command_head_words w h b))
    as H.
  unfold command_head, command_tail, command_url, str.split in *. exact H.
Qed.

Lemma isspace_false (c : N) : (33 ≤ c < 133)%N → str.isspace c = false.
Proof.
  intros Hc. unfold str.isspace, utf8.within.
  repeat (apply orb_false_intro);
    rewrite ?andb_false_iff, ?N.leb_gt, ?N.eqb_neq; lia.
Qed.

Lemma char_bounds (n : N) : (33 ≤ base64.char n < 133)%N.
Proof.
  unfold base64.char.
  destruct (N.ltb_spec n 26); [lia|].
  destruct (N.ltb_spec n 52); [lia|].
  destruct (N.ltb_spec n 62); [lia|].
  destruct (N.eqb_spec n 62); lia.
Qed.

Lemma base64_encode_nospace (data : bytes) : nospace (base64.encode data).
Proof.
  assert (∀ n (data : bytes), (length data ≤ n)%nat → nospace (base64.encode data))
    as H; [|by apply (H (length data))].
  clear data. induction n as [|n IH]; intros data Hn.
  - destruct data; [constructor|simpl in Hn; lia].
  - destruct data as [|a [|b [|c rest]]]; cbn [base64.encode].
    + constructor.
    + repeat (apply Forall_cons_2; [apply isspace_false, char_bounds || done|]).
      constructor.
    + repeat (apply Forall_cons_2; [apply isspace_false, char_bounds || done|]).
      constructor.
    + apply nospace_app.
      * repeat (apply Forall_cons_2; [apply isspace_false, char_bounds|]).
        constructor.
      * apply IH. simpl in Hn. lia.
Qed.

Lemma base64_encode_nonempty (data : bytes) : data ≠ [] → base64.encode data ≠ [].
Proof. by destruct data as [|a [|b [|c rest]]]. Qed.

Lemma command_url_word (session_info : session) :
  nospace (address session_info) →
  nospace (command_url session_info) ∧ command_url session_info ≠ [].
Proof.
  intros Ha. split; [|done]. unfold command_url.
  repeat (apply nospace_app;
          [first [ apply of_int_nospace | exact Ha
                 | apply forallb_nospace; vm_compute; reflexivity ]|]).
  apply forallb_nospace. vm_compute. reflexivity.
Qed.

Lemma command_tail_words (session_info : session) :
  video_srtp_key session_info ++ video_srtp_salt session_info ≠ [] →
  nospace (address session_info) →
  str.split (command_tail session_info)
  = [toBase64Str (video_srtp_key session_info ++ video_srtp_salt session_info);
     command_url session_info].
Proof.
  intros Hkey Ha. destruct (command_url_word _ Ha) as [Hurl Hne].
  unfold str.split, command_tail.
  rewrite split_from_nospace by apply base64_encode_nospace. cbn [app].
  rewrite split_from_cons_space; [|done|by apply base64_encode_nonempty].
  by rewrite split_token.
Qed.

(** X17.  When a start or a reconfigure returns, the request has a video
    block whose attributes carry a width and a height on two bytes and a
    frame rate on one byte, and whose RTP parameters carry a maximal bit
    rate on two bytes; and the process that was started runs the words of
    [FFMPEG_CMD] with the width, the height and the bit rate of the request
    (1280, 720 and 300 for a value of 0), followed by the words of the
    base64 text of the key and salt of the session record and of its
    destination.  The frame rate of the request has no part in it: the
    command always has [-framerate 20].  When the key and salt are not both
    empty and the address of the record has no white space, the command
    has exactly 33 words. *)
Theorem command_of_a_start (value : pystr) (k : Z) (st st' : state) :
  request_type value = Ok k → k = 1 ∨ k = 4 →
  set_selected_stream_configuration value st = (st', Ok tt) →
  ∃ sid session_info w h f b,
    request_session_id value = Ok sid
    ∧ sessions st !! sid = Some session_info
    ∧ request_width value = Ok w ∧ request_height value = Ok h
    ∧ request_frame_rate value = Ok f ∧ request_max_bit_rate value = Ok b
    ∧ running st' !! next_pid st
      = Some (command_head (or_int w 1280) (or_int h 720) (or_int b 300)
              ++ str.split (command_tail session_info))
    ∧ (video_srtp_key session_info ++ video_srtp_salt session_info ≠ [] →
       nospace (address session_info) →
       str.split (command_tail session_info)
       = [toBase64Str (video_srtp_key session_info ++ video_srtp_salt session_info);
          command_url session_info]).
Proof.
  intros Hk Hkind Hrun.
  destruct (start_served _ _ _ _ Hk Hkind Hrun)
    as (objs & v & sid & info & w & h & b & f & cmd & Hobjs & Hreq & Hsid & Hinfo & Hw
        & Hh & Hb & Hf & Hcmd & ->).
  destruct (start_served_fields _ _ _ _ _ _ _ _ Hobjs Hreq Hw Hh Hf Hb)
    as (? & ? & ? & ?).
  exists sid, info, w, h, f, b. do 6 (split; [done|]).
  rewrite ffmpeg_cmd_words in Hcmd. apply Ok_inj in Hcmd. subst cmd.
  split; [unfold started; st_simpl; apply lookup_insert_eq|].
  apply command_tail_words.
Qed.

Lemma command_of_a_start_witness :
  request_type scenario.start = Ok 1 ∧ (1 = 1 ∨ 1 = 4)
  ∧ set_selected_stream_configuration scenario.start scenario.configured
    = (scenario.streaming, Ok tt)
  ∧ ∃ sid session_info w h f b,
      request_session_id scenario.start = Ok sid
      ∧ sessions scenario.configured !! sid = Some session_info
      ∧ request_width scenario.start = Ok w ∧ request_height scenario.start = Ok h
      ∧ request_frame_rate scenario.start = Ok f
      ∧ request_max_bit_rate scenario.start = Ok b
      ∧ running scenario.streaming !! next_pid scenario.configured
        = Some (command_head (or_int w 1280) (or_int h 720) (or_int b 300)
                ++ str.split (command_tail session_info))
      ∧ (video_srtp_key session_info ++ video_srtp_salt session_info ≠ [] →
         nospace (address session_info) →
         str.split (command_tail session_info)
         = [toBase64Str (video_srtp_key session_info
                         ++ video_srtp_salt session_info);
            command_url session_info]).
Proof.
  assert (request_type scenario.start = Ok 1) as H1 by (vm_compute; reflexivity).
  assert (set_selected_stream_configuration scenario.start scenario.configured
          = (scenario.streaming, Ok tt)) as Hstart by (vm_compute; reflexivity).
  split; [exact H1|]. split; [left; reflexivity|]. split; [exact Hstart|].
  exact (command_of_a_start _ 1 _ _ H1 (or_introl eq_refl) Hstart).
Defined.

(** The command of the scenario, in full. *)
Example command_of_the_scenario :
  running scenario.streaming !! 0%nat = Some requests.command
  ∧ request_frame_rate scenario.start = Ok 60.
Proof. split; vm_compute; reflexivity. Qed.

(** ** Sequences of calls *)

Lemma _run_run (st : state) :
  _run st
  = (with_trace
       (trace st ++ [SetValue "StreamingStatus" (lit "AQEB")])
       (with_characteristics
          (<["StreamingStatus"%string := lit "AQEB"]> (characteristics st))
          (with_streaming_status [STREAMING_STATUS.STREAMING] st)), Ok tt).
Proof. unfold _run. do 2 mstep. reflexivity. Qed.

Lemma after_cons (c : call) (cs : list call) (st : state) :
  after (c :: cs) st = after cs (perform c st).1.
Proof. done. Qed.

(** One call: the streaming status is kept or becomes STREAMING, and it
    stays published. *)
Lemma perform_streaming_status (c : call) (st : state) :
  (streaming_status (perform c st).1 = streaming_status st
   ∨ streaming_status (perform c st).1 = [STREAMING_STATUS.STREAMING])
  ∧ (status_published st → status_published (perform c st).1).
Proof.
  unfold status_published. destruct c as [value|value|]; cbn [perform].
  - rewrite set_endpoints_run. destruct (parse_endpoints value) as [e|r]; [cbn [fst]; split; [by left|done]|].
    destruct (response_tlv st r) as [e|response]; [cbn [fst]; split; [by left|done]|].
    cbn [fst]. unfold negotiated. st_simpl. split; [by left|].
    intros H. by rewrite lookup_insert_ne.
  - destruct (set_selected_stream_configuration_outcome value st)
      as [events r _|k sid info cmd _ _|sid info _].
    + st_simpl. split; [by left|done].
    + unfold started. st_simpl. split; [by right|]. intros _. apply lookup_insert_eq.
    + unfold stopped, dispatching.
      destruct (process info); st_simpl; (split; [by left|done]).
  - rewrite _run_run. cbn [fst]. st_simpl. split; [by right|]. intros _.
    apply lookup_insert_eq.
Qed.

(** X18.  Once the accessory streams, it streams for ever: over any
    sequence of calls of [set_endpoints], of
    [set_selected_stream_configuration] and of [_run], whatever their
    arguments and whether they return or raise, the streaming status is
    either the one of the beginning or STREAMING, and after STREAMING it is
    never anything else, not even when every session has been stopped.
    The StreamingStatus characteristic, once it holds the encoded status,
    always does. *)
Theorem streaming_status_is_never_reset (cs : list call) (st : state) :
  (streaming_status (after cs st) = streaming_status st
   ∨ streaming_status (after cs st) = [STREAMING_STATUS.STREAMING])
  ∧ (streaming_status st = [STREAMING_STATUS.STREAMING]
     → streaming_status (after cs st) = [STREAMING_STATUS.STREAMING])
  ∧ (status_published st → status_published (after cs st)).
Proof.
  revert st. induction cs as [|c cs IH]; intros st.
  - split; [by left|]. by split.
  - rewrite after_cons.
    destruct (IH (perform c st).1) as (Hcs & Habs & Hpub).
    destruct (perform_streaming_status c st) as [Hc Hcpub].
    split; [|split].
    + destruct Hcs as [Hcs|Hcs]; [|by right]. rewrite Hcs.
      destruct Hc as [Hc|Hc]; [by left|by right].
    + intros Hst. destruct Hc as [Hc|Hc]; apply Habs; congruence.
    + intros H. by apply Hpub, Hcpub.
Qed.

(** A process that runs, that was started before now, and that no session
    record refers to. *)
Lemma perform_keeps_orphan (c : call) (st : state) (pid : nat) (cmd : list pystr) :
  running st !! pid = Some cmd → (pid < next_pid st)%nat →
  map_Forall (λ _ info, process info ≠ Some pid) (sessions st) →
  running (perform c st).1 !! pid = Some cmd
  ∧ (pid < next_pid (perform c st).1)%nat
  ∧ map_Forall (λ _ info, process info ≠ Some pid) (sessions (perform c st).1).
Proof.
  intros Hrun Hlt Hnone. destruct c as [value|value|]; cbn [perform].
  - rewrite set_endpoints_run. destruct (parse_endpoints value) as [e|r]; [done|].
    destruct (response_tlv st r) as [e|response]; [done|].
    cbn [fst]. unfold negotiated. st_simpl. do 2 (split; [done|]).
    by apply map_Forall_insert_2.
  - destruct (set_selected_stream_configuration_outcome value st)
      as [events r _|k sid info cmd' _ Hinfo|sid info Hinfo].
    + done.
    + unfold started, dispatching. st_simpl.
      split; [rewrite lookup_insert_ne by lia; done|]. split; [lia|].
      intros i x. destruct (decide (i = sid)) as [->|Hne].
      * rewrite lookup_alter_eq, Hinfo. intros [= <-]. cbn [process set_process].
        intros [= ?]. lia.
      * rewrite lookup_alter_ne by done. apply Hnone.
    + pose proof (Hnone _ _ Hinfo) as Hp. cbn beta in Hp.
      unfold stopped, dispatching. destruct (process info) as [p|]; st_simpl.
      * split; [rewrite lookup_delete_ne by congruence; done|]. split; [done|].
        by apply map_Forall_delete.
      * do 2 (split; [done|]). by apply map_Forall_delete.
  - rewrite _run_run. done.
Qed.

(** X19.  A process that no session record refers to can never be
    stopped: over any sequence of calls of [set_endpoints], of
    [set_selected_stream_configuration] and of [_run], it keeps running,
    and no record ever refers to it again.  (Such a process is what a
    reconfigure, or a second setup of a streaming session, leaves
    behind.) *)
Theorem orphan_is_never_killed (cs : list call) (st : state) (pid : nat)
    (cmd : list pystr) :
  running st !! pid = Some cmd → (pid < next_pid st)%nat →
  map_Forall (λ _ info, process info ≠ Some pid) (sessions st) →
  running (after cs st) !! pid = Some cmd
  ∧ map_Forall (λ _ info, process info ≠ Some pid) (sessions (after cs st)).
Proof.
  revert st. induction cs as [|c cs IH]; intros st Hrun Hlt Hnone; [done|].
  rewrite after_cons.
  destruct (perform_keeps_orphan c st pid cmd Hrun Hlt Hnone) as (? & ? & ?).
  by apply IH.
Qed.

Lemma orphan_is_never_killed_witness :
  running scenario.reconfigured !! 0%nat = Some requests.command
  ∧ (0 < next_pid scenario.reconfigured)%nat
  ∧ map_Forall (λ _ info, process info ≠ Some 0%nat) (sessions scenario.reconfigured)
  ∧ running (after stop_and_start_again scenario.reconfigured) !! 0%nat
    = Some requests.command
  ∧ map_Forall (λ _ info, process info ≠ Some 0%nat)
      (sessions (after stop_and_start_again scenario.reconfigured)).
Proof.
  assert (running scenario.reconfigured !! 0%nat = Some requests.command) as Hrun
    by (vm_compute; reflexivity).
  assert (0 < next_pid scenario.reconfigured)%nat as Hlt.
  { assert (next_pid scenario.reconfigured = 2%nat) as -> by (vm_compute; reflexivity).
    lia. }
  assert (map_Forall (λ _ info, process info ≠ Some 0%nat)
            (sessions scenario.reconfigured)) as Hnone.
  { apply map_Forall_lookup. intros sid info.
    assert (sessions scenario.reconfigured
            = {[ scenario.sid :=
                   set_process 1
                     (session_record
                        (Endpoints scenario.sid (lit "10.0.0.5") 10000 10001 0
                           (String.list_byte_of_string "0123456789abcdef")
                           (String.list_byte_of_string "saltsaltsaltsa") 0
                           (String.list_byte_of_string "fedcba9876543210")
                           (String.list_byte_of_string "pepperpepperpe"))) ]}) as ->
      by (vm_compute; reflexivity).
    intros [_ <-]%lookup_singleton_Some. discriminate. }
  split; [exact Hrun|]. split; [exact Hlt|]. split; [exact Hnone|].
  exact (orphan_is_never_killed stop_and_start_again _ _ _ Hrun Hlt Hnone).
Defined.

(** The processes at the end of that sequence: the orphan of the
    reconfigure alone, though no session is left. *)
Example after_stop_and_start_again :
  running (after stop_and_start_again scenario.reconfigured)
  = {[ 0%nat := requests.command ]}
  ∧ sessions (after stop_and_start_again scenario.reconfigured) = ∅
  ∧ streaming_status (after stop_and_start_again scenario.reconfigured)
    = [STREAMING_STATUS.STREAMING].
Proof. conjuncts; vm_compute; reflexivity. Qed.

(** ** Requests that do not decode *)



(** ** A start of a session that streams *)

(** X22.  A start or a reconfigure of a session whose record already has
    a process kills nothing: when it returns, the earlier process still
    runs, the record of the session refers to the new process, and, if no
    other record referred to the earlier process, no record does any more.
    This holds for request kind 1 as for request kind 4. *)
Theorem second_start_orphans_first (value : pystr) (k : Z) (st st' : state)
    (sid : bytes) (session_info : session) (p : nat) (cmd : list pystr) :
  request_type value = Ok k → k = 1 ∨ k = 4 →
  set_selected_stream_configuration value st = (st', Ok tt) →
  request_session_id value = Ok sid →
  sessions st !! sid = Some session_info → process session_info = Some p →
  running st !! p = Some cmd → (p < next_pid st)%nat →
  running st' !! p = Some cmd
  ∧ (p < next_pid st')%nat
  ∧ process <$> sessions st' !! sid = Some (Some (next_pid st))
  ∧ (∃ events, trace st' = trace st ++ events ∧ ∀ q, Kill q ∉ events)
  ∧ (map_Forall (λ sid' info, sid' ≠ sid → process info ≠ Some p) (sessions st)
     → map_Forall (λ _ info, process info ≠ Some p) (sessions st')).
Proof.
  intros Hk Hkind Hrun Hsid Hinfo Hp Hrunning Hlt.
  destruct (start_served _ _ _ _ Hk Hkind Hrun)
    as (objs & v & sid' & info & w & h & b & f & cmd' & _ & _ & Hsid' & Hinfo' & _ & _
        & _ & _ & _ & ->).
  rewrite Hsid in Hsid'. apply Ok_inj in Hsid'. subst sid'.
  unfold started, dispatching. st_simpl.
  split; [rewrite lookup_insert_ne by lia; done|]. split; [lia|].
  split; [by rewrite lookup_alter_eq, Hinfo|].
  split.
  { eexists. rewrite <- app_assoc. split; [reflexivity|]. intros q. not_among. }
  intros Hothers i x. destruct (decide (i = sid)) as [->|Hne].
  - rewrite lookup_alter_eq, Hinfo. intros [= <-]. cbn [process set_process].
    intros [= ?]. lia.
  - rewrite lookup_alter_ne by done. intros Hix. by eapply Hothers.
Qed.

Lemma second_start_orphans_first_witness :
  request_type scenario.start = Ok 1 ∧ (1 = 1 ∨ 1 = 4)
  ∧ set_selected_stream_configuration scenario.start scenario.streaming
    = ((set_selected_stream_configuration scenario.start scenario.streaming).1, Ok tt)
  ∧ request_session_id scenario.start = Ok scenario.sid
  ∧ sessions scenario.streaming !! scenario.sid
    = Some (set_process 0
              (session_record
                 (Endpoints scenario.sid (lit "10.0.0.5") 10000 10001 0
                    (String.list_byte_of_string "0123456789abcdef")
                    (String.list_byte_of_string "saltsaltsaltsa") 0
                    (String.list_byte_of_string "fedcba9876543210")
                    (String.list_byte_of_string "pepperpepperpe"))))
  ∧ running scenario.streaming !! 0%nat = Some requests.command
  ∧ (0 < next_pid scenario.streaming)%nat
  ∧ running (set_selected_stream_configuration scenario.start scenario.streaming).1
      !! 0%nat = Some requests.command
  ∧ (0 < next_pid (set_selected_stream_configuration scenario.start
                     scenario.streaming).1)%nat
  ∧ process <$> sessions (set_selected_stream_configuration scenario.start
                            scenario.streaming).1 !! scenario.sid
    = Some (Some (next_pid scenario.streaming))
  ∧ (∃ events,
       trace (set_selected_stream_configuration scenario.start scenario.streaming).1
       = trace scenario.streaming ++ events ∧ ∀ q, Kill q ∉ events)
  ∧ (map_Forall (λ sid' info, sid' ≠ scenario.sid → process info ≠ Some 0%nat)
       (sessions scenario.streaming)
     → map_Forall (λ _ info, process info ≠ Some 0%nat)
         (sessions (set_selected_stream_configuration scenario.start
                      scenario.streaming).1)).
Proof.
  assert (request_type scenario.start = Ok 1) as H1 by (vm_compute; reflexivity).
  assert (set_selected_stream_configuration scenario.start scenario.streaming
          = ((set_selected_stream_configuration scenario.start
                scenario.streaming).1, Ok tt)) as Hstart
    by (vm_compute; reflexivity).
  assert (request_session_id scenario.start = Ok scenario.sid) as Hsid
    by (vm_compute; reflexivity).
  assert (sessions scenario.streaming !! scenario.sid
          = Some (set_process 0
                    (session_record
                       (Endpoints scenario.sid (lit "10.0.0.5") 10000 10001 0
                          (String.list_byte_of_string "0123456789abcdef")
                          (String.list_byte_of_string "saltsaltsaltsa") 0
                          (String.list_byte_of_string "fedcba9876543210")
                          (String.list_byte_of_string "pepperpepperpe")))))
    as Hinfo by (vm_compute; reflexivity).
  assert (running scenario.streaming !! 0%nat = Some requests.command) as Hrun
    by (vm_compute; reflexivity).
  assert (0 < next_pid scenario.streaming)%nat as Hlt.
  { assert (next_pid scenario.streaming = 1%nat) as -> by (vm_compute; reflexivity).
    lia. }
  split; [exact H1|]. split; [left; reflexivity|]. split; [exact Hstart|].
  split; [exact Hsid|]. split; [exact Hinfo|]. split; [exact Hrun|].
  split; [exact Hlt|].
  exact (second_start_orphans_first _ 1 _ _ _ _ 0%nat _ H1 (or_introl eq_refl) Hstart
           Hsid Hinfo eq_refl Hrun Hlt).
Defined.
